(** * Sponsorship system: financial recalculation and request handlers

    A shallow embedding of [server.js]: the formula evaluator
    ([evaluateFormula]), the student financial calculator
    ([calculateStudentFinancials]), the aggregate recalculator
    ([recalculateAllMetadata]) and the list manipulations of the
    student, sponsor and expense routes.

    JavaScript numbers are IEEE-754 doubles and are modelled by Rocq's
    primitive binary64 floats.  Identifiers and counts (serial numbers,
    CIDs, expense ids, array lengths) hold integers and are modelled by
    [Z]; the sum that generates an expense id is rounded as a double is
    ([nearest_double]).  Objects whose keys the code enumerates are
    ordered association lists; the built-ins of the language that the
    code calls are the fields of a runtime record, so that what is proved
    holds for every runtime.  The text that [evaluateFormula] hands to
    [Function] may run for ever: the functions that evaluate formulas
    and the routes that call them are given a second time over an engine
    ([JSEngine]), with [None] for a run that does not return. *)

From Stdlib Require Import ZArith List String Ascii Bool Floats Lia DecimalString.
Import ListNotations.
Local Open Scope string_scope.

Set Implicit Arguments.

(** ** JavaScript values held by record fields *)

(** The values a JSON field of a student, sponsor or financial record
    holds in the data model: a number, a string, [null], or nothing
    ([undefined], also the result of reading an absent property).
    Booleans, arrays and nested objects are not values of these fields
    in the data model and are not represented. *)
Inductive jsval : Type :=
| VUndef
| VNull
| VNum (x : float)
| VStr (s : string).

(** [!x] for a number: [0], [-0] and [NaN] are falsy. *)
Definition num_falsy (x : float) : bool :=
  (PrimFloat.eqb x 0 || PrimFloat.is_nan x)%bool.

(** [x || 0] where [x] is a number. *)
Definition num_or0 (x : float) : float :=
  if num_falsy x then 0%float else x.

Definition truthy (v : jsval) : bool :=
  match v with
  | VUndef | VNull => false
  | VNum x => negb (num_falsy x)
  | VStr s => negb (String.eqb s EmptyString)
  end.

(** [a || b] *)
Definition js_or (a b : jsval) : jsval := if truthy a then a else b.

(** [a === b] *)
Definition strict_eq (a b : jsval) : bool :=
  match a, b with
  | VUndef, VUndef => true
  | VNull, VNull => true
  | VNum x, VNum y => PrimFloat.eqb x y
  | VStr s, VStr t => String.eqb s t
  | _, _ => false
  end.

(** ** Objects

    A plain object is the list of its own properties in enumeration
    order ([Object.keys]).  Assigning to an existing property keeps its
    place, assigning to a new one appends it.  (Property names that are
    array indices, which JavaScript enumerates first, do not occur among
    the field names of this program.) *)
Definition obj : Type := list (string * jsval).

Definition keys (o : obj) : list string := map fst o.

(** [o[k]] *)
Fixpoint get (o : obj) (k : string) : jsval :=
  match o with
  | [] => VUndef
  | (k', v) :: o' => if String.eqb k' k then v else get o' k
  end.

(** [o[k] = v] *)
Fixpoint set (o : obj) (k : string) (v : jsval) : obj :=
  match o with
  | [] => [(k, v)]
  | (k', v') :: o' =>
      if String.eqb k' k then (k', v) :: o' else (k', v') :: set o' k v
  end.

(** [{ ...target, ...source }] continued from an already built [target]:
    every own key of [source], in order, is read from [source] and
    assigned on the target. *)
Definition spread (target source : obj) : obj :=
  fold_left (fun acc k => set acc k (get source k)) (keys source) target.

(** ** The JavaScript runtime

    Three built-ins of the language are used by the program and are not
    part of its source: the conversion of a number to its text, the
    conversions of a text to a number ([parseFloat] and the [Number]
    conversion applied by arithmetic operators), and the [Function]
    constructor, which compiles and runs a function body.  The program
    is modelled over an arbitrary runtime; [NodeRef] below is a concrete
    one for a documented fragment. *)
Inductive evaluated : Type :=
| ENumber (x : float)   (* the call returned a value of type number *)
| EOther                (* the call returned a value of another type *)
| EThrow.               (* compiling or running the body threw *)

Record JSRuntime : Type := {
  NumberToString : float -> string;
  parseFloatStr : string -> float;
  StringToNumber : string -> float;
  FunctionCall : string -> evaluated
}.

(** ** String helpers standing for the regular expressions of the source *)

Definition is_digit (c : ascii) : bool :=
  let n := nat_of_ascii c in ((48 <=? n) && (n <=? 57))%nat.

Fixpoint string_drop (n : nat) (s : string) : string :=
  match n, s with
  | O, _ => s
  | S n', String _ t => string_drop n' t
  | S _, EmptyString => EmptyString
  end.

(** The replacement text of [String.prototype.replace] for a pattern
    without capture groups: [$$] is a dollar sign, [$&] the match,
    [$`] the text before the match and [$'] the text after it; any other
    dollar sign stands for itself. *)
Fixpoint GetSubstitution (matched before after template : string) : string :=
  match template with
  | EmptyString => EmptyString
  | String c t =>
      if Ascii.eqb c "$" then
        match t with
        | String d t' =>
            if Ascii.eqb d "$" then
              String "$" (GetSubstitution matched before after t')
            else if Ascii.eqb d "&" then
              matched ++ GetSubstitution matched before after t'
            else if Ascii.eqb d "`" then
              before ++ GetSubstitution matched before after t'
            else if Ascii.eqb d "'" then
              after ++ GetSubstitution matched before after t'
            else String c (GetSubstitution matched before after t)
        | EmptyString => String c EmptyString
        end
      else String c (GetSubstitution matched before after t)
  end.

(** [s.replace(new RegExp(pat, 'g'), template)] for a pattern that
    matches exactly the non-empty text [pat]: matches are taken leftmost
    first and do not overlap; [before] is the text already passed and
    [skip] the number of characters of the current match still to pass. *)
Fixpoint replace_from (pat template before : string) (skip : nat) (s : string)
  : string :=
  match s with
  | EmptyString => EmptyString
  | String c t =>
      let before' := before ++ String c EmptyString in
      match skip with
      | S k => replace_from pat template before' k t
      | O =>
          if String.prefix pat s then
            GetSubstitution pat before (string_drop (String.length pat) s) template
            ++ replace_from pat template before' (String.length pat - 1) t
          else String c (replace_from pat template before' 0 t)
      end
  end.

Definition replace_all (pat template s : string) : string :=
  replace_from pat template EmptyString 0 s.

(** [s.replace(/(\d+)%/g, '$1/100')]: a match is a maximal run of digits
    followed by a percent sign, and is replaced by the same digits
    followed by [/100]; so exactly the percent signs that directly
    follow a digit become [/100]. *)
Fixpoint percent_rewrite (prev_digit : bool) (s : string) : string :=
  match s with
  | EmptyString => EmptyString
  | String c t =>
      if (Ascii.eqb c "%" && prev_digit)%bool
      then "/100" ++ percent_rewrite false t
      else String c (percent_rewrite (is_digit c) t)
  end.

(** The longest prefix without a closing parenthesis, and the rest. *)
Fixpoint span_not_rparen (s : string) : string * string :=
  match s with
  | EmptyString => (EmptyString, EmptyString)
  | String c t =>
      if Ascii.eqb c ")" then (EmptyString, s)
      else let (p, r) := span_not_rparen t in (String c p, r)
  end.

(** A match of [/SUM\(([^)]+)\)/] at the start of [s]: the captured
    range text and the length of the whole match. *)
Definition sum_match (s : string) : option (string * nat) :=
  if String.prefix "SUM(" s then
    match span_not_rparen (string_drop 4 s) with
    | (String c p, String _ _) =>
        Some (String c p, 4 + String.length (String c p) + 1)%nat
    | _ => None
    end
  else None.

(** [range.split(':')] *)
Fixpoint split_colon (s : string) : list string :=
  match s with
  | EmptyString => [EmptyString]
  | String c t =>
      if Ascii.eqb c ":" then EmptyString :: split_colon t
      else match split_colon t with
           | h :: r => String c h :: r
           | [] => [String c EmptyString]
           end
  end.

Definition string_tail (s : string) : string :=
  match s with
  | EmptyString => EmptyString
  | String _ t => t
  end.

Definition starts_with_equals (s : string) : bool :=
  match s with
  | String c _ => Ascii.eqb c "="
  | EmptyString => false
  end.

Definition dquote : string := String (ascii_of_nat 34) EmptyString.

Definition EXCHANGE_RATE : float := 4100%float.

(** ** The program over a runtime *)

Section Program.

Variable rt : JSRuntime.

Definition ToString (v : jsval) : string :=
  match v with
  | VUndef => "undefined"
  | VNull => "null"
  | VNum x => NumberToString rt x
  | VStr s => s
  end.

Definition ToNumber (v : jsval) : float :=
  match v with
  | VUndef => nan
  | VNull => 0%float
  | VNum x => x
  | VStr s => StringToNumber rt s
  end.

(** [parseFloat(v)] converts its argument to a string first. *)
Definition parseFloat (v : jsval) : float := parseFloatStr rt (ToString v).

(** [a + b], [a - b], [a * b], [a / b] *)
Definition js_add (a b : jsval) : jsval :=
  match a, b with
  | VStr _, _ | _, VStr _ => VStr (ToString a ++ ToString b)
  | _, _ => VNum (ToNumber a + ToNumber b)
  end.

Definition js_sub (a b : jsval) : jsval := VNum (ToNumber a - ToNumber b).
Definition js_mul (a b : jsval) : jsval := VNum (ToNumber a * ToNumber b).
Definition js_div (a b : jsval) : jsval := VNum (ToNumber a / ToNumber b).

(** *** evaluateFormula *)

(** The callback of the [SUM] rewrite:
    [parts.reduce((sum, part) => sum + (parseFloat(data[part]) || 0), 0)].
    (A part naming a member of [Object.prototype] reads a function
    there, which [parseFloat] maps to [NaN] like [undefined].) *)
Definition sum_range (data : obj) (range : string) : float :=
  fold_left (fun sum part => (sum + num_or0 (parseFloat (get data part)))%float)
            (split_colon range) 0%float.

(** [s.replace(/SUM\(([^)]+)\)/g, callback)] *)
Fixpoint sum_rewrite (data : obj) (skip : nat) (s : string) : string :=
  match s with
  | EmptyString => EmptyString
  | String c t =>
      match skip with
      | S k => sum_rewrite data k t
      | O =>
          match sum_match s with
          | Some (range, len) =>
              NumberToString rt (sum_range data range)
              ++ sum_rewrite data (len - 1) t
          | None => String c (sum_rewrite data 0 t)
          end
      end
  end.

(** The table [replacements], in the order of its entries; each pattern
    is given by the text it matches. *)
Definition replacements (data : obj) : list (string * jsval) :=
  [ ("$E$3", js_or (get data "termly_school_fees") (VNum 0));
    ("$D$3", js_or (get data "termly_school_fees") (VNum 0));
    ("D3", js_or (get data "termly_school_fees") (VNum 0));
    ("E3", js_or (get data "direct_spending_school_fees_ugx_monthly") (VNum 0));
    ("F3", js_or (get data "direct_spending_school_fees_euros_monthly") (VNum 0));
    ("G3", js_or (get data "food") (VNum 0));
    ("H3", js_or (get data "average_medical") (VNum 0));
    ("I3", js_or (get data "school_personal_requirements_transport") (VNum 0));
    ("J3", js_or (get data "admin_utilities") (VNum 0)) ].

(** The text handed to the evaluator: the formula without its first
    character, after the table, the percent and the [SUM] rewrites. *)
Definition substitute (formula : string) (data : obj) : string :=
  let expression := string_tail formula in
  let expression :=
    fold_left (fun e pv => replace_all (fst pv) (ToString (snd pv)) e)
              (replacements data) expression in
  sum_rewrite data 0 (percent_rewrite false expression).

(** The body given to [Function]. *)
Definition function_body (expression : string) : string :=
  dquote ++ "use strict" ++ dquote ++ "; return (" ++ expression ++ ")".

Definition evaluateFormula (formula : string) (data : obj) : float :=
  match FunctionCall rt (function_body (substitute formula data)) with
  | ENumber x => x
  | EOther => 0%float
  | EThrow => 0%float
  end.

(** *** calculateStudentFinancials *)

(** One turn of the loop over [Object.keys(result)]. *)
Definition normalize_value (result : obj) (v : jsval) : jsval :=
  match v with
  | VStr s =>
      if starts_with_equals s then VNum (evaluateFormula s result)
      else VNum (num_or0 (parseFloat (VStr s)))
  | VNull => VNum 0
  | VUndef => VNum 0
  | VNum x => VNum x
  end.

(** [result[key] = ...]: a formula is evaluated against [result] as it
    is at that turn. *)
Definition normalize_step (result : obj) (key : string) : obj :=
  set result key (normalize_value result (get result key)).

Definition normalize (result : obj) : obj :=
  fold_left normalize_step (keys result) result.

(** The assignments after the loop, in the order of the source. *)
Definition derive (result : obj) : obj :=
  let termlyFeesMonthly :=
    js_div (js_or (get result "termly_school_fees") (VNum 0)) (VNum 3) in
  let directSpending :=
    js_or (get result "direct_spending_school_fees_ugx_monthly") (VNum 0) in
  let food := js_or (get result "food") (VNum 0) in
  let medical := js_or (get result "average_medical") (VNum 0) in
  let transport :=
    js_or (get result "school_personal_requirements_transport") (VNum 0) in
  let admin := js_or (get result "admin_utilities") (VNum 0) in
  let result :=
    set result "monthly_output_ugx"
      (js_add (js_add (js_add (js_add (js_add termlyFeesMonthly directSpending)
                                      food) medical) transport) admin) in
  let result :=
    set result "monthly_output_euro"
      (js_div (get result "monthly_output_ugx") (VNum EXCHANGE_RATE)) in
  let result :=
    set result "cash_received_ugx"
      (js_mul (js_or (get result "cash_received_euro") (VNum 0))
              (VNum EXCHANGE_RATE)) in
  let result :=
    set result "plus_minus_diff_ugx"
      (js_sub (get result "cash_received_ugx") (get result "monthly_output_ugx")) in
  let result :=
    set result "plus_minus_diff_euro"
      (js_div (get result "plus_minus_diff_ugx") (VNum EXCHANGE_RATE)) in
  result.

(** [result] starts as the copy [{ ...financialData }]. *)
Definition calculateStudentFinancials (financialData : obj) : obj :=
  derive (normalize (spread [] financialData)).

End Program.

(** ** A reference runtime

    [NodeRef] gives the three built-ins on a fragment of the language,
    enough to run the program on concrete inputs:
    - the text of a number that is an integer of magnitude below 2^53
      (written with all its digits), [NaN] or an infinity;
    - [parseFloat] and [Number] of an optionally signed decimal text
      without exponent whose digits form an integer below 2^53, with at
      most 18 of them after the point (both the digits and the power of
      ten are then exact doubles, so that their quotient is the double
      nearest to the decimal);
    - [Function] bodies of the form ["use strict"; return E] where [E] is
      built from such decimal literals, the binary and unary operators
      [+ - * /], parentheses and calls [Math.sqrt(E)].
    Outside the fragment the reference runtime answers with the empty
    text, [NaN] and a thrown error; it is only used inside it. *)
Module NodeRef.

Definition of_Z (z : Z) : float := PrimFloat.of_uint63 (Uint63.of_Z z).

Definition integer_value (x : float) : option Z :=
  match Prim2SF x with
  | S754_zero _ => Some 0%Z
  | S754_finite sign m e =>
      let mz := Zpos m in
      let magnitude :=
        if (0 <=? e)%Z then Some (mz * 2 ^ e)%Z
        else if (mz mod 2 ^ (- e) =? 0)%Z then Some (mz / 2 ^ (- e))%Z
        else None in
      option_map (fun n => if sign then (- n)%Z else n) magnitude
  | S754_infinity _ => None
  | S754_nan => None
  end.

Definition number_text (x : float) : option string :=
  match Prim2SF x with
  | S754_nan => Some "NaN"
  | S754_infinity false => Some "Infinity"
  | S754_infinity true => Some "-Infinity"
  | _ =>
      match integer_value x with
      | Some n =>
          if (Z.abs n <? 2 ^ 53)%Z
          then Some (NilZero.string_of_int (Z.to_int n))
          else None
      | None => None
      end
  end.

Definition is_space (c : ascii) : bool :=
  let n := nat_of_ascii c in
  ((n =? 32) || ((9 <=? n) && (n <=? 13)))%nat.

Fixpoint skip_ws (s : string) : string :=
  match s with
  | String c t => if is_space c then skip_ws t else s
  | EmptyString => s
  end.

Definition digit_value (c : ascii) : Z := Z.of_nat (nat_of_ascii c - 48).

(** Reads a run of digits: the integer they continue from [acc], their
    number, and the rest. *)
Fixpoint read_digits (acc : Z) (cnt : nat) (s : string) : Z * nat * string :=
  match s with
  | String c t =>
      if is_digit c then read_digits (acc * 10 + digit_value c) (S cnt) t
      else (acc, cnt, s)
  | EmptyString => (acc, cnt, s)
  end.

(** A decimal literal at the start of [s]: digits, then optionally a
    point and further digits.  In strict code an integer part of several
    digits must not begin with [0]. *)
Definition p_number (s : string) : option (float * string) :=
  let '(ip, n1, r1) := read_digits 0 0 s in
  if (n1 =? 0)%nat then None
  else if (String.prefix "0" s && (1 <? n1)%nat)%bool then None
  else
    let '(m, k, r2) :=
      match r1 with
      | String c t => if Ascii.eqb c "." then read_digits ip 0 t else (ip, O, r1)
      | EmptyString => (ip, O, r1)
      end in
    if ((m <? 2 ^ 53)%Z && (k <=? 18)%nat)%bool
    then Some ((of_Z m / of_Z (10 ^ Z.of_nat k))%float, r2)
    else None.

(** An operator character directly followed by a character with which it
    forms another token ([++], [--], [**], [//], [/*]). *)
Definition clash (c : ascii) (rest : string) : bool :=
  match rest with
  | String d _ => (Ascii.eqb c d || (Ascii.eqb c "/" && Ascii.eqb d "*"))%bool
  | EmptyString => false
  end.

Definition expect_rparen (r : option (float * string)) : option (float * string) :=
  match r with
  | Some (v, rest) =>
      match skip_ws rest with
      | String d rest' => if Ascii.eqb d ")" then Some (v, rest') else None
      | EmptyString => None
      end
  | None => None
  end.

Section Expression.

(** With [calls] off the grammar is plain arithmetic: numbers, the four
    operators and parentheses. *)
Variable calls : bool.

Fixpoint p_expr (n : nat) (s : string) {struct n} : option (float * string) :=
  match n with
  | O => None
  | S n' =>
      match p_term n' s with
      | Some (v, r) => p_expr_rest n' v r
      | None => None
      end
  end
with p_expr_rest (n : nat) (acc : float) (s : string) {struct n}
  : option (float * string) :=
  match n with
  | O => None
  | S n' =>
      match skip_ws s with
      | String c r =>
          if Ascii.eqb c "+" then
            if clash c r then None
            else match p_term n' r with
                 | Some (v, r') => p_expr_rest n' (acc + v)%float r'
                 | None => None
                 end
          else if Ascii.eqb c "-" then
            if clash c r then None
            else match p_term n' r with
                 | Some (v, r') => p_expr_rest n' (acc - v)%float r'
                 | None => None
                 end
          else Some (acc, String c r)
      | EmptyString => Some (acc, EmptyString)
      end
  end
with p_term (n : nat) (s : string) {struct n} : option (float * string) :=
  match n with
  | O => None
  | S n' =>
      match p_unary n' s with
      | Some (v, r) => p_term_rest n' v r
      | None => None
      end
  end
with p_term_rest (n : nat) (acc : float) (s : string) {struct n}
  : option (float * string) :=
  match n with
  | O => None
  | S n' =>
      match skip_ws s with
      | String c r =>
          if Ascii.eqb c "*" then
            if clash c r then None
            else match p_unary n' r with
                 | Some (v, r') => p_term_rest n' (acc * v)%float r'
                 | None => None
                 end
          else if Ascii.eqb c "/" then
            if clash c r then None
            else match p_unary n' r with
                 | Some (v, r') => p_term_rest n' (acc / v)%float r'
                 | None => None
                 end
          else Some (acc, String c r)
      | EmptyString => Some (acc, EmptyString)
      end
  end
with p_unary (n : nat) (s : string) {struct n} : option (float * string) :=
  match n with
  | O => None
  | S n' =>
      match skip_ws s with
      | String c r =>
          if Ascii.eqb c "-" then
            if clash c r then None
            else match p_unary n' r with
                 | Some (v, r') => Some ((- v)%float, r')
                 | None => None
                 end
          else if Ascii.eqb c "+" then
            if clash c r then None else p_unary n' r
          else p_primary n' (String c r)
      | EmptyString => None
      end
  end
with p_primary (n : nat) (s : string) {struct n} : option (float * string) :=
  match n with
  | O => None
  | S n' =>
      match s with
      | String c r =>
          if is_digit c then p_number s
          else if Ascii.eqb c "(" then expect_rparen (p_expr n' r)
          else if (calls && String.prefix "Math.sqrt" s)%bool then
            match skip_ws (string_drop 9 s) with
            | String d r1 =>
                if Ascii.eqb d "("
                then match expect_rparen (p_expr n' r1) with
                     | Some (v, r2) => Some (PrimFloat.sqrt v, r2)
                     | None => None
                     end
                else None
            | EmptyString => None
            end
          else None
      | EmptyString => None
      end
  end.

(** The value of a text that is, as a whole, one expression. *)
Definition eval_text (s : string) : option float :=
  match p_expr (8 * String.length s + 8) s with
  | Some (v, r) =>
      match skip_ws r with
      | EmptyString => Some v
      | String _ _ => None
      end
  | None => None
  end.

End Expression.

Definition body_prefix : string :=
  dquote ++ "use strict" ++ dquote ++ "; return ".

Definition function_call (body : string) : evaluated :=
  if String.prefix body_prefix body then
    match eval_text true (string_drop (String.length body_prefix) body) with
    | Some v => ENumber v
    | None => EThrow
    end
  else EThrow.

(** An optionally signed decimal or [Infinity] at the start of [s],
    after white space; [NaN] when there is none. *)
Definition parse_float (s : string) : float :=
  let s := skip_ws s in
  let '(negative, digits) :=
    match s with
    | String c t =>
        if Ascii.eqb c "-" then (true, t)
        else if Ascii.eqb c "+" then (false, t)
        else (false, s)
    | EmptyString => (false, s)
    end in
  let '(ip, n1, r1) := read_digits 0 0 digits in
  if String.prefix "Infinity" digits
  then (if negative then neg_infinity else infinity)
  else if (n1 =? 0)%nat then nan
  else
    let '(m, k, _) :=
      match r1 with
      | String c t => if Ascii.eqb c "." then read_digits ip 0 t else (ip, O, r1)
      | EmptyString => (ip, O, r1)
      end in
    if ((m <? 2 ^ 53)%Z && (k <=? 18)%nat)%bool
    then let v := (of_Z m / of_Z (10 ^ Z.of_nat k))%float in
         if negative then (- v)%float else v
    else nan.

Definition runtime : JSRuntime := {|
  NumberToString := fun x =>
    match number_text x with Some s => s | None => EmptyString end;
  parseFloatStr := parse_float;
  StringToNumber := parse_float;
  FunctionCall := function_call
|}.

End NodeRef.

(** ** The dataset

    Records follow the shape written by [createEmptyDatabase] and by the
    routes.  A sub-object the code tests for, or that a dataset may lack,
    is an [option]; a scalar field is a [jsval], absent when [VUndef].
    Sections of the dataset that none of the modelled functions reads or
    writes ([financial_review], [events], [system_settings]) are left
    out. *)

Module Student.
Record t : Type := make {
  serial_number : Z;
  full_name : jsval;
  sponsorship_package : jsval;
  financial_data : option obj;
  notes : jsval
}.
Definition set_serial_number (s : t) (n : Z) : t :=
  make n (full_name s) (sponsorship_package s) (financial_data s) (notes s).
Definition set_financial_data (s : t) (fd : obj) : t :=
  make (serial_number s) (full_name s) (sponsorship_package s) (Some fd) (notes s).
End Student.

Module Sponsor.
Record t : Type := make {
  cid : Z;
  full_name : jsval;
  sponsor : jsval;
  amount : jsval;
  sponsorship_status : jsval;
  category : jsval;
  start_date : jsval;
  notes : jsval
}.
Definition set_cid (s : t) (n : Z) : t :=
  make n (full_name s) (sponsor s) (amount s) (sponsorship_status s)
       (category s) (start_date s) (notes s).
End Sponsor.

Module Expense.
Record t : Type := make {
  id : Z;
  date : jsval;
  studentName : jsval;
  category : jsval;
  amount : jsval;
  description : jsval;
  currency : jsval
}.
End Expense.

Module Program.
Record metadata_t : Type := make_metadata {
  total_students : option Z;
  sponsorship_types : option (list (string * Z));
  monthly_costs_ugx : jsval;
  monthly_costs_eur : jsval
}.
Record t : Type := make {
  program_name : jsval;
  students : option (list Student.t);
  metadata : option metadata_t
}.
End Program.

Module Registry.
Record metadata_t : Type := make_metadata {
  total_students : option Z;
  active_students : option Z;
  inactive_students : option Z;
  total_monthly_funding : jsval
}.
Record t : Type := make {
  students : option (list Sponsor.t);
  metadata : option metadata_t
}.
End Registry.

Module Database.
Record summary_t : Type := make_summary {
  total_students_across_all_programs : Z;
  total_active_sponsorships : Z;
  total_monthly_funding_euros : float;
  total_monthly_funding_ugx : float
}.
Record metadata_t : Type := make_metadata {
  extraction_date : jsval;
  programs_summary : option summary_t
}.
Record t : Type := make {
  sponsorship_programs : option (list (string * Program.t));
  sponsorship_registry : option (list (string * Registry.t));
  daily_expenses : option (list Expense.t);
  metadata : option metadata_t;
  last_updated : jsval
}.
End Database.

(** The outcome of a call that may throw. *)
Inductive completion (A : Type) : Type :=
| Normal (a : A)
| TypeError.
Arguments TypeError {A}.

(** The outcome of a call that edits the dataset in place and may throw
    on the way: the dataset as the call left it. *)
Inductive outcome : Type :=
| Returns (database : Database.t)
| Throws (database : Database.t).

Definition state_of (o : outcome) : Database.t :=
  match o with
  | Returns database => database
  | Throws database => database
  end.

(** Assignments to the sections of the dataset. *)
Definition set_programs (database : Database.t)
  (programs : list (string * Program.t)) : Database.t :=
  Database.make (Some programs)
    (Database.sponsorship_registry database)
    (Database.daily_expenses database)
    (Database.metadata database)
    (Database.last_updated database).

Definition set_registries (database : Database.t)
  (registries : list (string * Registry.t)) : Database.t :=
  Database.make (Database.sponsorship_programs database)
    (Some registries)
    (Database.daily_expenses database)
    (Database.metadata database)
    (Database.last_updated database).

Definition set_daily_expenses (database : Database.t)
  (expenses : list Expense.t) : Database.t :=
  Database.make (Database.sponsorship_programs database)
    (Database.sponsorship_registry database)
    (Some expenses)
    (Database.metadata database)
    (Database.last_updated database).

Definition set_metadata (database : Database.t)
  (metadata : Database.metadata_t) : Database.t :=
  Database.make (Database.sponsorship_programs database)
    (Database.sponsorship_registry database)
    (Database.daily_expenses database)
    (Some metadata)
    (Database.last_updated database).

Definition set_last_updated (database : Database.t) (now : jsval) : Database.t :=
  Database.make (Database.sponsorship_programs database)
    (Database.sponsorship_registry database)
    (Database.daily_expenses database)
    (Database.metadata database)
    now.

(** [s.sponsorship_status === 'active' || !s.sponsorship_status] *)
Definition is_active (s : Sponsor.t) : bool :=
  (strict_eq (Sponsor.sponsorship_status s) (VStr "active")
   || negb (truthy (Sponsor.sponsorship_status s)))%bool.

(** [s.sponsorship_status === 'inactive'] *)
Definition is_inactive (s : Sponsor.t) : bool :=
  strict_eq (Sponsor.sponsorship_status s) (VStr "inactive").

(** A histogram object, keyed by package label. *)
Fixpoint count_of (h : list (string * Z)) (k : string) : Z :=
  match h with
  | [] => 0
  | (k', n) :: h' => if String.eqb k' k then n else count_of h' k
  end.

Fixpoint set_count (h : list (string * Z)) (k : string) (n : Z)
  : list (string * Z) :=
  match h with
  | [] => [(k, n)]
  | (k', n') :: h' =>
      if String.eqb k' k then (k', n) :: h' else (k', n') :: set_count h' k n
  end.

Section Recalculation.

Variable rt : JSRuntime.

(** [student.financial_data || {}] *)
Definition financial_data_or_empty (student : Student.t) : obj :=
  match Student.financial_data student with
  | Some fd => fd
  | None => []
  end.

(** The body of the second [forEach] over a program's students, for one
    student: [student.financial_data = { ...student.financial_data,
    ...financials }]. *)
Definition update_student (student : Student.t) : Student.t :=
  let financials :=
    calculateStudentFinancials rt (financial_data_or_empty student) in
  Student.set_financial_data student
    (spread (spread [] (financial_data_or_empty student)) financials).

(** [programMonthlyCostUGX += financials.monthly_output_ugx] *)
Definition add_student_cost (cost : jsval) (student : Student.t) : jsval :=
  js_add rt cost
    (get (calculateStudentFinancials rt (financial_data_or_empty student))
         "monthly_output_ugx").

(** [types[packageType] = (types[packageType] || 0) + 1]; the package
    label is used as a property name. *)
Definition count_package (types : list (string * Z)) (student : Student.t)
  : list (string * Z) :=
  let packageType := ToString rt (Student.sponsorship_package student) in
  set_count types packageType (count_of types packageType + 1).

Definition empty_program_metadata : Program.metadata_t :=
  Program.make_metadata None None VUndef VUndef.

(** The body of the loop over [sponsorship_programs]: the updated
    program and what it adds to [totalStudents]. *)
Definition recalculate_program (program : Program.t) : Program.t * Z :=
  match Program.students program with
  | Some students =>
      let programMonthlyCostUGX := fold_left add_student_cost students (VNum 0) in
      (Program.make
         (Program.program_name program)
         (Some (map update_student students))
         (Some (Program.make_metadata
                  (Some (Z.of_nat (List.length students)))
                  (Some (fold_left count_package students []))
                  programMonthlyCostUGX
                  (js_div rt programMonthlyCostUGX (VNum EXCHANGE_RATE)))),
       Z.of_nat (List.length students))
  | None => (program, 0%Z)
  end.

(** [activeStudents.reduce((sum, student) =>
      sum + (parseFloat(student.amount) || 0), 0)] *)
Definition program_funding (sponsors : list Sponsor.t) : float :=
  fold_left
    (fun sum student =>
       (sum + num_or0 (parseFloat rt (Sponsor.amount student)))%float)
    (filter is_active sponsors) 0%float.

(** The body of the loop over [sponsorship_registry]: the updated
    registry and what it adds to [totalActiveSponsorships] and to
    [totalMonthlyFundingEUR]. *)
Definition recalculate_registry (registry : Registry.t)
  : Registry.t * (Z * float) :=
  match Registry.students registry with
  | Some students =>
      let activeStudents := filter is_active students in
      let inactiveStudents := filter is_inactive students in
      let programFunding := program_funding students in
      (Registry.make
         (Some students)
         (Some (Registry.make_metadata
                  (Some (Z.of_nat (List.length students)))
                  (Some (Z.of_nat (List.length activeStudents)))
                  (Some (Z.of_nat (List.length inactiveStudents)))
                  (VNum programFunding))),
       (Z.of_nat (List.length activeStudents), programFunding))
  | None => (registry, (0%Z, 0%float))
  end.

Definition map_entries {A B : Type} (f : A -> B) (l : list (string * A))
  : list (string * B) :=
  map (fun e => (fst e, f (snd e))) l.

(** An error thrown on the way leaves the dataset with the edits made
    so far. *)
Definition recalculateAllMetadata (database : Database.t) : outcome :=
  match Database.sponsorship_programs database with
  | None => Throws database
  | Some programs =>
      let totalStudents :=
        fold_left (fun total e => (total + snd (recalculate_program (snd e)))%Z)
                  programs 0%Z in
      let database :=
        set_programs database
          (map_entries (fun p => fst (recalculate_program p)) programs) in
      match Database.sponsorship_registry database with
      | None => Throws database
      | Some registries =>
          let totalActiveSponsorships :=
            fold_left
              (fun total e => (total + fst (snd (recalculate_registry (snd e))))%Z)
              registries 0%Z in
          let totalMonthlyFundingEUR :=
            fold_left
              (fun total e =>
                 (total + snd (snd (recalculate_registry (snd e))))%float)
              registries 0%float in
          let database :=
            set_registries database
              (map_entries (fun r => fst (recalculate_registry r)) registries) in
          match Database.metadata database with
          | None => Throws database
          | Some metadata =>
              Returns
                (set_metadata database
                   (Database.make_metadata
                      (Database.extraction_date metadata)
                      (Some (Database.make_summary
                               totalStudents
                               totalActiveSponsorships
                               totalMonthlyFundingEUR
                               (totalMonthlyFundingEUR * EXCHANGE_RATE)%float))))
          end
      end
  end.

End Recalculation.

(** ** Runs that may not return

    [Function(...)()] at line 312 runs the text it is given, and a text
    can loop for ever or end the process: then the call does not come
    back, and neither does any of its callers.  An engine is a runtime
    together with the bodies on which the call comes back;
    [FunctionCall] gives the outcome of the call on these.  The functions
    that evaluate formulas are given again here, with [None] for a run
    that does not return; the definitions over a runtime above describe
    the runs in which every call comes back. *)
Record JSEngine : Type := {
  builtins : JSRuntime;
  FunctionReturns : string -> bool
}.

Section Runs.

Variable engine : JSEngine.

Definition evaluateFormula_run (formula : string) (data : obj) : option float :=
  let body := function_body (substitute (builtins engine) formula data) in
  if FunctionReturns engine body then
    Some match FunctionCall (builtins engine) body with
         | ENumber x => x
         | EOther => 0%float
         | EThrow => 0%float
         end
  else None.

(** One turn of the loop over [Object.keys(result)]. *)
Definition normalize_step_run (result : obj) (key : string) : option obj :=
  match get result key with
  | VStr s =>
      if starts_with_equals s then
        match evaluateFormula_run s result with
        | Some x => Some (set result key (VNum x))
        | None => None
        end
      else Some (normalize_step (builtins engine) result key)
  | _ => Some (normalize_step (builtins engine) result key)
  end.

Fixpoint normalize_run (keys : list string) (result : obj) : option obj :=
  match keys with
  | [] => Some result
  | key :: rest =>
      match normalize_step_run result key with
      | Some result' => normalize_run rest result'
      | None => None
      end
  end.

Definition calculateStudentFinancials_run (financialData : obj) : option obj :=
  let result := spread [] financialData in
  match normalize_run (keys result) result with
  | Some result => Some (derive (builtins engine) result)
  | None => None
  end.

(** The second [forEach] over a program's students, from the cost summed
    so far: the students as updated and the sum. *)
Fixpoint students_run (students : list Student.t) (cost : jsval)
  : option (list Student.t * jsval) :=
  match students with
  | [] => Some ([], cost)
  | student :: rest =>
      match calculateStudentFinancials_run (financial_data_or_empty student) with
      | Some financials =>
          match students_run rest
                  (js_add (builtins engine) cost
                     (get financials "monthly_output_ugx")) with
          | Some (rest', cost') =>
              Some (Student.set_financial_data student
                      (spread (spread [] (financial_data_or_empty student))
                              financials)
                    :: rest', cost')
          | None => None
          end
      | None => None
      end
  end.

(** The body of the loop over [sponsorship_programs]. *)
Definition recalculate_program_run (program : Program.t)
  : option (Program.t * Z) :=
  match Program.students program with
  | Some students =>
      match students_run students (VNum 0) with
      | Some (students', programMonthlyCostUGX) =>
          Some (Program.make
                  (Program.program_name program)
                  (Some students')
                  (Some (Program.make_metadata
                           (Some (Z.of_nat (List.length students)))
                           (Some (fold_left (count_package (builtins engine))
                                            students []))
                           programMonthlyCostUGX
                           (js_div (builtins engine) programMonthlyCostUGX
                                   (VNum EXCHANGE_RATE)))),
                Z.of_nat (List.length students))
      | None => None
      end
  | None => Some (program, 0%Z)
  end.

Fixpoint programs_run (programs : list (string * Program.t))
  (totalStudents : Z) : option (list (string * Program.t) * Z) :=
  match programs with
  | [] => Some ([], totalStudents)
  | (programName, program) :: rest =>
      match recalculate_program_run program with
      | Some (program', n) =>
          match programs_run rest (totalStudents + n) with
          | Some (rest', total) => Some ((programName, program') :: rest', total)
          | None => None
          end
      | None => None
      end
  end.

Definition recalculateAllMetadata_run (database : Database.t)
  : option outcome :=
  match Database.sponsorship_programs database with
  | None => Some (Throws database)
  | Some programs =>
      match programs_run programs 0 with
      | None => None
      | Some (programs', totalStudents) =>
          let database := set_programs database programs' in
          match Database.sponsorship_registry database with
          | None => Some (Throws database)
          | Some registries =>
              let totalActiveSponsorships :=
                fold_left
                  (fun total e =>
                     (total
                      + fst (snd (recalculate_registry (builtins engine)
                                    (snd e))))%Z)
                  registries 0%Z in
              let totalMonthlyFundingEUR :=
                fold_left
                  (fun total e =>
                     (total
                      + snd (snd (recalculate_registry (builtins engine)
                                    (snd e))))%float)
                  registries 0%float in
              let database :=
                set_registries database
                  (map_entries
                     (fun r => fst (recalculate_registry (builtins engine) r))
                     registries) in
              match Database.metadata database with
              | None => Some (Throws database)
              | Some metadata =>
                  Some
                    (Returns
                       (set_metadata database
                          (Database.make_metadata
                             (Database.extraction_date metadata)
                             (Some (Database.make_summary
                                      totalStudents
                                      totalActiveSponsorships
                                      totalMonthlyFundingEUR
                                      (totalMonthlyFundingEUR
                                       * EXCHANGE_RATE)%float)))))
              end
          end
      end
  end.

(** Whether the calculation of a student's record returns, and whether
    those of all students of all programs do. *)
Definition calculation_returns (student : Student.t) : bool :=
  match calculateStudentFinancials_run (financial_data_or_empty student) with
  | Some _ => true
  | None => false
  end.

Definition calculations_return (programs : list (string * Program.t)) : bool :=
  forallb
    (fun e =>
       match Program.students (snd e) with
       | Some students => forallb calculation_returns students
       | None => true
       end)
    programs.

End Runs.

(** ** Routes

    A route loads the dataset from the file, edits it in memory, and
    saves it; the file changes only when [saveDatabase] writes.  The
    model takes the dataset held by the file (the server creates the file
    when it starts) and returns the reply and the dataset held by the
    file afterwards: the one it held when nothing is written, and
    otherwise the dataset that [saveDatabase] serialises, the text
    written being [JSON.stringify] of it (in the text a number that is
    [NaN] or infinite appears as [null]).  A route parameter is the
    integer read by [parseInt] (a parameter that is not a number matches
    no record); the time stamp and whether the write succeeds come from
    the environment. *)

Record reply : Type := make_reply {
  status : Z;
  success : bool
}.

Definition ok : reply := make_reply 200 true.
Definition bad_request : reply := make_reply 400 false.
Definition not_found : reply := make_reply 404 false.
(** Also the reply of the error-handling middleware when a route throws. *)
Definition server_error : reply := make_reply 500 false.

(** [o[k]] and [o[k] = a] for an object holding programs or registries,
    on its own properties. *)
Fixpoint lookup {A : Type} (o : list (string * A)) (k : string) : option A :=
  match o with
  | [] => None
  | (k', a) :: o' => if String.eqb k' k then Some a else lookup o' k
  end.

Fixpoint assign {A : Type} (o : list (string * A)) (k : string) (a : A)
  : list (string * A) :=
  match o with
  | [] => [(k, a)]
  | (k', a') :: o' =>
      if String.eqb k' k then (k', a) :: o' else (k', a') :: assign o' k a
  end.

(** [l.findIndex(p)], [l.splice(i, 1)] *)
Fixpoint findIndex {A : Type} (p : A -> bool) (l : list A) : option nat :=
  match l with
  | [] => None
  | x :: l' => if p x then Some O else option_map S (findIndex p l')
  end.

Fixpoint splice1 {A : Type} (i : nat) (l : list A) : list A :=
  match l, i with
  | [], _ => []
  | _ :: l', O => l'
  | x :: l', S i' => x :: splice1 i' l'
  end.

(** [students.forEach((student, index) => { student.serial_number =
    index + 1; })], from position [index] on. *)
Fixpoint reassign_serial_numbers (index : Z) (students : list Student.t)
  : list Student.t :=
  match students with
  | [] => []
  | student :: rest =>
      Student.set_serial_number student (index + 1)
      :: reassign_serial_numbers (index + 1) rest
  end.

Fixpoint reassign_cids (index : Z) (sponsors : list Sponsor.t)
  : list Sponsor.t :=
  match sponsors with
  | [] => []
  | sponsor :: rest =>
      Sponsor.set_cid sponsor (index + 1) :: reassign_cids (index + 1) rest
  end.

(** The edit of the delete-student route on the program's list; [None]
    when no student has the serial number. *)
Definition remove_student (studentId : Z) (students : list Student.t)
  : option (list Student.t) :=
  match findIndex (fun s => (Student.serial_number s =? studentId)%Z) students with
  | Some studentIndex =>
      Some (reassign_serial_numbers 0 (splice1 studentIndex students))
  | None => None
  end.

(** The edit of the delete-sponsor route on the registry's list. *)
Definition remove_sponsor (sponsorId : Z) (sponsors : list Sponsor.t)
  : option (list Sponsor.t) :=
  match findIndex (fun s => (Sponsor.cid s =? sponsorId)%Z) sponsors with
  | Some sponsorIndex => Some (reassign_cids 0 (splice1 sponsorIndex sponsors))
  | None => None
  end.

(** The body of a request that adds a sponsor or an expense: the record
    to store, with an identifier only if the client sent one. *)
Module SponsorRequest.
Record t : Type := make {
  cid : option Z;
  full_name : jsval;
  sponsor : jsval;
  amount : jsval;
  sponsorship_status : jsval;
  category : jsval;
  start_date : jsval;
  notes : jsval
}.
End SponsorRequest.

Module ExpenseRequest.
Record t : Type := make {
  id : option Z;
  date : jsval;
  studentName : jsval;
  category : jsval;
  amount : jsval;
  description : jsval;
  currency : jsval
}.
End ExpenseRequest.

(** Identifiers are JavaScript numbers, and an addition on them gives
    the double nearest to the sum.  Every integer of magnitude up to 2^53
    is a double; above, the doubles are the multiples of [unit], the power
    of two that leaves 53 significant bits, and a sum half way between two
    of them goes to the one whose multiple is even.  (The integers met
    here stay far below 2^1024, where doubles end.) *)
Definition nearest_double (n : Z) : Z :=
  let a := Z.abs n in
  if (a <=? 2 ^ 53)%Z then n
  else
    let unit := (2 ^ (Z.log2 a - 52))%Z in
    let q := (a / unit)%Z in
    let r := (a mod unit)%Z in
    let q' :=
      if (2 * r <? unit)%Z then q
      else if (unit <? 2 * r)%Z then (q + 1)%Z
      else if Z.even q then q else (q + 1)%Z in
    (Z.sgn n * (q' * unit))%Z.

(** [a + b] on identifiers *)
Definition id_add (a b : Z) : Z := nearest_double (a + b).

(** [Math.max(...ids)] of a non-empty list, given as head and tail. *)
Fixpoint Math_max (x : Z) (l : list Z) : Z :=
  match l with
  | [] => x
  | y :: l' => Math_max (Z.max x y) l'
  end.

(** [daily_expenses.length > 0 ?
      Math.max(...daily_expenses.map(e => e.id)) + 1 : 1] *)
Definition generated_expense_id (daily_expenses : list Expense.t) : Z :=
  match map Expense.id daily_expenses with
  | [] => 1
  | x :: l => id_add (Math_max x l) 1
  end.

(** The edit of the add-expense route on [daily_expenses]. *)
Definition push_expense (expenseData : ExpenseRequest.t)
  (daily_expenses : list Expense.t) : list Expense.t :=
  (* [if (!expenseData.id)]: no id was sent, or it is 0. *)
  let id :=
    match ExpenseRequest.id expenseData with
    | Some n => if (n =? 0)%Z then generated_expense_id daily_expenses else n
    | None => generated_expense_id daily_expenses
    end in
  let currency :=
    if truthy (ExpenseRequest.currency expenseData)
    then ExpenseRequest.currency expenseData else VStr "UGX" in
  (daily_expenses
   ++ [Expense.make id
        (ExpenseRequest.date expenseData)
        (ExpenseRequest.studentName expenseData)
        (ExpenseRequest.category expenseData)
        (ExpenseRequest.amount expenseData)
        (ExpenseRequest.description expenseData)
        currency])%list.

(** The edit of the delete-expense route on [daily_expenses]. *)
Definition remove_expense (expenseId : Z) (daily_expenses : list Expense.t)
  : option (list Expense.t) :=
  match findIndex (fun e => (Expense.id e =? expenseId)%Z) daily_expenses with
  | Some expenseIndex => Some (splice1 expenseIndex daily_expenses)
  | None => None
  end.

Section Routes.

Variable rt : JSRuntime.
Variable now : jsval.
Variable write_ok : bool.

(** [saveDatabase(data)]: whether it succeeded, and the dataset held by
    the file afterwards, which is [data] as recalculated when the write
    succeeds. *)
Definition saveDatabase (data file : Database.t) : bool * Database.t :=
  match recalculateAllMetadata rt (set_last_updated data now) with
  | Returns data' => if write_ok then (true, data') else (false, file)
  | Throws _ => (false, file)
  end.

(** The end of every route that edits the dataset. *)
Definition save_and_reply (data file : Database.t) : reply * Database.t :=
  match saveDatabase data file with
  | (true, file') => (ok, file')
  | (false, file') => (server_error, file')
  end.

Definition empty_registry : Registry.t :=
  Registry.make (Some [])
    (Some (Registry.make_metadata (Some 0%Z) (Some 0%Z) None (VNum 0))).

(** [programStudents.some(student =>
      student.full_name === sponsorData.full_name)] with
    [programStudents = database.sponsorship_programs[program]?.students || []] *)
Definition studentExists (programs : list (string * Program.t))
  (program : string) (name : jsval) : bool :=
  let programStudents :=
    match lookup programs program with
    | Some p => match Program.students p with Some l => l | None => [] end
    | None => []
    end in
  existsb (fun student => strict_eq (Student.full_name student) name)
          programStudents.

(** [app.post('/api/registry/:program/students')] *)
Definition post_registry_student (program : string)
  (sponsorData : SponsorRequest.t) (file : Database.t)
  : reply * Database.t :=
  let database := file in
  match Database.sponsorship_registry database with
  | None => (server_error, file)
  | Some registries0 =>
      let registries :=
        match lookup registries0 program with
        | Some _ => registries0
        | None => assign registries0 program empty_registry
        end in
      match lookup registries program with
      | None => (server_error, file)
      | Some registry =>
          (* [if (!sponsorData.cid) sponsorData.cid = students.length + 1]:
             no cid was sent, or it is 0. *)
          let generated : completion Z :=
            match Registry.students registry with
            | Some l => Normal (Z.of_nat (List.length l) + 1)%Z
            | None => TypeError
            end in
          let cid : completion Z :=
            match SponsorRequest.cid sponsorData with
            | Some c => if (c =? 0)%Z then generated else Normal c
            | None => generated
            end in
          match cid with
          | TypeError => (server_error, file)
          | Normal cid =>
              match Database.sponsorship_programs database with
              | None => (server_error, file)
              | Some programs =>
                  if negb (studentExists programs program
                             (SponsorRequest.full_name sponsorData))
                  then (bad_request, file)
                  else
                    let sponsorship_status :=
                      if truthy (SponsorRequest.sponsorship_status sponsorData)
                      then SponsorRequest.sponsorship_status sponsorData
                      else VStr "active" in
                    let category :=
                      if truthy (SponsorRequest.category sponsorData)
                      then SponsorRequest.category sponsorData
                      else VStr "Individual" in
                    let stored :=
                      Sponsor.make cid
                        (SponsorRequest.full_name sponsorData)
                        (SponsorRequest.sponsor sponsorData)
                        (SponsorRequest.amount sponsorData)
                        sponsorship_status category
                        (SponsorRequest.start_date sponsorData)
                        (SponsorRequest.notes sponsorData) in
                    match Registry.students registry with
                    | None => (server_error, file)
                    | Some l =>
                        save_and_reply
                          (set_registries database
                             (assign registries program
                                (Registry.make (Some (l ++ [stored])%list)
                                   (Registry.metadata registry))))
                          file
                    end
              end
          end
      end
  end.

(** [app.delete('/api/programs/:program/students/:studentId')] *)
Definition delete_program_student (program : string) (studentId : Z)
  (file : Database.t) : reply * Database.t :=
  let database := file in
  match Database.sponsorship_programs database with
  | None => (server_error, file)
  | Some programs =>
      match lookup programs program with
      | None => (not_found, file)
      | Some p =>
          match Program.students p with
          | None => (server_error, file)
          | Some students =>
              match remove_student studentId students with
              | None => (not_found, file)
              | Some students' =>
                  save_and_reply
                    (set_programs database
                       (assign programs program
                          (Program.make (Program.program_name p)
                             (Some students') (Program.metadata p))))
                    file
              end
          end
      end
  end.

(** [app.delete('/api/registry/:program/students/:sponsorId')] *)
Definition delete_registry_student (program : string) (sponsorId : Z)
  (file : Database.t) : reply * Database.t :=
  let database := file in
  match Database.sponsorship_registry database with
  | None => (server_error, file)
  | Some registries =>
      match lookup registries program with
      | None => (not_found, file)
      | Some registry =>
          match Registry.students registry with
          | None => (server_error, file)
          | Some sponsors =>
              match remove_sponsor sponsorId sponsors with
              | None => (not_found, file)
              | Some sponsors' =>
                  save_and_reply
                    (set_registries database
                       (assign registries program
                          (Registry.make (Some sponsors')
                             (Registry.metadata registry))))
                    file
              end
          end
      end
  end.

(** [app.post('/api/expenses')] *)
Definition post_expense (expenseData : ExpenseRequest.t) (file : Database.t)
  : reply * Database.t :=
  let database := file in
  let daily_expenses :=
    match Database.daily_expenses database with
    | Some l => l
    | None => []
    end in
  save_and_reply
    (set_daily_expenses database (push_expense expenseData daily_expenses))
    file.

(** [app.delete('/api/expenses/:expenseId')] *)
Definition delete_expense (expenseId : Z) (file : Database.t)
  : reply * Database.t :=
  let database := file in
  match Database.daily_expenses database with
  | None => (not_found, file)
  | Some daily_expenses =>
      match remove_expense expenseId daily_expenses with
      | None => (not_found, file)
      | Some daily_expenses' =>
          save_and_reply (set_daily_expenses database daily_expenses') file
      end
  end.

End Routes.

(** ** Statements about results

    Definitions used to state the properties, and sample data. *)

(** The number a field contributes to the derived figures: the reading
    of [result.k || 0] when the property holds a number or is absent. *)
Definition field_value (result : obj) (k : string) : float :=
  match get result k with
  | VNum x => num_or0 x
  | _ => 0%float
  end.

Definition is_number (v : jsval) : Prop := exists x, v = VNum x.

(** Every own property holds a number. *)
Definition all_numbers (o : obj) : Prop :=
  forall k, In k (keys o) -> is_number (get o k).

Definition cost_fields : list string :=
  [ "termly_school_fees";
    "direct_spending_school_fees_ugx_monthly";
    "food";
    "average_medical";
    "school_personal_requirements_transport";
    "admin_utilities" ].

Definition derived_fields : list string :=
  [ "monthly_output_ugx";
    "monthly_output_euro";
    "cash_received_ugx";
    "plus_minus_diff_ugx";
    "plus_minus_diff_euro" ].

Definition sample_fd : obj :=
  [ ("termly_school_fees", VNum 600000);
    ("food", VNum 90000);
    ("average_medical", VNum 10000);
    ("school_personal_requirements_transport", VNum 5000);
    ("admin_utilities", VNum 5000);
    ("cash_received_euro", VNum 70) ].

(** The keys after an assignment. *)
Definition kadd (ks : list string) (k : string) : list string :=
  if in_dec string_dec k ks then ks else (ks ++ [k])%list.

Definition reads_numbers (o : obj) : Prop :=
  forall k, get o k = VUndef \/ is_number (get o k).

Section DerivedValues.

Variable rt : JSRuntime.

(** The five derived values, as functions of the raw fields. *)
Definition monthly_output_ugx_of (o : obj) : jsval :=
  js_add rt (js_add rt (js_add rt (js_add rt (js_add rt
    (js_div rt (js_or (get o "termly_school_fees") (VNum 0)) (VNum 3))
    (js_or (get o "direct_spending_school_fees_ugx_monthly") (VNum 0)))
    (js_or (get o "food") (VNum 0)))
    (js_or (get o "average_medical") (VNum 0)))
    (js_or (get o "school_personal_requirements_transport") (VNum 0)))
    (js_or (get o "admin_utilities") (VNum 0)).

Definition cash_received_ugx_of (o : obj) : jsval :=
  js_mul rt (js_or (get o "cash_received_euro") (VNum 0)) (VNum EXCHANGE_RATE).

Definition derived_value (o : obj) (k : string) : jsval :=
  if String.eqb k "monthly_output_ugx" then monthly_output_ugx_of o
  else if String.eqb k "monthly_output_euro" then
    js_div rt (monthly_output_ugx_of o) (VNum EXCHANGE_RATE)
  else if String.eqb k "cash_received_ugx" then cash_received_ugx_of o
  else if String.eqb k "plus_minus_diff_ugx" then
    js_sub rt (cash_received_ugx_of o) (monthly_output_ugx_of o)
  else
    js_div rt (js_sub rt (cash_received_ugx_of o) (monthly_output_ugx_of o))
           (VNum EXCHANGE_RATE).

End DerivedValues.

Definition termly_600000 : obj := [("termly_school_fees", VNum 600000)].

(** The characters with which a cell reference of the table, a percent
    rewrite or a [SUM] call begins or ends: a text without them is left
    as it is by every rewrite of [evaluateFormula]. *)
Definition token_chars : list ascii :=
  ["$"; "%"; "D"; "E"; "F"; "G"; "H"; "I"; "J"; "S"]%char.

Fixpoint occurs (c : ascii) (s : string) : bool :=
  match s with
  | EmptyString => false
  | String d t => (Ascii.eqb d c || occurs c t)%bool
  end.

Definition token_free (s : string) : bool :=
  forallb (fun c => negb (occurs c s)) token_chars.

(** The segments with [sep] between every two of them: a formula with
    the token [D3] between the segments is [join "D3" segments]. *)
Fixpoint join (sep : string) (segments : list string) : string :=
  match segments with
  | [] => EmptyString
  | [s] => s
  | s :: rest => s ++ sep ++ join sep rest
  end.

(** The rewrites that follow that of [D3]: the entries of the table
    after it, the percent and the [SUM] rewrites. *)
Definition later_rewrites (rt : JSRuntime) (data : obj) (expression : string)
  : string :=
  let expression :=
    fold_left (fun e pv => replace_all (fst pv) (ToString rt (snd pv)) e)
              (skipn 3 (replacements data)) expression in
  sum_rewrite rt data 0 (percent_rewrite false expression).


(** The value of an expression text under plain arithmetic: numbers, the
    operators [+ - * /] and parentheses; [None] when the text is not such
    an expression.  The text is read between the parentheses that
    [evaluateFormula] puts around it. *)
Definition plain_arithmetic_value (expression : string) : option float :=
  NodeRef.eval_text false ("(" ++ expression ++ ")").

Definition student_A : Student.t :=
  Student.make 1 (VStr "A") (VStr "Day")
    (Some [ ("termly_school_fees", VStr "600000");
            ("direct_spending_school_fees_ugx_monthly", VStr "=D3/3");
            ("food", VNum 90000);
            ("average_medical", VNull) ])
    (VStr "first").

Definition student_B : Student.t :=
  Student.make 2 (VStr "B") (VStr "Boarding") None VUndef.

Definition sponsor_1 : Sponsor.t :=
  Sponsor.make 1 (VStr "A") (VStr "S1") (VNum 50) (VStr "active")
    (VStr "Individual") VUndef VUndef.

Definition sponsor_2 : Sponsor.t :=
  Sponsor.make 2 (VStr "A") (VStr "S2") (VNum 30) (VStr "inactive")
    (VStr "Individual") VUndef VUndef.

Definition sponsor_3 : Sponsor.t :=
  Sponsor.make 3 (VStr "B") (VStr "S3") (VStr "25.5") VUndef
    (VStr "Company") VUndef VUndef.

Definition sample_registry : Registry.t :=
  Registry.make (Some [sponsor_1; sponsor_2; sponsor_3]) None.

Definition sample_db : Database.t :=
  Database.make
    (Some [ ("CH", Program.make (VStr "CH REPORT")
                     (Some [student_A; student_B]) None) ])
    (Some [ ("CH", sample_registry) ])
    None
    (Some (Database.make_metadata (VStr "2025-01-01") None))
    (VStr "2025-01-02").

Definition recalculated (rt : JSRuntime) (db : Database.t) : Database.t :=
  state_of (recalculateAllMetadata rt db).

Definition sample_registry_after : Registry.t :=
  fst (recalculate_registry NodeRef.runtime sample_registry).

Definition db_without_programs : Database.t :=
  Database.make None (Some []) None
    (Some (Database.make_metadata VUndef None)) VUndef.

Definition db_without_registry : Database.t :=
  Database.make (Some []) None None
    (Some (Database.make_metadata VUndef None)) VUndef.

Definition db_without_metadata : Database.t :=
  Database.make (Some []) (Some []) None None VUndef.

(** The reading of a financial field of the [index]-th student of a
    program. *)
Definition student_financial_field (db : Database.t) (program : string)
  (index : nat) (k : string) : jsval :=
  match Database.sponsorship_programs db with
  | Some programs =>
      match lookup programs program with
      | Some p =>
          match Program.students p with
          | Some students =>
              match nth_error students index with
              | Some student => get (financial_data_or_empty student) k
              | None => VUndef
              end
          | None => VUndef
          end
      | None => VUndef
      end
  | None => VUndef
  end.

(** The sum, from [sum] on, of the amounts of the sponsors whose status
    is ['active'] or unset (absent, [null], empty or otherwise falsy),
    an amount being [parseFloat] of the field, or 0 when that is [NaN]. *)
Fixpoint funding_of (rt : JSRuntime) (sum : float) (sponsors : list Sponsor.t)
  : float :=
  match sponsors with
  | [] => sum
  | s :: rest =>
      if is_active s
      then funding_of rt (sum + num_or0 (parseFloat rt (Sponsor.amount s))) rest
      else funding_of rt sum rest
  end.

(** The sponsors that the funding sum is taken over, in the words of the
    specification: those whose status is ['active'] or unset.  Unset is
    what [!status] accepts: an absent status, [null], the empty text and
    the numbers 0 and [NaN]. *)
Definition status_active_or_unset (status : jsval) : bool :=
  match status with
  | VUndef => true
  | VNull => true
  | VStr s => (String.eqb s "active" || String.eqb s EmptyString)%bool
  | VNum x => (PrimFloat.eqb x 0 || PrimFloat.is_nan x)%bool
  end.

Definition status_inactive (status : jsval) : bool :=
  match status with
  | VStr s => String.eqb s "inactive"
  | _ => false
  end.

Definition counts_for_funding (s : Sponsor.t) : bool :=
  status_active_or_unset (Sponsor.sponsorship_status s).

(** What a sponsor contributes: [parseFloat] of the amount, and 0 when
    that is [NaN] (the amount is missing or not a number text) or zero. *)
Definition amount_or0 (rt : JSRuntime) (s : Sponsor.t) : float :=
  let x := parseFloat rt (Sponsor.amount s) in
  if (PrimFloat.is_nan x || PrimFloat.eqb x 0)%bool then 0%float else x.

(** The sum of the contributions, in list order from 0, over the
    sponsors whose status is active or unset. *)
Definition funding_sum (rt : JSRuntime) (sponsors : list Sponsor.t) : float :=
  fold_left (fun sum s => (sum + amount_or0 rt s)%float)
            (filter counts_for_funding sponsors) 0%float.

(** A registry without a sponsor list, with metadata of an earlier
    state. *)
Definition registry_without_list : Registry.t :=
  Registry.make None
    (Some (Registry.make_metadata (Some 2%Z) (Some 2%Z) None (VNum 999))).

Definition db_stale_registry : Database.t :=
  Database.make (Some []) (Some [("CH", registry_without_list)]) None
    (Some (Database.make_metadata VUndef None)) VUndef.

(** The reference runtime as an engine: the calls of its fragment
    return. *)
Definition reference_engine : JSEngine :=
  {| builtins := NodeRef.runtime; FunctionReturns := fun _ => true |}.

(** An engine on which the call that runs an endless loop does not
    return, and a dataset with a student whose record holds that loop as
    a formula. *)
Definition endless_loop : string := "(function(){for(;;){}})()".

Definition looping_engine : JSEngine :=
  {| builtins := NodeRef.runtime;
     FunctionReturns :=
       fun body => negb (String.eqb body (function_body endless_loop)) |}.

Definition db_with_loop : Database.t :=
  Database.make
    (Some [ ("CH", Program.make (VStr "CH REPORT")
                     (Some [ Student.make 1 (VStr "L") (VStr "Day")
                               (Some [("food", VStr ("=" ++ endless_loop))])
                               VUndef ])
                     None) ])
    (Some [])
    None
    (Some (Database.make_metadata VUndef None))
    VUndef.

Definition is_formula (v : jsval) : bool :=
  match v with
  | VStr s => starts_with_equals s
  | _ => false
  end.

(** The number that replaces a raw value other than a formula. *)
Definition plain_number (rt : JSRuntime) (v : jsval) : jsval :=
  match v with
  | VNum x => VNum x
  | VNull => VNum 0
  | VUndef => VNum 0
  | VStr s => VNum (num_or0 (parseFloat rt (VStr s)))
  end.

(** What recalculation keeps and changes in a student. *)
Definition student_frame (rt : JSRuntime) (s s' : Student.t) : Prop :=
  Student.serial_number s' = Student.serial_number s
  /\ Student.full_name s' = Student.full_name s
  /\ Student.sponsorship_package s' = Student.sponsorship_package s
  /\ Student.notes s' = Student.notes s
  /\ (forall k, ~ In k derived_fields ->
        (In k (keys (financial_data_or_empty s'))
         <-> In k (keys (financial_data_or_empty s))))
  /\ (forall k x, ~ In k derived_fields ->
        get (financial_data_or_empty s) k = VNum x ->
        get (financial_data_or_empty s') k = VNum x)
  /\ (forall k, ~ In k derived_fields ->
        In k (keys (financial_data_or_empty s)) ->
        is_formula (get (financial_data_or_empty s) k) = false ->
        get (financial_data_or_empty s') k
        = plain_number rt (get (financial_data_or_empty s) k))
  /\ (forall k, In k (keys (financial_data_or_empty s')) ->
        is_number (get (financial_data_or_empty s') k)).

Definition program_frame (rt : JSRuntime) (p p' : Program.t) : Prop :=
  Program.program_name p' = Program.program_name p
  /\ match Program.students p, Program.students p' with
     | Some l, Some l' => Forall2 (student_frame rt) l l'
     | None, None => Program.metadata p' = Program.metadata p
     | _, _ => False
     end.

Definition entries_frame {A : Type} (R : A -> A -> Prop)
  (l l' : list (string * A)) : Prop :=
  Forall2 (fun e e' => fst e' = fst e /\ R (snd e) (snd e')) l l'.

Definition registry_frame (r r' : Registry.t) : Prop :=
  Registry.students r' = Registry.students r.

Definition database_frame (rt : JSRuntime) (db db' : Database.t) : Prop :=
  Database.daily_expenses db' = Database.daily_expenses db
  /\ Database.last_updated db' = Database.last_updated db
  /\ option_map Database.extraction_date (Database.metadata db')
     = option_map Database.extraction_date (Database.metadata db)
  /\ (exists programs programs' registries registries',
        Database.sponsorship_programs db = Some programs
        /\ Database.sponsorship_programs db' = Some programs'
        /\ Database.sponsorship_registry db = Some registries
        /\ Database.sponsorship_registry db' = Some registries'
        /\ entries_frame (program_frame rt) programs programs'
        /\ entries_frame registry_frame registries registries').

(** The identifiers [i + 1, ..., i + n]. *)
Fixpoint count_from (i : Z) (n : nat) : list Z :=
  match n with
  | O => []
  | S n' => (i + 1)%Z :: count_from (i + 1) n'
  end.

(** The students of a program, [[]] when the program or its list is
    missing. *)
Definition program_students (db : Database.t) (program : string)
  : list Student.t :=
  match Database.sponsorship_programs db with
  | Some programs =>
      match lookup programs program with
      | Some p => match Program.students p with Some l => l | None => [] end
      | None => []
      end
  | None => []
  end.

(** The sponsors of a program's registry, [[]] when the registry or its
    list is missing. *)
Definition registry_sponsors (db : Database.t) (program : string)
  : list Sponsor.t :=
  match Database.sponsorship_registry db with
  | Some registries =>
      match lookup registries program with
      | Some r => match Registry.students r with Some l => l | None => [] end
      | None => []
      end
  | None => []
  end.

Inductive expense_op : Type :=
| AddExpense (body : ExpenseRequest.t)
| DeleteExpense (expenseId : Z).

(** The edit of a request on [daily_expenses]; a delete that finds no
    expense leaves the list as it is. *)
Definition apply_expense_op (l : list Expense.t) (op : expense_op)
  : list Expense.t :=
  match op with
  | AddExpense body => push_expense body l
  | DeleteExpense expenseId =>
      match remove_expense expenseId l with
      | Some l' => l'
      | None => l
      end
  end.

Definition sends_no_id (op : expense_op) : bool :=
  match op with
  | AddExpense body =>
      match ExpenseRequest.id body with
      | Some n => (n =? 0)%Z
      | None => true
      end
  | DeleteExpense _ => true
  end.

(** The identifiers of a list lie where adding 1 is exact: above -2^53
    and below [bound], a positive number that is at most 2^53. *)
Definition ids_below (bound : Z) (l : list Expense.t) : Prop :=
  (0 < bound <= 2 ^ 53)%Z
  /\ Forall (fun e => (- 2 ^ 53 < Expense.id e < bound)%Z) l.

Definition expense_of_id (id : Z) : Expense.t :=
  Expense.make id VUndef VUndef VUndef VUndef (VStr "first") (VStr "UGX").

Definition expense_request (id : option Z) : ExpenseRequest.t :=
  ExpenseRequest.make id VUndef VUndef VUndef VUndef VUndef VUndef.

Definition sponsor_request (name : jsval) : SponsorRequest.t :=
  SponsorRequest.make None name (VStr "S") (VNum 10) VUndef VUndef VUndef VUndef.

Definition three_students : list Student.t :=
  [ student_A; student_B;
    Student.make 3 (VStr "C") (VStr "Day") None VUndef ].

Definition three_sponsors : list Sponsor.t :=
  [sponsor_1; sponsor_2; sponsor_3].

(** ** Further routes

    The routes that add and update a student, update a sponsor, update an
    expense and create or update a program, modelled like the routes
    above. *)

(** The body of a request that adds a student. *)
Module StudentRequest.
Record t : Type := make {
  serial_number : option Z;
  full_name : jsval;
  sponsorship_package : jsval;
  financial_data : option obj;
  notes : jsval
}.
End StudentRequest.

(** The body of a request that updates a record: the properties it
    holds, [None] for a property it lacks. *)
Module StudentUpdate.
Record t : Type := make {
  serial_number : option Z;
  full_name : option jsval;
  sponsorship_package : option jsval;
  financial_data : option obj;
  notes : option jsval
}.
End StudentUpdate.

Module SponsorUpdate.
Record t : Type := make {
  cid : option Z;
  full_name : option jsval;
  sponsor : option jsval;
  amount : option jsval;
  sponsorship_status : option jsval;
  category : option jsval;
  start_date : option jsval;
  notes : option jsval
}.
End SponsorUpdate.

Module ExpenseUpdate.
Record t : Type := make {
  id : option Z;
  date : option jsval;
  studentName : option jsval;
  category : option jsval;
  amount : option jsval;
  description : option jsval;
  currency : option jsval
}.
End ExpenseUpdate.

Module ProgramUpdate.
Record t : Type := make {
  program_name : option jsval;
  students : option (list Student.t);
  metadata : option Program.metadata_t
}.
End ProgramUpdate.

(** [Object.assign(target, updates)], property by property. *)
Definition assigned {A : Type} (update : option A) (current : A) : A :=
  match update with
  | Some v => v
  | None => current
  end.

Definition assigned_option {A : Type} (update current : option A) : option A :=
  match update with
  | Some v => Some v
  | None => current
  end.

Definition assign_student (student : Student.t) (updates : StudentUpdate.t)
  : Student.t :=
  Student.make
    (assigned (StudentUpdate.serial_number updates) (Student.serial_number student))
    (assigned (StudentUpdate.full_name updates) (Student.full_name student))
    (assigned (StudentUpdate.sponsorship_package updates)
              (Student.sponsorship_package student))
    (assigned_option (StudentUpdate.financial_data updates)
                     (Student.financial_data student))
    (assigned (StudentUpdate.notes updates) (Student.notes student)).

Definition assign_sponsor (sponsor : Sponsor.t) (updates : SponsorUpdate.t)
  : Sponsor.t :=
  Sponsor.make
    (assigned (SponsorUpdate.cid updates) (Sponsor.cid sponsor))
    (assigned (SponsorUpdate.full_name updates) (Sponsor.full_name sponsor))
    (assigned (SponsorUpdate.sponsor updates) (Sponsor.sponsor sponsor))
    (assigned (SponsorUpdate.amount updates) (Sponsor.amount sponsor))
    (assigned (SponsorUpdate.sponsorship_status updates)
              (Sponsor.sponsorship_status sponsor))
    (assigned (SponsorUpdate.category updates) (Sponsor.category sponsor))
    (assigned (SponsorUpdate.start_date updates) (Sponsor.start_date sponsor))
    (assigned (SponsorUpdate.notes updates) (Sponsor.notes sponsor)).

Definition assign_expense (expense : Expense.t) (updates : ExpenseUpdate.t)
  : Expense.t :=
  Expense.make
    (assigned (ExpenseUpdate.id updates) (Expense.id expense))
    (assigned (ExpenseUpdate.date updates) (Expense.date expense))
    (assigned (ExpenseUpdate.studentName updates) (Expense.studentName expense))
    (assigned (ExpenseUpdate.category updates) (Expense.category expense))
    (assigned (ExpenseUpdate.amount updates) (Expense.amount expense))
    (assigned (ExpenseUpdate.description updates) (Expense.description expense))
    (assigned (ExpenseUpdate.currency updates) (Expense.currency expense)).

Definition assign_program (program : Program.t) (updates : ProgramUpdate.t)
  : Program.t :=
  Program.make
    (assigned (ProgramUpdate.program_name updates) (Program.program_name program))
    (assigned_option (ProgramUpdate.students updates) (Program.students program))
    (assigned_option (ProgramUpdate.metadata updates) (Program.metadata program)).

(** The edit of [l[i]] in place. *)
Fixpoint update_at {A : Type} (i : nat) (f : A -> A) (l : list A) : list A :=
  match l, i with
  | [], _ => []
  | x :: l', O => f x :: l'
  | x :: l', S i' => x :: update_at i' f l'
  end.

Section FurtherRoutes.

Variable rt : JSRuntime.
Variable now : jsval.
Variable write_ok : bool.

(** [app.post('/api/programs/:program')] *)
Definition post_program (program : string) (programData : ProgramUpdate.t)
  (file : Database.t) : reply * Database.t :=
  let database := file in
  match Database.sponsorship_programs database with
  | None => (server_error, file)
  | Some programs0 =>
      let created :=
        Program.make
          (match ProgramUpdate.program_name programData with
           | Some name =>
               if truthy name then name
               else VStr (program ++ " FINANCIAL ANALYSIS REPORT")
           | None => VStr (program ++ " FINANCIAL ANALYSIS REPORT")
           end)
          (Some [])
          (Some (Program.make_metadata (Some 0%Z) (Some []) VUndef VUndef)) in
      let programs :=
        match lookup programs0 program with
        | Some _ => programs0
        | None => assign programs0 program created
        end in
      match lookup programs program with
      | None => (server_error, file)
      | Some p =>
          save_and_reply rt now write_ok
            (set_programs database
               (assign programs program (assign_program p programData)))
            file
      end
  end.

(** [app.post('/api/programs/:program/students')] *)
Definition post_program_student (program : string)
  (studentData : StudentRequest.t) (file : Database.t) : reply * Database.t :=
  let database := file in
  match Database.sponsorship_programs database with
  | None => (server_error, file)
  | Some programs =>
      match lookup programs program with
      | None => (not_found, file)
      | Some p =>
          (* [if (!studentData.serial_number)]: none was sent, or it is 0. *)
          let generated : completion Z :=
            match Program.students p with
            | Some l => Normal (Z.of_nat (List.length l) + 1)%Z
            | None => TypeError
            end in
          let serial_number : completion Z :=
            match StudentRequest.serial_number studentData with
            | Some n => if (n =? 0)%Z then generated else Normal n
            | None => generated
            end in
          match serial_number with
          | TypeError => (server_error, file)
          | Normal serial_number =>
              let calculatedFinancials :=
                calculateStudentFinancials rt
                  (match StudentRequest.financial_data studentData with
                   | Some fd => fd
                   | None => []
                   end) in
              let stored :=
                Student.make serial_number
                  (StudentRequest.full_name studentData)
                  (StudentRequest.sponsorship_package studentData)
                  (Some calculatedFinancials)
                  (StudentRequest.notes studentData) in
              match Program.students p with
              | None => (server_error, file)
              | Some l =>
                  save_and_reply rt now write_ok
                    (set_programs database
                       (assign programs program
                          (Program.make (Program.program_name p)
                             (Some (l ++ [stored])%list)
                             (Program.metadata p))))
                    file
              end
          end
      end
  end.

(** [app.put('/api/programs/:program/students/:studentId')] *)
Definition put_program_student (program : string) (studentId : Z)
  (updates : StudentUpdate.t) (file : Database.t) : reply * Database.t :=
  let database := file in
  match Database.sponsorship_programs database with
  | None => (server_error, file)
  | Some programs =>
      match lookup programs program with
      | None => (not_found, file)
      | Some p =>
          match Program.students p with
          | None => (server_error, file)
          | Some students =>
              match findIndex
                      (fun s => (Student.serial_number s =? studentId)%Z)
                      students with
              | None => (not_found, file)
              | Some studentIndex =>
                  (* [if (updates.financial_data) updates.financial_data =
                      calculateStudentFinancials(updates.financial_data)] *)
                  let updates :=
                    StudentUpdate.make
                      (StudentUpdate.serial_number updates)
                      (StudentUpdate.full_name updates)
                      (StudentUpdate.sponsorship_package updates)
                      (option_map (calculateStudentFinancials rt)
                                  (StudentUpdate.financial_data updates))
                      (StudentUpdate.notes updates) in
                  save_and_reply rt now write_ok
                    (set_programs database
                       (assign programs program
                          (Program.make (Program.program_name p)
                             (Some (update_at studentIndex
                                      (fun s => assign_student s updates)
                                      students))
                             (Program.metadata p))))
                    file
              end
          end
      end
  end.

(** [app.put('/api/registry/:program/students/:sponsorId')] *)
Definition put_registry_student (program : string) (sponsorId : Z)
  (updates : SponsorUpdate.t) (file : Database.t) : reply * Database.t :=
  let database := file in
  match Database.sponsorship_registry database with
  | None => (server_error, file)
  | Some registries =>
      match lookup registries program with
      | None => (not_found, file)
      | Some registry =>
          match Registry.students registry with
          | None => (server_error, file)
          | Some sponsors =>
              match findIndex (fun s => (Sponsor.cid s =? sponsorId)%Z)
                              sponsors with
              | None => (not_found, file)
              | Some sponsorIndex =>
                  let update :=
                    save_and_reply rt now write_ok
                      (set_registries database
                         (assign registries program
                            (Registry.make
                               (Some (update_at sponsorIndex
                                        (fun s => assign_sponsor s updates)
                                        sponsors))
                               (Registry.metadata registry))))
                      file in
                  let full_name :=
                    match SponsorUpdate.full_name updates with
                    | Some name => name
                    | None => VUndef
                    end in
                  if truthy full_name then
                    match Database.sponsorship_programs database with
                    | None => (server_error, file)
                    | Some programs =>
                        if negb (studentExists programs program full_name)
                        then (bad_request, file)
                        else update
                    end
                  else update
              end
          end
      end
  end.

(** [app.put('/api/expenses/:expenseId')] *)
Definition put_expense (expenseId : Z) (updates : ExpenseUpdate.t)
  (file : Database.t) : reply * Database.t :=
  let database := file in
  match Database.daily_expenses database with
  | None => (not_found, file)
  | Some daily_expenses =>
      match findIndex (fun e => (Expense.id e =? expenseId)%Z) daily_expenses with
      | None => (not_found, file)
      | Some expenseIndex =>
          save_and_reply rt now write_ok
            (set_daily_expenses database
               (update_at expenseIndex (fun e => assign_expense e updates)
                          daily_expenses))
            file
      end
  end.

End FurtherRoutes.

(** ** Runs of the routes

    A route evaluates formulas when it calculates the record of a
    request, and again when [saveDatabase] recalculates the dataset: a
    call of [Function(...)()] that does not come back leaves the request
    without an answer, and the file is not written.  The routes that the
    statements follow to their answer are given again here over an
    engine, with [None] for such a run. *)

(** Whether the recalculation of a dataset returns: every calculation
    of a student's record does (a dataset without programs makes the
    recalculation throw before any). *)
Definition recalculation_returns (engine : JSEngine) (database : Database.t)
  : bool :=
  match Database.sponsorship_programs database with
  | Some programs => calculations_return engine programs
  | None => true
  end.

Section RouteRuns.

Variable engine : JSEngine.
Variable now : jsval.
Variable write_ok : bool.

Definition saveDatabase_run (data file : Database.t)
  : option (bool * Database.t) :=
  match recalculateAllMetadata_run engine (set_last_updated data now) with
  | Some (Returns data') => Some (if write_ok then (true, data') else (false, file))
  | Some (Throws _) => Some (false, file)
  | None => None
  end.

Definition save_and_reply_run (data file : Database.t)
  : option (reply * Database.t) :=
  match saveDatabase_run data file with
  | Some (true, file') => Some (ok, file')
  | Some (false, file') => Some (server_error, file')
  | None => None
  end.

(** [app.post('/api/programs/:program')] *)
Definition post_program_run (program : string) (programData : ProgramUpdate.t)
  (file : Database.t) : option (reply * Database.t) :=
  let database := file in
  match Database.sponsorship_programs database with
  | None => Some (server_error, file)
  | Some programs0 =>
      let created :=
        Program.make
          (match ProgramUpdate.program_name programData with
           | Some name =>
               if truthy name then name
               else VStr (program ++ " FINANCIAL ANALYSIS REPORT")
           | None => VStr (program ++ " FINANCIAL ANALYSIS REPORT")
           end)
          (Some [])
          (Some (Program.make_metadata (Some 0%Z) (Some []) VUndef VUndef)) in
      let programs :=
        match lookup programs0 program with
        | Some _ => programs0
        | None => assign programs0 program created
        end in
      match lookup programs program with
      | None => Some (server_error, file)
      | Some p =>
          save_and_reply_run
            (set_programs database
               (assign programs program (assign_program p programData)))
            file
      end
  end.

(** [app.post('/api/programs/:program/students')] *)
Definition post_program_student_run (program : string)
  (studentData : StudentRequest.t) (file : Database.t)
  : option (reply * Database.t) :=
  let database := file in
  match Database.sponsorship_programs database with
  | None => Some (server_error, file)
  | Some programs =>
      match lookup programs program with
      | None => Some (not_found, file)
      | Some p =>
          let generated : completion Z :=
            match Program.students p with
            | Some l => Normal (Z.of_nat (List.length l) + 1)%Z
            | None => TypeError
            end in
          let serial_number : completion Z :=
            match StudentRequest.serial_number studentData with
            | Some n => if (n =? 0)%Z then generated else Normal n
            | None => generated
            end in
          match serial_number with
          | TypeError => Some (server_error, file)
          | Normal serial_number =>
              match calculateStudentFinancials_run engine
                      (match StudentRequest.financial_data studentData with
                       | Some fd => fd
                       | None => []
                       end) with
              | None => None
              | Some calculatedFinancials =>
                  let stored :=
                    Student.make serial_number
                      (StudentRequest.full_name studentData)
                      (StudentRequest.sponsorship_package studentData)
                      (Some calculatedFinancials)
                      (StudentRequest.notes studentData) in
                  match Program.students p with
                  | None => Some (server_error, file)
                  | Some l =>
                      save_and_reply_run
                        (set_programs database
                           (assign programs program
                              (Program.make (Program.program_name p)
                                 (Some (l ++ [stored])%list)
                                 (Program.metadata p))))
                        file
                  end
              end
          end
      end
  end.

(** [app.put('/api/programs/:program/students/:studentId')] *)
Definition put_program_student_run (program : string) (studentId : Z)
  (updates : StudentUpdate.t) (file : Database.t)
  : option (reply * Database.t) :=
  let database := file in
  match Database.sponsorship_programs database with
  | None => Some (server_error, file)
  | Some programs =>
      match lookup programs program with
      | None => Some (not_found, file)
      | Some p =>
          match Program.students p with
          | None => Some (server_error, file)
          | Some students =>
              match findIndex
                      (fun s => (Student.serial_number s =? studentId)%Z)
                      students with
              | None => Some (not_found, file)
              | Some studentIndex =>
                  (* [if (updates.financial_data) updates.financial_data =
                      calculateStudentFinancials(updates.financial_data)] *)
                  let calculated : option (option obj) :=
                    match StudentUpdate.financial_data updates with
                    | Some fd =>
                        option_map Some (calculateStudentFinancials_run engine fd)
                    | None => Some None
                    end in
                  match calculated with
                  | None => None
                  | Some financial_data =>
                      let updates :=
                        StudentUpdate.make
                          (StudentUpdate.serial_number updates)
                          (StudentUpdate.full_name updates)
                          (StudentUpdate.sponsorship_package updates)
                          financial_data
                          (StudentUpdate.notes updates) in
                      save_and_reply_run
                        (set_programs database
                           (assign programs program
                              (Program.make (Program.program_name p)
                                 (Some (update_at studentIndex
                                          (fun s => assign_student s updates)
                                          students))
                                 (Program.metadata p))))
                        file
                  end
              end
          end
      end
  end.

(** [app.delete('/api/programs/:program/students/:studentId')] *)
Definition delete_program_student_run (program : string) (studentId : Z)
  (file : Database.t) : option (reply * Database.t) :=
  let database := file in
  match Database.sponsorship_programs database with
  | None => Some (server_error, file)
  | Some programs =>
      match lookup programs program with
      | None => Some (not_found, file)
      | Some p =>
          match Program.students p with
          | None => Some (server_error, file)
          | Some students =>
              match remove_student studentId students with
              | None => Some (not_found, file)
              | Some students' =>
                  save_and_reply_run
                    (set_programs database
                       (assign programs program
                          (Program.make (Program.program_name p)
                             (Some students') (Program.metadata p))))
                    file
              end
          end
      end
  end.

(** [app.post('/api/registry/:program/students')] *)
Definition post_registry_student_run (program : string)
  (sponsorData : SponsorRequest.t) (file : Database.t)
  : option (reply * Database.t) :=
  let database := file in
  match Database.sponsorship_registry database with
  | None => Some (server_error, file)
  | Some registries0 =>
      let registries :=
        match lookup registries0 program with
        | Some _ => registries0
        | None => assign registries0 program empty_registry
        end in
      match lookup registries program with
      | None => Some (server_error, file)
      | Some registry =>
          let generated : completion Z :=
            match Registry.students registry with
            | Some l => Normal (Z.of_nat (List.length l) + 1)%Z
            | None => TypeError
            end in
          let cid : completion Z :=
            match SponsorRequest.cid sponsorData with
            | Some c => if (c =? 0)%Z then generated else Normal c
            | None => generated
            end in
          match cid with
          | TypeError => Some (server_error, file)
          | Normal cid =>
              match Database.sponsorship_programs database with
              | None => Some (server_error, file)
              | Some programs =>
                  if negb (studentExists programs program
                             (SponsorRequest.full_name sponsorData))
                  then Some (bad_request, file)
                  else
                    let sponsorship_status :=
                      if truthy (SponsorRequest.sponsorship_status sponsorData)
                      then SponsorRequest.sponsorship_status sponsorData
                      else VStr "active" in
                    let category :=
                      if truthy (SponsorRequest.category sponsorData)
                      then SponsorRequest.category sponsorData
                      else VStr "Individual" in
                    let stored :=
                      Sponsor.make cid
                        (SponsorRequest.full_name sponsorData)
                        (SponsorRequest.sponsor sponsorData)
                        (SponsorRequest.amount sponsorData)
                        sponsorship_status category
                        (SponsorRequest.start_date sponsorData)
                        (SponsorRequest.notes sponsorData) in
                    match Registry.students registry with
                    | None => Some (server_error, file)
                    | Some l =>
                        save_and_reply_run
                          (set_registries database
                             (assign registries program
                                (Registry.make (Some (l ++ [stored])%list)
                                   (Registry.metadata registry))))
                          file
                    end
              end
          end
      end
  end.

(** [app.put('/api/registry/:program/students/:sponsorId')] *)
Definition put_registry_student_run (program : string) (sponsorId : Z)
  (updates : SponsorUpdate.t) (file : Database.t)
  : option (reply * Database.t) :=
  let database := file in
  match Database.sponsorship_registry database with
  | None => Some (server_error, file)
  | Some registries =>
      match lookup registries program with
      | None => Some (not_found, file)
      | Some registry =>
          match Registry.students registry with
          | None => Some (server_error, file)
          | Some sponsors =>
              match findIndex (fun s => (Sponsor.cid s =? sponsorId)%Z)
                              sponsors with
              | None => Some (not_found, file)
              | Some sponsorIndex =>
                  let update :=
                    save_and_reply_run
                      (set_registries database
                         (assign registries program
                            (Registry.make
                               (Some (update_at sponsorIndex
                                        (fun s => assign_sponsor s updates)
                                        sponsors))
                               (Registry.metadata registry))))
                      file in
                  let full_name :=
                    match SponsorUpdate.full_name updates with
                    | Some name => name
                    | None => VUndef
                    end in
                  if truthy full_name then
                    match Database.sponsorship_programs database with
                    | None => Some (server_error, file)
                    | Some programs =>
                        if negb (studentExists programs program full_name)
                        then Some (bad_request, file)
                        else update
                    end
                  else update
              end
          end
      end
  end.

(** [app.delete('/api/registry/:program/students/:sponsorId')] *)
Definition delete_registry_student_run (program : string) (sponsorId : Z)
  (file : Database.t) : option (reply * Database.t) :=
  let database := file in
  match Database.sponsorship_registry database with
  | None => Some (server_error, file)
  | Some registries =>
      match lookup registries program with
      | None => Some (not_found, file)
      | Some registry =>
          match Registry.students registry with
          | None => Some (server_error, file)
          | Some sponsors =>
              match remove_sponsor sponsorId sponsors with
              | None => Some (not_found, file)
              | Some sponsors' =>
                  save_and_reply_run
                    (set_registries database
                       (assign registries program
                          (Registry.make (Some sponsors')
                             (Registry.metadata registry))))
                    file
              end
          end
      end
  end.

(** [app.post('/api/expenses')] *)
Definition post_expense_run (expenseData : ExpenseRequest.t)
  (file : Database.t) : option (reply * Database.t) :=
  let database := file in
  let daily_expenses :=
    match Database.daily_expenses database with
    | Some l => l
    | None => []
    end in
  save_and_reply_run
    (set_daily_expenses database (push_expense expenseData daily_expenses))
    file.

(** [app.put('/api/expenses/:expenseId')] *)
Definition put_expense_run (expenseId : Z) (updates : ExpenseUpdate.t)
  (file : Database.t) : option (reply * Database.t) :=
  let database := file in
  match Database.daily_expenses database with
  | None => Some (not_found, file)
  | Some daily_expenses =>
      match findIndex (fun e => (Expense.id e =? expenseId)%Z) daily_expenses with
      | None => Some (not_found, file)
      | Some expenseIndex =>
          save_and_reply_run
            (set_daily_expenses database
               (update_at expenseIndex (fun e => assign_expense e updates)
                          daily_expenses))
            file
      end
  end.

(** [app.delete('/api/expenses/:expenseId')] *)
Definition delete_expense_run (expenseId : Z) (file : Database.t)
  : option (reply * Database.t) :=
  let database := file in
  match Database.daily_expenses database with
  | None => Some (not_found, file)
  | Some daily_expenses =>
      match remove_expense expenseId daily_expenses with
      | None => Some (not_found, file)
      | Some daily_expenses' =>
          save_and_reply_run (set_daily_expenses database daily_expenses') file
      end
  end.

End RouteRuns.

(** ** Reports

    The functions behind the statistics, summary, funding-gap, analytics
    and report routes.  They read the dataset and return a fresh object;
    a read of a property of a missing section throws. *)

Module ProgramStats.
Record t : Type := make {
  total_sponsors : Z;
  active_sponsors : Z;
  monthly_funding : float
}.
End ProgramStats.

Module SponsorStatistics.
Record t : Type := make {
  total_sponsors : Z;
  active_sponsors : Z;
  total_monthly_funding : float;
  program_stats : list (string * ProgramStats.t)
}.
End SponsorStatistics.

Module FinancialSummary.
Record t : Type := make {
  totalStudents : Z;
  totalIncomeEUR : float;
  totalIncomeUGX : float;
  totalCostsEUR : float;
  totalCostsUGX : jsval;
  totalDeficitEUR : float;
  totalDeficitUGX : float
}.
End FinancialSummary.

Module ProgramGap.
Record t : Type := make {
  name : string;
  incomeEUR : jsval;
  incomeUGX : float;
  costsEUR : float;
  costsUGX : jsval;
  deficitEUR : float;
  deficitUGX : float;
  studentCount : Z
}.
End ProgramGap.

Module FundingGap.
Record t : Type := make {
  programs : list ProgramGap.t;
  totalDeficitEUR : float;
  totalDeficitUGX : float
}.
End FundingGap.

Module ProgramDistribution.
Record t : Type := make {
  student_count : Z;
  monthly_costs : jsval;
  sponsorship_types : list (string * Z)
}.
End ProgramDistribution.

Module Analytics.
Record t : Type := make {
  program_distribution : list (string * ProgramDistribution.t);
  expense_breakdown : obj;
  financial_trends : obj;
  sponsor_categories : list (string * Z)
}.
End Analytics.

Module FinancialReport.
Record t : Type := make {
  summary : FinancialSummary.t;
  funding_gap : FundingGap.t;
  sponsor_statistics : SponsorStatistics.t;
  generated_at : jsval;
  exchange_rate : float
}.
End FinancialReport.

(** [types || {}] for a histogram that may be missing. *)
Definition list_of_types (types : option (list (string * Z)))
  : list (string * Z) :=
  match types with
  | Some types => types
  | None => []
  end.

(** [n || 0] for a count that may be missing. *)
Definition count_or0 (n : option Z) : Z :=
  match n with
  | Some n => n
  | None => 0%Z
  end.

Section Reports.

Variable rt : JSRuntime.

(** The body of the loop of [calculateSponsorStatistics] over the
    entries of [sponsorship_registry]. *)
Definition sponsor_statistics_step (stats : SponsorStatistics.t)
  (e : string * Registry.t) : SponsorStatistics.t :=
  match Registry.students (snd e) with
  | Some students =>
      let programSponsors := Z.of_nat (List.length students) in
      let programActiveSponsors :=
        Z.of_nat (List.length (filter is_active students)) in
      let programFunding := program_funding rt students in
      SponsorStatistics.make
        (SponsorStatistics.total_sponsors stats + programSponsors)
        (SponsorStatistics.active_sponsors stats + programActiveSponsors)
        (SponsorStatistics.total_monthly_funding stats + programFunding)
        (assign (SponsorStatistics.program_stats stats) (fst e)
           (ProgramStats.make programSponsors programActiveSponsors
              programFunding))
  | None => stats
  end.

Definition calculateSponsorStatistics (database : Database.t)
  : completion SponsorStatistics.t :=
  match Database.sponsorship_registry database with
  | None => TypeError
  | Some registries =>
      Normal (fold_left sponsor_statistics_step registries
                (SponsorStatistics.make 0 0 0 []))
  end.

(** [program.metadata?.monthly_costs_ugx || 0] *)
Definition program_costs_or0 (program : Program.t) : jsval :=
  match Program.metadata program with
  | Some metadata => js_or (Program.monthly_costs_ugx metadata) (VNum 0)
  | None => VNum 0
  end.

Definition calculateFinancialSummary (db : Database.t)
  : completion FinancialSummary.t :=
  match Database.metadata db with
  | None => TypeError
  | Some metadata =>
      let totalIncomeEUR :=
        match Database.programs_summary metadata with
        | Some summary => num_or0 (Database.total_monthly_funding_euros summary)
        | None => 0%float
        end in
      let totalIncomeUGX := (totalIncomeEUR * EXCHANGE_RATE)%float in
      match Database.sponsorship_programs db with
      | None => TypeError
      | Some programs =>
          let totalCostsUGX :=
            fold_left
              (fun total e => js_add rt total (program_costs_or0 (snd e)))
              programs (VNum 0) in
          let totalCostsEUR := (ToNumber rt totalCostsUGX / EXCHANGE_RATE)%float in
          let totalDeficitUGX :=
            (totalIncomeUGX - ToNumber rt totalCostsUGX)%float in
          let totalDeficitEUR := (totalDeficitUGX / EXCHANGE_RATE)%float in
          Normal
            (FinancialSummary.make
               (match Database.programs_summary metadata with
                | Some summary =>
                    Database.total_students_across_all_programs summary
                | None => 0%Z
                end)
               totalIncomeEUR totalIncomeUGX totalCostsEUR totalCostsUGX
               totalDeficitEUR totalDeficitUGX)
      end
  end.

(** The entry that [calculateFundingGap] pushes for a program. *)
Definition program_gap (program : string) (programData : Program.t)
  (registryData : option Registry.t) : ProgramGap.t :=
  let incomeEUR :=
    match registryData with
    | Some registry =>
        match Registry.metadata registry with
        | Some metadata => js_or (Registry.total_monthly_funding metadata) (VNum 0)
        | None => VNum 0
        end
    | None => VNum 0
    end in
  let incomeUGX := (ToNumber rt incomeEUR * EXCHANGE_RATE)%float in
  let costsUGX := program_costs_or0 programData in
  let costsEUR := (ToNumber rt costsUGX / EXCHANGE_RATE)%float in
  let deficitUGX := (incomeUGX - ToNumber rt costsUGX)%float in
  let deficitEUR := (deficitUGX / EXCHANGE_RATE)%float in
  ProgramGap.make program incomeEUR incomeUGX costsEUR costsUGX
    deficitEUR deficitUGX
    (match Program.metadata programData with
     | Some metadata => count_or0 (Program.total_students metadata)
     | None => 0%Z
     end).

(** The loop of [calculateFundingGap] over [Object.keys]: the entries
    pushed so far, or the error of reading a program's registry when the
    dataset has no registry section. *)
Fixpoint funding_gaps (programs : list (string * Program.t))
  (registries : option (list (string * Registry.t))) (keys : list string)
  (gaps : list ProgramGap.t) : completion (list ProgramGap.t) :=
  match keys with
  | [] => Normal gaps
  | program :: rest =>
      match registries with
      | None => TypeError
      | Some registry =>
          match lookup programs program with
          | Some programData =>
              funding_gaps programs registries rest
                (gaps ++ [program_gap program programData
                            (lookup registry program)])%list
          | None => funding_gaps programs registries rest gaps
          end
      end
  end.

Definition calculateFundingGap (db : Database.t) : completion FundingGap.t :=
  match Database.sponsorship_programs db with
  | None => TypeError
  | Some programs =>
      match funding_gaps programs (Database.sponsorship_registry db)
              (map fst programs) [] with
      | TypeError => TypeError
      | Normal gaps =>
          let totalDeficitUGX :=
            fold_left (fun sum gap => (sum + ProgramGap.deficitUGX gap)%float)
                      gaps 0%float in
          Normal (FundingGap.make gaps
                    (totalDeficitUGX / EXCHANGE_RATE)%float totalDeficitUGX)
      end
  end.

(** The three loops of [calculateAnalytics]. *)
Definition program_distribution_step
  (programs : list (string * Program.t))
  (distribution : list (string * ProgramDistribution.t)) (program : string)
  : list (string * ProgramDistribution.t) :=
  match lookup programs program with
  | Some programData =>
      match Program.metadata programData with
      | Some metadata =>
          assign distribution program
            (ProgramDistribution.make
               (count_or0 (Program.total_students metadata))
               (js_or (Program.monthly_costs_ugx metadata) (VNum 0))
               (list_of_types (Program.sponsorship_types metadata)))
      | None => distribution
      end
  | None => distribution
  end.

Definition expense_breakdown_step (categories : obj) (expense : Expense.t)
  : obj :=
  let category := ToString rt (js_or (Expense.category expense) (VStr "other")) in
  set categories category
    (js_add rt (js_or (get categories category) (VNum 0))
               (js_or (Expense.amount expense) (VNum 0))).

Definition sponsor_category_step (categories : list (string * Z))
  (sponsor : Sponsor.t) : list (string * Z) :=
  let category :=
    ToString rt (js_or (Sponsor.category sponsor) (VStr "Individual")) in
  set_count categories category (count_of categories category + 1).

Definition calculateAnalytics (db : Database.t) : completion Analytics.t :=
  match Database.sponsorship_programs db with
  | None => TypeError
  | Some programs =>
      let program_distribution :=
        fold_left (program_distribution_step programs) (map fst programs) [] in
      let expense_breakdown :=
        match Database.daily_expenses db with
        | Some daily_expenses =>
            fold_left expense_breakdown_step daily_expenses []
        | None => []
        end in
      match Database.sponsorship_registry db with
      | None => TypeError
      | Some registries =>
          let sponsor_categories :=
            fold_left
              (fun categories e =>
                 match Registry.students (snd e) with
                 | Some students =>
                     fold_left sponsor_category_step students categories
                 | None => categories
                 end)
              registries [] in
          Normal (Analytics.make program_distribution expense_breakdown []
                    sponsor_categories)
      end
  end.

(** [generateFinancialReport(db)], at the time [now]. *)
Definition generateFinancialReport (now : jsval) (db : Database.t)
  : completion FinancialReport.t :=
  match calculateFinancialSummary db with
  | TypeError => TypeError
  | Normal financialSummary =>
      match calculateFundingGap db with
      | TypeError => TypeError
      | Normal fundingGap =>
          match calculateSponsorStatistics db with
          | TypeError => TypeError
          | Normal sponsorStats =>
              Normal (FinancialReport.make financialSummary fundingGap
                        sponsorStats now EXCHANGE_RATE)
          end
      end
  end.

(** [updateRegistryMetadata(program, database)] of the earlier version of
    the server: the registry step of the recalculation for one program. *)
Definition updateRegistryMetadata (program : string) (database : Database.t)
  : completion Database.t :=
  match Database.sponsorship_registry database with
  | None => TypeError
  | Some registries =>
      match lookup registries program with
      | Some registry =>
          match Registry.students registry with
          | Some students =>
              let activeStudents := filter is_active students in
              let inactiveStudents := filter is_inactive students in
              let programFunding :=
                fold_left
                  (fun sum student =>
                     (sum + num_or0 (parseFloat rt (Sponsor.amount student)))%float)
                  activeStudents 0%float in
              Normal
                (set_registries database
                   (assign registries program
                      (Registry.make (Some students)
                         (Some (Registry.make_metadata
                                  (Some (Z.of_nat (List.length students)))
                                  (Some (Z.of_nat (List.length activeStudents)))
                                  (Some (Z.of_nat (List.length inactiveStudents)))
                                  (VNum programFunding))))))
          | None => Normal database
          end
      | None => Normal database
      end
  end.

End Reports.
(** ** Import

    The functions that integrate imported records into the dataset, and
    the two import routes.  The integration functions edit the dataset in
    place and may throw on the way; the source-file log that
    [integrateImportedData] keeps in the metadata is left out like the
    other sections that no modelled function reads. *)

Module ImportedData.
Record t : Type := make {
  type : jsval;
  sponsorship_programs : option (list (string * list Student.t));
  sponsorship_registry : option (list (string * list Sponsor.t));
  daily_expenses : option (list Expense.t);
  (* whether the object has a [metadata] property *)
  metadata : bool
}.
End ImportedData.

(** [imported || []] *)
Definition list_of_import {A : Type} (imported : option (list A)) : list A :=
  match imported with
  | Some l => l
  | None => []
  end.

(** [{ ...existing, ...imported }] on one property: the imported value
    when the imported record has the property. *)
Definition spread_value (existing imported : jsval) : jsval :=
  match imported with
  | VUndef => existing
  | _ => imported
  end.

(** [{ ...existing, ...imported, serial_number: existing.serial_number }] *)
Definition merge_student (existing imported : Student.t) : Student.t :=
  Student.make (Student.serial_number existing)
    (spread_value (Student.full_name existing) (Student.full_name imported))
    (spread_value (Student.sponsorship_package existing)
                  (Student.sponsorship_package imported))
    (assigned_option (Student.financial_data imported)
                     (Student.financial_data existing))
    (spread_value (Student.notes existing) (Student.notes imported)).

(** [{ ...existing, ...imported, cid: existing.cid }] *)
Definition merge_sponsor (existing imported : Sponsor.t) : Sponsor.t :=
  Sponsor.make (Sponsor.cid existing)
    (spread_value (Sponsor.full_name existing) (Sponsor.full_name imported))
    (spread_value (Sponsor.sponsor existing) (Sponsor.sponsor imported))
    (spread_value (Sponsor.amount existing) (Sponsor.amount imported))
    (spread_value (Sponsor.sponsorship_status existing)
                  (Sponsor.sponsorship_status imported))
    (spread_value (Sponsor.category existing) (Sponsor.category imported))
    (spread_value (Sponsor.start_date existing) (Sponsor.start_date imported))
    (spread_value (Sponsor.notes existing) (Sponsor.notes imported)).

(** [{ ...existing, ...imported, id: existing.id }] *)
Definition merge_expense (existing imported : Expense.t) : Expense.t :=
  Expense.make (Expense.id existing)
    (spread_value (Expense.date existing) (Expense.date imported))
    (spread_value (Expense.studentName existing) (Expense.studentName imported))
    (spread_value (Expense.category existing) (Expense.category imported))
    (spread_value (Expense.amount existing) (Expense.amount imported))
    (spread_value (Expense.description existing) (Expense.description imported))
    (spread_value (Expense.currency existing) (Expense.currency imported)).

Definition set_expense_id (e : Expense.t) (n : Z) : Expense.t :=
  Expense.make n (Expense.date e) (Expense.studentName e) (Expense.category e)
    (Expense.amount e) (Expense.description e) (Expense.currency e).

(** One turn of [importedStudents.forEach] under the merge strategy. *)
Definition merge_student_step (existingStudents : list Student.t)
  (importedStudent : Student.t) : list Student.t :=
  match findIndex
          (fun s => strict_eq (Student.full_name s)
                              (Student.full_name importedStudent))
          existingStudents with
  | Some existingIndex =>
      update_at existingIndex (fun s => merge_student s importedStudent)
                existingStudents
  | None =>
      (existingStudents
       ++ [Student.set_serial_number importedStudent
             (Z.of_nat (List.length existingStudents) + 1)])%list
  end.

(** One turn of [importedStudents.forEach] under the append strategy. *)
Definition append_student_step (students : list Student.t)
  (student : Student.t) : list Student.t :=
  (students
   ++ [Student.set_serial_number student
         (Z.of_nat (List.length students) + 1)])%list.

Definition merge_sponsor_step (existingSponsors : list Sponsor.t)
  (importedSponsor : Sponsor.t) : list Sponsor.t :=
  match findIndex
          (fun s =>
             (strict_eq (Sponsor.full_name s) (Sponsor.full_name importedSponsor)
              && strict_eq (Sponsor.sponsor s) (Sponsor.sponsor importedSponsor))%bool)
          existingSponsors with
  | Some existingIndex =>
      update_at existingIndex (fun s => merge_sponsor s importedSponsor)
                existingSponsors
  | None =>
      (existingSponsors
       ++ [Sponsor.set_cid importedSponsor
             (Z.of_nat (List.length existingSponsors) + 1)])%list
  end.

Definition append_sponsor_step (sponsors : list Sponsor.t)
  (sponsor : Sponsor.t) : list Sponsor.t :=
  (sponsors
   ++ [Sponsor.set_cid sponsor (Z.of_nat (List.length sponsors) + 1)])%list.

Definition merge_expense_step (existingExpenses : list Expense.t)
  (importedExpense : Expense.t) : list Expense.t :=
  match findIndex
          (fun e =>
             (strict_eq (Expense.date e) (Expense.date importedExpense)
              && strict_eq (Expense.studentName e)
                           (Expense.studentName importedExpense)
              && strict_eq (Expense.description e)
                           (Expense.description importedExpense))%bool)
          existingExpenses with
  | Some existingIndex =>
      update_at existingIndex (fun e => merge_expense e importedExpense)
                existingExpenses
  | None =>
      (existingExpenses
       ++ [set_expense_id importedExpense
             (generated_expense_id existingExpenses)])%list
  end.

(** [importedExpenses.forEach((expense, index) => { expense.id =
    maxId + index + 1; ... })], from position [index] on. *)
Fixpoint number_expenses (maxId index : Z) (expenses : list Expense.t)
  : list Expense.t :=
  match expenses with
  | [] => []
  | expense :: rest =>
      set_expense_id expense (id_add (id_add maxId index) 1)
      :: number_expenses maxId (index + 1) rest
  end.

(** [programs.forEach(step)]: the loop stops at the first turn that
    throws. *)
Fixpoint for_each_program (step : Database.t -> string -> outcome)
  (programs : list string) (database : Database.t) : outcome :=
  match programs with
  | [] => Returns database
  | program :: rest =>
      match step database program with
      | Returns database' => for_each_program step rest database'
      | Throws database' => Throws database'
      end
  end.

Definition import_programs : list string := ["CH"; "YSP"; "ICCSP"; "OTM_GA"].

(** The body of the loop of [integrateStudentsData], for one program. *)
Definition integrate_program_students
  (imported : option (list (string * list Student.t)))
  (mergeStrategy : string) (database : Database.t) (program : string)
  : outcome :=
  match imported with
  | None => Throws database
  | Some imported =>
      let importedStudents := list_of_import (lookup imported program) in
      let with_program (k : list (string * Program.t) -> Program.t -> outcome)
        : outcome :=
        match Database.sponsorship_programs database with
        | None => Throws database
        | Some programs =>
            match lookup programs program with
            | None => Throws database
            | Some p => k programs p
            end
        end in
      let store programs p students :=
        Returns
          (set_programs database
             (assign programs program
                (Program.make (Program.program_name p) (Some students)
                              (Program.metadata p)))) in
      if String.eqb mergeStrategy "replace" then
        with_program (fun programs p => store programs p importedStudents)
      else if String.eqb mergeStrategy "merge" then
        with_program
          (fun programs p =>
             match Program.students p, importedStudents with
             | Some existingStudents, _ =>
                 store programs p
                   (fold_left merge_student_step importedStudents
                              existingStudents)
             | None, [] => Returns database
             | None, _ :: _ => Throws database
             end)
      else if String.eqb mergeStrategy "append" then
        match importedStudents with
        | [] => Returns database
        | _ :: _ =>
            with_program
              (fun programs p =>
                 match Program.students p with
                 | Some students =>
                     store programs p
                       (fold_left append_student_step importedStudents students)
                 | None => Throws database
                 end)
        end
      else Returns database
  end.

Definition integrateStudentsData (database : Database.t)
  (importedData : ImportedData.t) (mergeStrategy : string) : outcome :=
  for_each_program
    (integrate_program_students (ImportedData.sponsorship_programs importedData)
                                mergeStrategy)
    import_programs database.

(** The body of the loop of [integrateSponsorsData], for one program. *)
Definition integrate_program_sponsors
  (imported : option (list (string * list Sponsor.t)))
  (mergeStrategy : string) (database : Database.t) (program : string)
  : outcome :=
  match imported with
  | None => Throws database
  | Some imported =>
      let importedSponsors := list_of_import (lookup imported program) in
      let with_registry (k : list (string * Registry.t) -> Registry.t -> outcome)
        : outcome :=
        match Database.sponsorship_registry database with
        | None => Throws database
        | Some registries =>
            match lookup registries program with
            | None => Throws database
            | Some r => k registries r
            end
        end in
      let store registries r sponsors :=
        Returns
          (set_registries database
             (assign registries program
                (Registry.make (Some sponsors) (Registry.metadata r)))) in
      if String.eqb mergeStrategy "replace" then
        with_registry (fun registries r => store registries r importedSponsors)
      else if String.eqb mergeStrategy "merge" then
        with_registry
          (fun registries r =>
             match Registry.students r, importedSponsors with
             | Some existingSponsors, _ =>
                 store registries r
                   (fold_left merge_sponsor_step importedSponsors
                              existingSponsors)
             | None, [] => Returns database
             | None, _ :: _ => Throws database
             end)
      else if String.eqb mergeStrategy "append" then
        match importedSponsors with
        | [] => Returns database
        | _ :: _ =>
            with_registry
              (fun registries r =>
                 match Registry.students r with
                 | Some sponsors =>
                     store registries r
                       (fold_left append_sponsor_step importedSponsors sponsors)
                 | None => Throws database
                 end)
        end
      else Returns database
  end.

Definition integrateSponsorsData (database : Database.t)
  (importedData : ImportedData.t) (mergeStrategy : string) : outcome :=
  for_each_program
    (integrate_program_sponsors (ImportedData.sponsorship_registry importedData)
                                mergeStrategy)
    import_programs database.

Definition integrateExpensesData (database : Database.t)
  (importedData : ImportedData.t) (mergeStrategy : string) : outcome :=
  let importedExpenses := list_of_import (ImportedData.daily_expenses importedData) in
  if String.eqb mergeStrategy "replace" then
    Returns (set_daily_expenses database importedExpenses)
  else if String.eqb mergeStrategy "merge" then
    match Database.daily_expenses database, importedExpenses with
    | Some existingExpenses, _ =>
        Returns
          (set_daily_expenses database
             (fold_left merge_expense_step importedExpenses existingExpenses))
    | None, [] => Returns database
    | None, _ :: _ => Throws database
    end
  else if String.eqb mergeStrategy "append" then
    match Database.daily_expenses database with
    | Some daily_expenses =>
        let maxId :=
          match map Expense.id daily_expenses with
          | [] => 0%Z
          | x :: l => Math_max x l
          end in
        Returns
          (set_daily_expenses database
             (daily_expenses ++ number_expenses maxId 0 importedExpenses)%list)
    | None => Throws database
    end
  else Returns database.

Definition integrateAllData (database : Database.t)
  (importedData : ImportedData.t) (mergeStrategy : string) : outcome :=
  match integrateStudentsData database importedData mergeStrategy with
  | Throws database => Throws database
  | Returns database =>
      match integrateSponsorsData database importedData mergeStrategy with
      | Throws database => Throws database
      | Returns database =>
          integrateExpensesData database importedData mergeStrategy
      end
  end.

Section Importing.

Variable rt : JSRuntime.
Variable now : jsval.
Variable write_ok : bool.

(** [integrateImportedData]: the recalculated dataset, or [None] when
    the function throws.  It works on a deep copy of the dataset, so the
    caller's dataset stays as it is. *)
Definition integrateImportedData (database : Database.t)
  (importedData : ImportedData.t) (importType : jsval)
  (mergeStrategy : string) : option Database.t :=
  let result := database in
  let integrated :=
    if strict_eq importType (VStr "students")
    then integrateStudentsData result importedData mergeStrategy
    else if strict_eq importType (VStr "sponsors")
    then integrateSponsorsData result importedData mergeStrategy
    else if strict_eq importType (VStr "expenses")
    then integrateExpensesData result importedData mergeStrategy
    else if strict_eq importType (VStr "all")
    then integrateAllData result importedData mergeStrategy
    else Throws result in
  match integrated with
  | Throws _ => None
  | Returns result =>
      match Database.metadata result with
      | None => None
      | Some _ =>
          if ImportedData.metadata importedData
          then match recalculateAllMetadata rt result with
               | Returns result => Some result
               | Throws _ => None
               end
          else None
      end
  end.

(** [req.query.merge || 'replace'] *)
Definition merge_strategy (merge : option string) : string :=
  match merge with
  | Some EmptyString => "replace"
  | Some s => s
  | None => "replace"
  end.

(** [app.post('/api/import/json')], for a body that is an object. *)
Definition post_import_json (importedData : ImportedData.t)
  (merge : option string) (file : Database.t) : reply * Database.t :=
  match integrateImportedData file importedData
          (ImportedData.type importedData) (merge_strategy merge) with
  | Some database => save_and_reply rt now write_ok database file
  | None => (server_error, file)
  end.

(** What [processExcelImport] returns: the processed sections are under
    [data], beside [type] and [metadata]; the object has no section of its
    own. *)
Definition processed_import (importType : jsval) : ImportedData.t :=
  ImportedData.make importType None None None true.

(** [app.post('/api/import/excel')], for an upload that
    [processExcelImport] reads; [type] and [merge] are the fields of the
    form. *)
Definition post_import_excel (type merge : option string) (file : Database.t)
  : reply * Database.t :=
  let importType :=
    match type with
    | Some EmptyString => VStr "all"
    | Some s => VStr s
    | None => VStr "all"
    end in
  let mergeStrategy := merge_strategy merge in
  let importedData := processed_import importType in
  match integrateImportedData file importedData importType mergeStrategy with
  | Some database => save_and_reply rt now write_ok database file
  | None => (server_error, file)
  end.

End Importing.
(** ** Further statements about results *)

(** The names of the members that a plain object inherits from
    [Object.prototype].  For such a name [o[k]] reads the inherited
    member when [o] has no property [k] of its own, so that a guard
    [!o[k]] does not see a missing entry and [(o[k] || 0) + 1] is not a
    count; [lookup], [get] and [count_of] read own properties, and the
    statements about a missing program and about histograms are for the
    other names. *)
Definition prototype_members : list string :=
  [ "constructor"; "__defineGetter__"; "__defineSetter__"; "hasOwnProperty";
    "__lookupGetter__"; "__lookupSetter__"; "isPrototypeOf";
    "propertyIsEnumerable"; "toString"; "valueOf"; "__proto__";
    "toLocaleString" ].

Definition inherited (k : string) : bool :=
  existsb (String.eqb k) prototype_members.

(** What the file holds of a record.  [saveDatabase] writes
    [JSON.stringify] of the dataset, and JSON has no [NaN], no infinity and
    no negative zero: read back, a number that is not finite is [null]
    and the negative zero is 0; a property whose value is [undefined] is
    not written.  A finite number other than the negative zero is read
    back as it is. *)
Definition JSON_exact (x : float) : bool :=
  (PrimFloat.is_finite x
   && negb (PrimFloat.is_zero x && PrimFloat.get_sign x))%bool.

Definition JSON_value (v : jsval) : jsval :=
  match v with
  | VNum x =>
      if PrimFloat.is_finite x then
        if (PrimFloat.is_zero x && PrimFloat.get_sign x)%bool
        then VNum 0 else VNum x
      else VNull
  | _ => v
  end.

Definition JSON_record (o : obj) : obj :=
  map (fun e => (fst e, JSON_value (snd e)))
      (filter (fun e => match snd e with
                        | VUndef => false
                        | _ => true
                        end) o).

(** Every property holds a number that JSON text holds as it is. *)
Definition JSON_exact_record (o : obj) : bool :=
  forallb (fun e => match snd e with
                    | VNum x => JSON_exact x
                    | _ => false
                    end) o.

(** The property name under which a student's package is counted. *)
Definition package_label (rt : JSRuntime) (s : Student.t) : string :=
  ToString rt (Student.sponsorship_package s).

(** The entries of a list, [[]] when the list is missing. *)
Definition list_of {A : Type} (o : option (list A)) : list A :=
  match o with
  | Some l => l
  | None => []
  end.

(** The students of all programs and the sponsors of all registries, in
    the order of the dataset. *)
Definition all_students (programs : list (string * Program.t))
  : list Student.t :=
  flat_map (fun e => list_of (Program.students (snd e))) programs.

Definition all_sponsors (registries : list (string * Registry.t))
  : list Sponsor.t :=
  flat_map (fun e => list_of (Registry.students (snd e))) registries.

(** The sum of the counts of a histogram. *)
Definition total_count (h : list (string * Z)) : Z :=
  fold_right (fun e n => (snd e + n)%Z) 0%Z h.

(** The number a student's record holds in [monthly_output_ugx]. *)
Definition stored_monthly_output (rt : JSRuntime) (s : Student.t) : float :=
  ToNumber rt (get (financial_data_or_empty s) "monthly_output_ugx").

(** How a route leaves the file: a successful reply, the dataset
    serialised into the file being one that recalculation returns
    unchanged, stamped with the time of the save; or a failure with the
    file as it was. *)
Definition persisted (rt : JSRuntime) (now : jsval) (file : Database.t)
  (result : reply * Database.t) : Prop :=
  (fst result = ok
   /\ recalculateAllMetadata rt (snd result) = Returns (snd result)
   /\ Database.last_updated (snd result) = now)
  \/ (success (fst result) = false /\ snd result = file).

(** The sum, in list order from 0, of the numbers that the students of a
    program hold in [monthly_output_ugx]. *)
Definition program_cost (rt : JSRuntime) (p : Program.t) : float :=
  fold_left (fun sum s => (sum + stored_monthly_output rt s)%float)
            (list_of (Program.students p)) 0%float.

(** The property name under which a sponsor's category and an expense's
    category are counted. *)
Definition sponsor_category_label (rt : JSRuntime) (s : Sponsor.t) : string :=
  ToString rt (js_or (Sponsor.category s) (VStr "Individual")).

Definition expense_category_label (rt : JSRuntime) (e : Expense.t) : string :=
  ToString rt (js_or (Expense.category e) (VStr "other")).

(** The statistics of one registry's sponsor list. *)
Definition stats_of (rt : JSRuntime) (sponsors : list Sponsor.t)
  : ProgramStats.t :=
  ProgramStats.make (Z.of_nat (List.length sponsors))
    (Z.of_nat (List.length (filter is_active sponsors)))
    (funding_of rt 0 sponsors).

(** The students (sponsors) of a program after a merge and after an
    append of imported records. *)
Definition merged_students (existing imported : list Student.t)
  : list Student.t :=
  fold_left merge_student_step imported existing.

Definition appended_students (existing imported : list Student.t)
  : list Student.t :=
  fold_left append_student_step imported existing.

Definition merged_sponsors (existing imported : list Sponsor.t)
  : list Sponsor.t :=
  fold_left merge_sponsor_step imported existing.

Definition appended_sponsors (existing imported : list Sponsor.t)
  : list Sponsor.t :=
  fold_left append_sponsor_step imported existing.

(** Whether a program is one of those that the import functions visit. *)
Definition imported_program (program : string) : bool :=
  existsb (String.eqb program) import_programs.

(** The list that an import leaves in a program it visits, by strategy;
    a strategy other than the three leaves the list as it is. *)
Definition integrated_students (mergeStrategy : string)
  (imported existing : list Student.t) : list Student.t :=
  if String.eqb mergeStrategy "replace" then imported
  else if String.eqb mergeStrategy "merge" then merged_students existing imported
  else if String.eqb mergeStrategy "append"
       then appended_students existing imported
  else existing.

Definition integrated_sponsors (mergeStrategy : string)
  (imported existing : list Sponsor.t) : list Sponsor.t :=
  if String.eqb mergeStrategy "replace" then imported
  else if String.eqb mergeStrategy "merge" then merged_sponsors existing imported
  else if String.eqb mergeStrategy "append"
       then appended_sponsors existing imported
  else existing.

(** What an import leaves outside the section it edits. *)
Definition same_but_programs (db db' : Database.t) : Prop :=
  Database.sponsorship_registry db' = Database.sponsorship_registry db
  /\ Database.daily_expenses db' = Database.daily_expenses db
  /\ Database.metadata db' = Database.metadata db
  /\ Database.last_updated db' = Database.last_updated db.

Definition same_but_registry (db db' : Database.t) : Prop :=
  Database.sponsorship_programs db' = Database.sponsorship_programs db
  /\ Database.daily_expenses db' = Database.daily_expenses db
  /\ Database.metadata db' = Database.metadata db
  /\ Database.last_updated db' = Database.last_updated db.


(** [h[label] = (h[label] || 0) + 1], the turn of a loop that counts the
    entries of a list by label. *)
Definition count_label {A : Type} (label : A -> string)
  (h : list (string * Z)) (x : A) : list (string * Z) :=
  set_count h (label x) (count_of h (label x) + 1).

(** [(total || 0) + (amount || 0)], the turn of the expense breakdown for
    an expense whose amount is a number. *)
Definition add_amount (rt : JSRuntime) (total : float) (e : Expense.t)
  : float :=
  (num_or0 total + num_or0 (ToNumber rt (Expense.amount e)))%float.

(** Sample data for the further properties. *)
Definition sample_program : Program.t :=
  Program.make (VStr "CH REPORT") (Some [student_A; student_B]) None.

Definition sample_programs : list (string * Program.t) :=
  [("CH", sample_program)].

Definition sample_registries : list (string * Registry.t) :=
  [("CH", sample_registry)].

Definition sample_metadata : Database.metadata_t :=
  Database.make_metadata (VStr "2025-01-01") None.

Definition sample_program_after : Program.t :=
  fst (recalculate_program NodeRef.runtime sample_program).

Definition sample_students_after : list Student.t :=
  map (update_student NodeRef.runtime) [student_A; student_B].

Definition sample_now : jsval := VStr "2025-02-01".

Definition student_request : StudentRequest.t :=
  StudentRequest.make None (VStr "C") (VStr "Day") (Some sample_fd) VUndef.

Definition student_update : StudentUpdate.t :=
  StudentUpdate.make None None (Some (VStr "Boarding")) (Some sample_fd) None.

Definition sponsor_update (name : option jsval) : SponsorUpdate.t :=
  SponsorUpdate.make None name None (Some (VNum 75)) None None None None.

Definition program_update : ProgramUpdate.t :=
  ProgramUpdate.make None None None.

Definition program_update_students : ProgramUpdate.t :=
  ProgramUpdate.make None (Some [student_A]) None.

(** A record whose formula has no value as a number. *)
Definition record_0_by_0 : obj := [("food", VStr "=0/0")].

Definition sample_expenses : list Expense.t :=
  [ Expense.make 1 (VStr "2025-01-05") (VStr "A") (VStr "food") (VNum 1000)
      (VStr "lunch") (VStr "UGX");
    Expense.make 4 (VStr "2025-01-06") (VStr "B") VUndef (VNum 500)
      (VStr "bus") (VStr "UGX") ].

Definition sample_db_with_expenses : Database.t :=
  set_daily_expenses sample_db sample_expenses.

Definition sample_import : ImportedData.t :=
  ImportedData.make (VStr "expenses") None None
    (Some [ Expense.make 1 (VStr "2025-01-06") (VStr "B") (VStr "transport")
              VUndef (VStr "bus") VUndef;
            Expense.make 2 (VStr "2025-01-07") (VStr "A") (VStr "food")
              (VNum 700) (VStr "lunch") (VStr "UGX") ])
    true.

(** The record at the turn of the calculator's loop that reaches a key:
    the turns of the keys before it have been made. *)
Definition normalized_before (rt : JSRuntime) (before : list string) (fd : obj)
  : obj :=
  fold_left (normalize_step rt) before fd.

Definition formula_record : obj :=
  [ ("termly_school_fees", VStr "600000");
    ("direct_spending_school_fees_ugx_monthly", VStr "=D3/3");
    ("food", VStr "=E3") ].

Definition expense_update (id : option Z) : ExpenseUpdate.t :=
  ExpenseUpdate.make id None None None (Some (VNum 1200)) None None.

Definition student_C : Student.t :=
  Student.make 4 (VStr "D") (VStr "Day") None VUndef.

Definition students_import : ImportedData.t :=
  ImportedData.make (VStr "students")
    (Some [("CH", [ Student.make 7 (VStr "B") VUndef (Some sample_fd) (VStr "new");
                    Student.make 8 (VStr "E") (VStr "Day") None VUndef ])])
    None None true.

(** * Properties *)

Ltac split_conditions :=
  repeat match goal with
         | |- context [if ?b then _ else _] =>
             destruct b; try discriminate; auto
         end.


(** ** Objects *)

Lemma get_set_same (o : obj) (k : string) (v : jsval) :
  get (set o k v) k = v.
Proof.
  induction o as [|[k' v'] o IH]; simpl.
  - now rewrite String.eqb_refl.
  - destruct (String.eqb k' k) eqn:E; simpl; rewrite E; auto.
Qed.

Lemma get_set_other (o : obj) (k k' : string) (v : jsval) :
  k <> k' -> get (set o k v) k' = get o k'.
Proof.
  intros Hne. induction o as [|[k0 v0] o IH]; simpl.
  - apply String.eqb_neq in Hne. now rewrite Hne.
  - destruct (String.eqb k0 k) eqn:E; simpl.
    + apply String.eqb_eq in E. subst k0.
      apply String.eqb_neq in Hne. now rewrite Hne.
    + destruct (String.eqb k0 k'); auto.
Qed.

Lemma get_set (o : obj) (k k' : string) (v : jsval) :
  get (set o k v) k' = if String.eqb k k' then v else get o k'.
Proof.
  destruct (String.eqb_spec k k') as [->|Hne].
  - apply get_set_same.
  - now apply get_set_other.
Qed.

Lemma get_absent (o : obj) (k : string) :
  ~ In k (keys o) -> get o k = VUndef.
Proof.
  induction o as [|[k' v'] o IH]; simpl; intros Hn; auto.
  destruct (String.eqb_spec k' k) as [->|Hne].
  - exfalso. apply Hn. now left.
  - apply IH. intros Hin. apply Hn. now right.
Qed.

Lemma keys_set_present (o : obj) (k : string) (v : jsval) :
  In k (keys o) -> keys (set o k v) = keys o.
Proof.
  induction o as [|[k' v'] o IH]; simpl; intros Hin.
  - contradiction.
  - destruct (String.eqb_spec k' k) as [->|Hne]; simpl; auto.
    f_equal. apply IH. destruct Hin as [H|H]; [contradiction|assumption].
Qed.

Lemma keys_set_absent (o : obj) (k : string) (v : jsval) :
  ~ In k (keys o) -> keys (set o k v) = (keys o ++ [k])%list.
Proof.
  induction o as [|[k' v'] o IH]; simpl; intros Hn; auto.
  destruct (String.eqb_spec k' k) as [->|Hne]; simpl.
  - exfalso. apply Hn. now left.
  - f_equal. apply IH. intros Hin. apply Hn. now right.
Qed.

Lemma in_keys_set (o : obj) (k k' : string) (v : jsval) :
  In k' (keys (set o k v)) <-> k' = k \/ In k' (keys o).
Proof.
  destruct (in_dec string_dec k (keys o)) as [Hin|Hn].
  - rewrite keys_set_present by assumption. split; auto.
    intros [->|H]; auto.
  - rewrite keys_set_absent by assumption. rewrite in_app_iff. simpl.
    split; intros H; decompose [or] H; auto; contradiction.
Qed.

Lemma set_unchanged (o : obj) (k : string) (v : jsval) :
  In k (keys o) -> get o k = v -> set o k v = o.
Proof.
  induction o as [|[k' v'] o IH]; simpl; intros Hin Hget.
  - contradiction.
  - destruct (String.eqb_spec k' k) as [->|Hne].
    + now subst.
    + f_equal. apply IH; auto.
      destruct Hin as [H|H]; [contradiction|assumption].
Qed.

Lemma NoDup_keys_set (o : obj) (k : string) (v : jsval) :
  NoDup (keys o) -> NoDup (keys (set o k v)).
Proof.
  intros Hnd. destruct (in_dec string_dec k (keys o)) as [Hin|Hn].
  - now rewrite keys_set_present.
  - rewrite keys_set_absent by assumption.
    apply NoDup_app; auto.
    + constructor; [intros []|constructor].
    + intros x Hx [<-|[]]. contradiction.
Qed.

(** Two objects with the same keys in the same order, none repeated,
    and the same reading of every key are the same object. *)
Lemma obj_ext (a b : obj) :
  NoDup (keys a) -> keys a = keys b ->
  (forall k, In k (keys a) -> get a k = get b k) -> a = b.
Proof.
  revert b. induction a as [|[k v] a IH]; intros b Hnd Hk Hg.
  - destruct b; [reflexivity|discriminate].
  - destruct b as [|[k' v'] b]; [discriminate|].
    simpl in Hk. injection Hk as -> Hk.
    inversion Hnd as [|? ? Hnotin Hnd']; subst.
    assert (v = v') as <-.
    { specialize (Hg k' (or_introl eq_refl)). simpl in Hg.
      now rewrite String.eqb_refl in Hg. }
    f_equal. apply IH; auto.
    intros k Hin. specialize (Hg k (or_intror Hin)). simpl in Hg.
    destruct (String.eqb_spec k' k) as [->|Hne]; [contradiction|assumption].
Qed.

(** *** Key lists *)

Lemma keys_set (o : obj) (k : string) (v : jsval) :
  keys (set o k v) = kadd (keys o) k.
Proof.
  unfold kadd. destruct (in_dec string_dec k (keys o)).
  - now apply keys_set_present.
  - now apply keys_set_absent.
Qed.

Lemma kadd_all_incl (L K : list string) :
  incl L K -> fold_left kadd L K = K.
Proof.
  induction L as [|x L IH]; simpl; intros Hi; auto.
  assert (Hx : In x K) by (apply Hi; now left).
  unfold kadd at 2. destruct (in_dec string_dec x K); [|contradiction].
  apply IH. intros y Hy. apply Hi. now right.
Qed.

Lemma kadd_all_fresh (L K : list string) :
  NoDup L -> (forall x, In x L -> ~ In x K) ->
  fold_left kadd L K = (K ++ L)%list.
Proof.
  revert K. induction L as [|x L IH]; simpl; intros K Hnd Hf.
  - now rewrite app_nil_r.
  - inversion Hnd as [|? ? Hx Hnd']; subst.
    unfold kadd at 2. destruct (in_dec string_dec x K) as [Hin|_].
    + exfalso. apply (Hf x); auto.
    + rewrite IH; auto.
      * now rewrite <- app_assoc.
      * intros y Hy Hin. apply in_app_iff in Hin. destruct Hin as [Hin|[<-|[]]].
        -- apply (Hf y); auto.
        -- contradiction.
Qed.

Lemma kadd_all_split (D K : list string) :
  exists L, fold_left kadd D K = (K ++ L)%list /\ NoDup L /\
            (forall x, In x L -> ~ In x K).
Proof.
  revert K. induction D as [|d D IH]; simpl; intros K.
  - exists []. rewrite app_nil_r. repeat split; [constructor|intros x []].
  - unfold kadd at 2. destruct (in_dec string_dec d K) as [Hin|Hn].
    + apply IH.
    + destruct (IH (K ++ [d])%list) as (L & HL & Hnd & Hf).
      exists (d :: L). rewrite HL, <- app_assoc. simpl. repeat split.
      * constructor; auto. intros Hd. apply (Hf d Hd).
        apply in_app_iff. right. now left.
      * intros x [<-|Hx]; auto. intros Hin. apply (Hf x Hx).
        apply in_app_iff. now left.
Qed.

Lemma kadd_all_twice (D K : list string) :
  fold_left kadd (fold_left kadd D K) K = fold_left kadd D K.
Proof.
  destruct (kadd_all_split D K) as (L & HL & Hnd & Hf).
  rewrite HL, fold_left_app, (kadd_all_incl (L := K)) by apply incl_refl.
  now apply kadd_all_fresh.
Qed.

Lemma NoDup_kadd_all (L K : list string) :
  NoDup K -> NoDup (fold_left kadd L K).
Proof.
  revert K. induction L as [|x L IH]; simpl; intros K Hnd; auto.
  apply IH. unfold kadd. destruct (in_dec string_dec x K); auto.
  apply NoDup_app; auto.
  - constructor; [intros []|constructor].
  - intros y Hy [<-|[]]. contradiction.
Qed.

Lemma in_kadd_all (L K : list string) (x : string) :
  In x (fold_left kadd L K) <-> In x K \/ In x L.
Proof.
  revert K. induction L as [|y L IH]; simpl; intros K.
  - tauto.
  - rewrite IH. unfold kadd. destruct (in_dec string_dec y K) as [Hin|Hn].
    + split; intros H; decompose [or] H; subst; auto.
    + rewrite in_app_iff. simpl. tauto.
Qed.

(** *** Assigning a list of keys, as a spread does *)

Section AssignAll.

Variable f : string -> jsval.

Lemma get_assign_all (ks : list string) (t : obj) (k : string) :
  get (fold_left (fun acc k => set acc k (f k)) ks t) k = if in_dec string_dec k ks then f k else get t k.
Proof.
  revert t. induction ks as [|x ks IH]; simpl; intros t; auto.
  rewrite IH. destruct (in_dec string_dec k ks) as [Hin|Hn].
  - destruct (string_dec x k); auto.
  - rewrite get_set. destruct (String.eqb_spec x k) as [->|Hne];
      destruct (string_dec _ k); auto; congruence.
Qed.

Lemma keys_assign_all (ks : list string) (t : obj) :
  keys (fold_left (fun acc k => set acc k (f k)) ks t) = fold_left kadd ks (keys t).
Proof.
  revert t. induction ks as [|x ks IH]; simpl; intros t; auto.
  now rewrite IH, keys_set.
Qed.

End AssignAll.

Lemma get_spread (t s : obj) (k : string) :
  get (spread t s) k = if in_dec string_dec k (keys s) then get s k else get t k.
Proof. unfold spread. apply (get_assign_all (get s)). Qed.

Lemma keys_spread (t s : obj) :
  keys (spread t s) = fold_left kadd (keys s) (keys t).
Proof. unfold spread. apply (keys_assign_all (get s)). Qed.

(** [{ ...o }] reads like [o] and has no repeated key. *)
Lemma get_copy (o : obj) (k : string) : get (spread [] o) k = get o k.
Proof.
  rewrite get_spread. destruct (in_dec string_dec k (keys o)) as [Hin|Hn]; auto.
  simpl. symmetry. now apply get_absent.
Qed.

Lemma NoDup_copy (o : obj) : NoDup (keys (spread [] o)).
Proof. rewrite keys_spread. apply NoDup_kadd_all. constructor. Qed.

Lemma in_keys_copy (o : obj) (k : string) :
  In k (keys (spread [] o)) <-> In k (keys o).
Proof. rewrite keys_spread, in_kadd_all. simpl. tauto. Qed.

Lemma copy_unchanged (o : obj) : NoDup (keys o) -> spread [] o = o.
Proof.
  intros Hnd. apply obj_ext.
  - apply NoDup_copy.
  - rewrite keys_spread. now rewrite kadd_all_fresh by (auto; intros x _ []).
  - intros k _. apply get_copy.
Qed.

(** ** The student financial calculator *)

Section CalculatorFacts.

Variable rt : JSRuntime.

Lemma normalize_value_number (result : obj) (v : jsval) :
  is_number (normalize_value rt result v).
Proof.
  destruct v as [| |x|s]; simpl; try (eexists; reflexivity).
  destruct (starts_with_equals s); eexists; reflexivity.
Qed.

Lemma keys_normalize_steps (ks : list string) (o : obj) :
  incl ks (keys o) -> keys (fold_left (normalize_step rt) ks o) = keys o.
Proof.
  revert o. induction ks as [|k ks IH]; simpl; intros o Hi; auto.
  assert (Hk : keys (normalize_step rt o k) = keys o).
  { unfold normalize_step. apply keys_set_present. apply Hi. now left. }
  rewrite IH; auto. rewrite Hk. intros x Hx. apply Hi. now right.
Qed.

Lemma keys_normalize (o : obj) : keys (normalize rt o) = keys o.
Proof. apply keys_normalize_steps, incl_refl. Qed.

(** A property that holds a number is left as it is by the loop. *)
Lemma normalize_steps_keep_number (ks : list string) (o : obj) (k : string)
  (x : float) :
  get o k = VNum x -> get (fold_left (normalize_step rt) ks o) k = VNum x.
Proof.
  revert o. induction ks as [|k1 ks IH]; simpl; intros o Hg; auto.
  apply IH. unfold normalize_step. rewrite get_set.
  destruct (String.eqb_spec k1 k) as [->|Hne]; auto.
  now rewrite Hg.
Qed.

Lemma normalize_steps_number (ks : list string) (o : obj) (k : string) :
  In k ks -> is_number (get (fold_left (normalize_step rt) ks o) k).
Proof.
  revert o. induction ks as [|k1 ks IH]; simpl; intros o Hin; [contradiction|].
  destruct (string_dec k1 k) as [->|Hne].
  - destruct (normalize_value_number o (get o k)) as [x Hx].
    exists x. apply normalize_steps_keep_number.
    unfold normalize_step. now rewrite get_set_same.
  - apply IH. destruct Hin; [contradiction|assumption].
Qed.

Lemma normalize_all_numbers (o : obj) : all_numbers (normalize rt o).
Proof.
  intros k Hin. rewrite keys_normalize in Hin.
  now apply normalize_steps_number.
Qed.

Lemma normalize_keeps_number (o : obj) (k : string) (x : float) :
  get o k = VNum x -> get (normalize rt o) k = VNum x.
Proof. apply normalize_steps_keep_number. Qed.

(** A property that is absent or [undefined] is absent or [0] afterwards. *)
Lemma normalize_steps_undefined (ks : list string) (o : obj) (k : string) :
  get o k = VUndef ->
  get (fold_left (normalize_step rt) ks o) k = VUndef \/
  get (fold_left (normalize_step rt) ks o) k = VNum 0.
Proof.
  revert o. induction ks as [|k1 ks IH]; simpl; intros o Hg; auto.
  destruct (string_dec k1 k) as [->|Hne].
  - right. apply normalize_steps_keep_number.
    unfold normalize_step. now rewrite get_set_same, Hg.
  - apply IH. unfold normalize_step. now rewrite get_set_other.
Qed.

(** On a record of numbers the loop changes nothing. *)
Lemma normalize_steps_of_numbers (ks : list string) (o : obj) :
  incl ks (keys o) -> all_numbers o -> fold_left (normalize_step rt) ks o = o.
Proof.
  induction ks as [|k ks IH]; simpl; intros Hi Hnum; auto.
  assert (Hk : In k (keys o)) by (apply Hi; now left).
  assert (Hs : normalize_step rt o k = o).
  { unfold normalize_step. apply set_unchanged; auto.
    destruct (Hnum k Hk) as [x ->]. reflexivity. }
  rewrite Hs. apply IH; auto. intros x Hx. apply Hi. now right.
Qed.

Lemma normalize_of_numbers (o : obj) : all_numbers o -> normalize rt o = o.
Proof. apply normalize_steps_of_numbers, incl_refl. Qed.

(** After the loop a property reads as a number or as [undefined]. *)
Lemma normalize_reads (o : obj) (k : string) :
  get (normalize rt o) k = VUndef \/ is_number (get (normalize rt o) k).
Proof.
  destruct (in_dec string_dec k (keys (normalize rt o))) as [Hin|Hn].
  - right. now apply normalize_all_numbers.
  - left. now apply get_absent.
Qed.

Lemma or0_value (o : obj) (k : string) :
  reads_numbers o -> js_or (get o k) (VNum 0) = VNum (field_value o k).
Proof.
  intros H. unfold field_value, js_or.
  destruct (H k) as [->|[x ->]]; simpl; auto.
  unfold num_or0. destruct (num_falsy x); reflexivity.
Qed.

End CalculatorFacts.

Section DeriveFacts.

Variable rt : JSRuntime.

Lemma derive_assigns (o : obj) :
  derive rt o =
  fold_left (fun acc k => set acc k (derived_value rt o k)) derived_fields o.
Proof.
  unfold derive, derived_fields, derived_value, monthly_output_ugx_of,
    cash_received_ugx_of. simpl fold_left.
  rewrite !get_set. simpl. reflexivity.
Qed.

Lemma get_derive (o : obj) (k : string) :
  get (derive rt o) k =
  if in_dec string_dec k derived_fields then derived_value rt o k else get o k.
Proof.
  rewrite derive_assigns. apply (get_assign_all (derived_value rt o)).
Qed.

Lemma keys_derive (o : obj) :
  keys (derive rt o) = fold_left kadd derived_fields (keys o).
Proof.
  rewrite derive_assigns. apply (keys_assign_all (derived_value rt o)).
Qed.

Lemma get_derive_raw (o : obj) (k : string) :
  ~ In k derived_fields -> get (derive rt o) k = get o k.
Proof.
  intros Hn. rewrite get_derive.
  destruct (in_dec string_dec k derived_fields); [contradiction|reflexivity].
Qed.

Lemma derived_value_derive (o : obj) (k : string) :
  derived_value rt (derive rt o) k = derived_value rt o k.
Proof.
  unfold derived_value, monthly_output_ugx_of, cash_received_ugx_of.
  rewrite !get_derive_raw; auto;
    unfold derived_fields; simpl; intros H;
    decompose [or] H; try discriminate; auto.
Qed.

(** Deriving again changes nothing. *)
Lemma derive_derive (o : obj) : derive rt (derive rt o) = derive rt o.
Proof.
  rewrite (derive_assigns (derive rt o)).
  assert (H : forall ks acc,
             incl ks derived_fields -> acc = derive rt o ->
             fold_left (fun acc k => set acc k (derived_value rt (derive rt o) k))
                       ks acc = derive rt o).
  { induction ks as [|k ks IH]; simpl; intros acc Hi ->; auto.
    apply IH; [intros x Hx; apply Hi; now right|].
    assert (Hk : In k derived_fields) by (apply Hi; now left).
    apply set_unchanged.
    - rewrite keys_derive, in_kadd_all. now right.
    - rewrite get_derive, derived_value_derive.
      destruct (in_dec string_dec k derived_fields); [reflexivity|contradiction]. }
  apply H; [apply incl_refl|reflexivity].
Qed.

Lemma monthly_output_ugx_number (o : obj) :
  reads_numbers o ->
  monthly_output_ugx_of rt o =
  VNum (field_value o "termly_school_fees" / 3
        + field_value o "direct_spending_school_fees_ugx_monthly"
        + field_value o "food"
        + field_value o "average_medical"
        + field_value o "school_personal_requirements_transport"
        + field_value o "admin_utilities").
Proof.
  intros H. unfold monthly_output_ugx_of.
  rewrite !or0_value by assumption. reflexivity.
Qed.

Lemma cash_received_ugx_number (o : obj) :
  reads_numbers o ->
  cash_received_ugx_of rt o =
  VNum (field_value o "cash_received_euro" * EXCHANGE_RATE).
Proof.
  intros H. unfold cash_received_ugx_of.
  rewrite or0_value by assumption. reflexivity.
Qed.

Lemma derived_value_number (o : obj) (k : string) :
  reads_numbers o -> is_number (derived_value rt o k).
Proof.
  intros H. unfold derived_value.
  rewrite monthly_output_ugx_number, cash_received_ugx_number by assumption.
  repeat match goal with
         | |- context [if ?b then _ else _] => destruct b
         end; eexists; reflexivity.
Qed.

Lemma derive_all_numbers (o : obj) :
  all_numbers o -> all_numbers (derive rt o).
Proof.
  intros Hnum k Hin.
  assert (Hr : reads_numbers o).
  { intros k'. destruct (in_dec string_dec k' (keys o)) as [Hk|Hk].
    - right. now apply Hnum.
    - left. now apply get_absent. }
  rewrite get_derive. destruct (in_dec string_dec k derived_fields) as [Hd|Hd].
  - now apply derived_value_number.
  - apply Hnum. rewrite keys_derive, in_kadd_all in Hin.
    destruct Hin; [assumption|contradiction].
Qed.

(** *** calculateStudentFinancials *)

Lemma calculate_keys_NoDup (fd : obj) :
  NoDup (keys (calculateStudentFinancials rt fd)).
Proof.
  unfold calculateStudentFinancials.
  rewrite keys_derive, keys_normalize.
  apply NoDup_kadd_all, NoDup_copy.
Qed.

Lemma calculate_all_numbers (fd : obj) :
  all_numbers (calculateStudentFinancials rt fd).
Proof. apply derive_all_numbers, normalize_all_numbers. Qed.

(** The result of the calculator is a fixed point of the calculator. *)
Lemma calculate_fixed (fd : obj) :
  calculateStudentFinancials rt (calculateStudentFinancials rt fd)
  = calculateStudentFinancials rt fd.
Proof.
  unfold calculateStudentFinancials at 1.
  rewrite copy_unchanged by apply calculate_keys_NoDup.
  rewrite normalize_of_numbers by apply calculate_all_numbers.
  unfold calculateStudentFinancials. apply derive_derive.
Qed.

(** [{ ...financialData, ...financials }] is [financials]: the result
    holds every key of the input, in the same order. *)
Lemma spread_calculated (fd : obj) :
  spread (spread [] fd) (calculateStudentFinancials rt fd)
  = calculateStudentFinancials rt fd.
Proof.
  assert (Hk : keys (calculateStudentFinancials rt fd)
               = fold_left kadd derived_fields (keys (spread [] fd))).
  { unfold calculateStudentFinancials. now rewrite keys_derive, keys_normalize. }
  apply obj_ext.
  - rewrite keys_spread. apply NoDup_kadd_all, NoDup_copy.
  - rewrite keys_spread, Hk. apply kadd_all_twice.
  - intros k Hin. rewrite get_spread.
    destruct (in_dec string_dec k (keys (calculateStudentFinancials rt fd)))
      as [Hc|Hc]; auto.
    exfalso. apply Hc. rewrite keys_spread, in_kadd_all in Hin.
    destruct Hin as [Hin|Hin]; auto.
    rewrite Hk, in_kadd_all. now left.
Qed.

End DeriveFacts.

Section CalculatorClaims.

Variable rt : JSRuntime.

Lemma calculate_reads_raw (fd : obj) (k : string) :
  ~ In k derived_fields ->
  get (calculateStudentFinancials rt fd) k
  = get (normalize rt (spread [] fd)) k.
Proof. intros Hn. unfold calculateStudentFinancials. now apply get_derive_raw. Qed.

Lemma cost_field_not_derived (k : string) :
  In k cost_fields -> ~ In k derived_fields.
Proof.
  unfold cost_fields, derived_fields. simpl. intros H1 H2.
  decompose [or] H1; subst; decompose [or] H2; try discriminate; auto.
Qed.

Lemma field_value_calculate (fd : obj) (k : string) :
  ~ In k derived_fields ->
  field_value (calculateStudentFinancials rt fd) k
  = field_value (normalize rt (spread [] fd)) k.
Proof. intros Hn. unfold field_value. now rewrite calculate_reads_raw. Qed.


End CalculatorClaims.

(** ** The formula evaluator *)

(** *** The substitution of a cell reference *)

Lemma occurs_app c a b : occurs c (a ++ b) = (occurs c a || occurs c b)%bool.
Proof. induction a as [|d a IH]; simpl; auto. rewrite IH. now rewrite orb_assoc. Qed.

Lemma GetSubstitution_plain (m b a t : string) :
  occurs "$" t = false -> GetSubstitution m b a t = t.
Proof.
  induction t as [|c t IH]; simpl; auto.
  intros H. apply orb_false_iff in H. destruct H as [Hc Ht].
  rewrite Hc. now rewrite IH.
Qed.

Lemma prefix_head (pat s : string) c p :
  pat = String c p -> occurs c s = false -> String.prefix pat s = false.
Proof.
  intros -> H. destruct s as [|d s]; simpl; auto.
  simpl in H. apply orb_false_iff in H. destruct H as [Hd _].
  destruct (ascii_dec c d) as [->|Hne]; [now rewrite Ascii.eqb_refl in Hd|].
  reflexivity.
Qed.

Lemma replace_from_absent (pat tpl : string) (c : ascii) (p : string) :
  pat = String c p ->
  forall s before, occurs c s = false -> replace_from pat tpl before 0 s = s.
Proof.
  intros Hpat. induction s as [|d s IH]; intros before H; [reflexivity|].
  cbn [replace_from].
  rewrite (@prefix_head pat (String d s) c p Hpat H).
  simpl in H. apply orb_false_iff in H. destruct H as [_ Hs].
  now rewrite IH.
Qed.

Lemma append_step (before : string) (d : ascii) (seg : string) :
  (before ++ String d EmptyString) ++ seg = before ++ String d seg.
Proof. induction before as [|b before IH]; simpl; [reflexivity|now rewrite IH]. Qed.

Lemma append_nil (s : string) : s ++ EmptyString = s.
Proof. induction s as [|c s IH]; simpl; [reflexivity|now rewrite IH]. Qed.

Lemma replace_from_segment (pat tpl : string) (c : ascii) (p : string) :
  pat = String c p ->
  forall seg rest before,
    occurs c seg = false ->
    replace_from pat tpl before 0 (seg ++ rest)
    = seg ++ replace_from pat tpl (before ++ seg) 0 rest.
Proof.
  intros Hpat. induction seg as [|d seg IH]; intros rest before H.
  - simpl. now rewrite append_nil.
  - simpl in H. apply orb_false_iff in H. destruct H as [Hd Hs].
    change (String d seg ++ rest) with (String d (seg ++ rest)).
    cbn [replace_from].
    assert (Hp : String.prefix pat (String d (seg ++ rest)) = false).
    { subst pat. simpl. destruct (ascii_dec c d) as [->|]; auto.
      now rewrite Ascii.eqb_refl in Hd. }
    rewrite Hp, IH by assumption. simpl. now rewrite append_step.
Qed.

Lemma replace_from_D3 (t rest before : string) :
  occurs "$" t = false ->
  replace_from "D3" t before 0 ("D3" ++ rest)
  = t ++ replace_from "D3" t (before ++ "D3") 0 rest.
Proof.
  intros Ht. cbn [append replace_from String.prefix String.length Nat.sub].
  simpl. rewrite GetSubstitution_plain by assumption.
  f_equal. destruct rest; simpl; rewrite ?append_step; reflexivity.
Qed.

Lemma replace_from_D3_join (t : string) (segs : list string) :
  occurs "$" t = false ->
  Forall (fun seg => occurs "D" seg = false) segs ->
  forall before, replace_from "D3" t before 0 (join "D3" segs) = join t segs.
Proof.
  intros Ht Hs.
  induction Hs as [|seg rest Hseg Hrest IH]; intros before; [reflexivity|].
  destruct rest as [|seg' rest].
  - simpl. now apply (@replace_from_absent "D3" t "D" "3" eq_refl).
  - change (join "D3" (seg :: seg' :: rest))
      with (seg ++ "D3" ++ join "D3" (seg' :: rest)).
    rewrite (@replace_from_segment "D3" t "D" "3" eq_refl) by assumption.
    rewrite replace_from_D3 by assumption. now rewrite IH.
Qed.

Lemma occurs_join (c : ascii) (sep : string) (segs : list string) :
  occurs c sep = false ->
  Forall (fun seg => occurs c seg = false) segs ->
  occurs c (join sep segs) = false.
Proof.
  intros Hsep Hs. induction Hs as [|seg rest Hseg Hrest IH]; [reflexivity|].
  destruct rest as [|seg' rest]; [exact Hseg|].
  change (join sep (seg :: seg' :: rest))
    with (seg ++ sep ++ join sep (seg' :: rest)).
  now rewrite !occurs_app, Hseg, Hsep, IH.
Qed.

Lemma percent_rewrite_absent (s : string) (b : bool) :
  occurs "%" s = false -> percent_rewrite b s = s.
Proof.
  revert b. induction s as [|c s IH]; intros b H; [reflexivity|].
  simpl in H. apply orb_false_iff in H. destruct H as [Hc Hs].
  simpl. rewrite Hc. simpl. now rewrite IH.
Qed.

Lemma sum_rewrite_absent (rt : JSRuntime) (data : obj) (s : string) :
  occurs "S" s = false -> sum_rewrite rt data 0 s = s.
Proof.
  induction s as [|c s IH]; intros H; [reflexivity|].
  cbn [sum_rewrite]. unfold sum_match.
  rewrite (@prefix_head "SUM(" (String c s) "S" "UM(" eq_refl H).
  simpl in H. apply orb_false_iff in H. destruct H as [_ Hs].
  now rewrite IH.
Qed.

Lemma token_free_occurs (s : string) (c : ascii) :
  token_free s = true -> In c token_chars -> occurs c s = false.
Proof.
  unfold token_free. intros H Hc.
  rewrite forallb_forall in H. specialize (H c Hc).
  now apply negb_true_iff in H.
Qed.

Lemma token_free_segments (segs : list string) (c : ascii) :
  forallb token_free segs = true -> In c token_chars ->
  Forall (fun seg => occurs c seg = false) segs.
Proof.
  intros H Hc. apply Forall_forall. intros seg Hseg.
  rewrite forallb_forall in H. now apply token_free_occurs; auto.
Qed.

Lemma substitute_D3 (rt : JSRuntime) (data : obj) (segments : list string) :
  let text := ToString rt (js_or (get data "termly_school_fees") (VNum 0)) in
  forallb token_free segments = true ->
  token_free text = true ->
  substitute rt ("=" ++ join "D3" segments) data = join text segments.
Proof.
  intros text Hsegs Htext.
  assert (Hc : forall c, In c token_chars -> occurs c (join text segments) = false).
  { intros c Hc. apply occurs_join.
    - now apply token_free_occurs.
    - now apply token_free_segments. }
  assert (Hd : occurs "$" (join "D3" segments) = false).
  { apply occurs_join; [reflexivity|].
    apply token_free_segments; [assumption|]. simpl; tauto. }
  unfold substitute, replacements.
  change (string_tail ("=" ++ join "D3" segments)) with (join "D3" segments).
  cbn [fold_left fst snd]. unfold replace_all.
  rewrite (@replace_from_absent "$E$3" _ "$" "E$3" eq_refl _ _ Hd).
  rewrite (@replace_from_absent "$D$3" _ "$" "D$3" eq_refl _ _ Hd).
  fold text.
  rewrite replace_from_D3_join;
    [| apply token_free_occurs; [assumption|simpl; tauto]
     | apply token_free_segments; [assumption|simpl; tauto] ].
  rewrite (@replace_from_absent "E3" _ "E" "3" eq_refl) by (apply Hc; simpl; tauto).
  rewrite (@replace_from_absent "F3" _ "F" "3" eq_refl) by (apply Hc; simpl; tauto).
  rewrite (@replace_from_absent "G3" _ "G" "3" eq_refl) by (apply Hc; simpl; tauto).
  rewrite (@replace_from_absent "H3" _ "H" "3" eq_refl) by (apply Hc; simpl; tauto).
  rewrite (@replace_from_absent "I3" _ "I" "3" eq_refl) by (apply Hc; simpl; tauto).
  rewrite (@replace_from_absent "J3" _ "J" "3" eq_refl) by (apply Hc; simpl; tauto).
  rewrite percent_rewrite_absent by (apply Hc; simpl; tauto).
  apply sum_rewrite_absent. apply Hc. simpl; tauto.
Qed.

Lemma substitute_D3_step (rt : JSRuntime) (data : obj) (segments : list string) :
  let text := ToString rt (js_or (get data "termly_school_fees") (VNum 0)) in
  Forall (fun seg => occurs "D" seg = false) segments ->
  Forall (fun seg => occurs "$" seg = false) segments ->
  occurs "$" text = false ->
  substitute rt ("=" ++ join "D3" segments) data
  = later_rewrites rt data (join text segments).
Proof.
  intros text HD Hdollar Htext.
  assert (Hd : occurs "$" (join "D3" segments) = false).
  { now apply occurs_join. }
  unfold substitute, later_rewrites, replacements.
  change (string_tail ("=" ++ join "D3" segments)) with (join "D3" segments).
  cbn [fold_left fst snd skipn]. unfold replace_all.
  rewrite (@replace_from_absent "$E$3" _ "$" "E$3" eq_refl _ _ Hd).
  rewrite (@replace_from_absent "$D$3" _ "$" "D$3" eq_refl _ _ Hd).
  fold text.
  now rewrite replace_from_D3_join.
Qed.

(** *** The reference evaluator and plain arithmetic *)

Lemma expect_rparen_mono (a b : option (float * string)) (r : float * string) :
  (forall x, a = Some x -> b = Some x) ->
  NodeRef.expect_rparen a = Some r -> NodeRef.expect_rparen b = Some r.
Proof.
  intros H. destruct a as [x|]; simpl; [|discriminate].
  now rewrite (H x eq_refl).
Qed.

(** Whatever the plain-arithmetic grammar accepts, the grammar with calls
    accepts with the same value. *)
Lemma parse_mono (n : nat) :
  (forall s r, NodeRef.p_expr false n s = Some r ->
               NodeRef.p_expr true n s = Some r) /\
  (forall a s r, NodeRef.p_expr_rest false n a s = Some r ->
                 NodeRef.p_expr_rest true n a s = Some r) /\
  (forall s r, NodeRef.p_term false n s = Some r ->
               NodeRef.p_term true n s = Some r) /\
  (forall a s r, NodeRef.p_term_rest false n a s = Some r ->
                 NodeRef.p_term_rest true n a s = Some r) /\
  (forall s r, NodeRef.p_unary false n s = Some r ->
               NodeRef.p_unary true n s = Some r) /\
  (forall s r, NodeRef.p_primary false n s = Some r ->
               NodeRef.p_primary true n s = Some r).
Proof.
  induction n as [|n (IHe & IHer & IHt & IHtr & IHu & IHp)].
  - repeat split; intros; discriminate.
  - repeat split.
    + intros s r. simpl.
      destruct (NodeRef.p_term false n s) as [[v q]|] eqn:E; [|discriminate].
      rewrite (IHt _ _ E). apply IHer.
    + intros a s r. simpl.
      destruct (NodeRef.skip_ws s) as [|c q]; auto. split_conditions.
      * destruct (NodeRef.p_term false n q) as [[v q']|] eqn:E; [|discriminate].
        rewrite (IHt _ _ E). apply IHer.
      * destruct (NodeRef.p_term false n q) as [[v q']|] eqn:E; [|discriminate].
        rewrite (IHt _ _ E). apply IHer.
    + intros s r. simpl.
      destruct (NodeRef.p_unary false n s) as [[v q]|] eqn:E; [|discriminate].
      rewrite (IHu _ _ E). apply IHtr.
    + intros a s r. simpl.
      destruct (NodeRef.skip_ws s) as [|c q]; auto. split_conditions.
      * destruct (NodeRef.p_unary false n q) as [[v q']|] eqn:E; [|discriminate].
        rewrite (IHu _ _ E). apply IHtr.
      * destruct (NodeRef.p_unary false n q) as [[v q']|] eqn:E; [|discriminate].
        rewrite (IHu _ _ E). apply IHtr.
    + intros s r. simpl.
      destruct (NodeRef.skip_ws s) as [|c q]; auto. split_conditions.
      destruct (NodeRef.p_unary false n q) as [[v q']|] eqn:E; [|discriminate].
      now rewrite (IHu _ _ E).
    + intros s r. cbn [NodeRef.p_primary].
      destruct s as [|c q]; auto.
      destruct (is_digit c); auto.
      destruct (Ascii.eqb c "(").
      * apply expect_rparen_mono. apply IHe.
      * simpl. discriminate.
Qed.

Lemma eval_text_mono (s : string) (v : float) :
  NodeRef.eval_text false s = Some v -> NodeRef.eval_text true s = Some v.
Proof.
  unfold NodeRef.eval_text.
  destruct (NodeRef.p_expr false _ s) as [[x r]|] eqn:E; [|discriminate].
  destruct (parse_mono (8 * String.length s + 8)) as (He & _).
  now rewrite (He _ _ E).
Qed.

Lemma function_call_body (e : string) :
  NodeRef.function_call (function_body e) =
  match NodeRef.eval_text true ("(" ++ e ++ ")") with
  | Some v => ENumber v
  | None => EThrow
  end.
Proof. reflexivity. Qed.

(** C4: in every formula that is made of texts without token characters
    with the token [D3] between them, each [D3] is replaced by the text of
    the record's [termly_school_fees], or of 0 when the field is absent or
    otherwise falsy (the text is taken to be free of token characters, as
    the text of a finite number is), and the resulting expression is
    handed to the evaluator: the result is the number it returns, which
    is the arithmetic value on a runtime that evaluates plain arithmetic
    as arithmetic.  When the texts between the tokens hold other cell
    references, percent signs or [SUM] calls (but no [D] and no dollar
    sign), each [D3] is replaced in the same way, and the rewrites that
    follow in the code are applied to the outcome.  Concretely, on the
    reference runtime
    [evaluateFormula("=D3/3", {termly_school_fees: 600000})] is 200000,
    the expression being [600000/3], and without the field the expression
    is [0/3]. *)
Theorem evaluateFormula_D3 :
  (forall (rt : JSRuntime) (data : obj) (segments : list string),
      let text := ToString rt (js_or (get data "termly_school_fees") (VNum 0)) in
      forallb token_free segments = true ->
      token_free text = true ->
      substitute rt ("=" ++ join "D3" segments) data = join text segments
      /\ evaluateFormula rt ("=" ++ join "D3" segments) data
         = match FunctionCall rt (function_body (join text segments)) with
           | ENumber x => x
           | EOther => 0%float
           | EThrow => 0%float
           end
      /\ (truthy (get data "termly_school_fees") = false ->
          text = NumberToString rt 0)
      /\ ((forall e x, plain_arithmetic_value e = Some x ->
                       FunctionCall rt (function_body e) = ENumber x) ->
          forall x, plain_arithmetic_value (join text segments) = Some x ->
                    evaluateFormula rt ("=" ++ join "D3" segments) data = x))
  /\ (forall (rt : JSRuntime) (data : obj) (segments : list string),
        let text := ToString rt (js_or (get data "termly_school_fees") (VNum 0)) in
        Forall (fun seg => occurs "D" seg = false) segments ->
        Forall (fun seg => occurs "$" seg = false) segments ->
        occurs "$" text = false ->
        substitute rt ("=" ++ join "D3" segments) data
        = later_rewrites rt data (join text segments))
  /\ substitute NodeRef.runtime "=D3/3" termly_600000 = "600000/3"
  /\ evaluateFormula NodeRef.runtime "=D3/3" termly_600000 = 200000%float
  /\ substitute NodeRef.runtime "=D3/3" [] = "0/3".
Proof.
  split; [|split; [|repeat split; vm_compute; reflexivity]].
  - intros rt data segments text Hsegs Htext.
    assert (Hs : substitute rt ("=" ++ join "D3" segments) data
                 = join text segments)
      by now apply substitute_D3.
    split; [exact Hs|]. split; [|split].
    + unfold evaluateFormula. now rewrite Hs.
    + intros Hf. unfold text, js_or. now rewrite Hf.
    + intros Hrt x Hx. unfold evaluateFormula. rewrite Hs.
      now rewrite (Hrt _ _ Hx).
  - intros rt data segments text HD Hdollar Htext.
    now apply substitute_D3_step.
Qed.

Lemma evaluateFormula_D3_on_reference :
  substitute NodeRef.runtime "=D3/3" termly_600000 = "600000/3"
  /\ evaluateFormula NodeRef.runtime "=D3/3" termly_600000 = 200000%float.
Proof.
  destruct (proj1 evaluateFormula_D3 NodeRef.runtime termly_600000
              [EmptyString; "/3"] eq_refl eq_refl)
    as (Hs & _ & _ & Hv).
  split; [exact Hs|].
  apply Hv; [|vm_compute; reflexivity].
  intros e x Hx. simpl FunctionCall. rewrite function_call_body.
  unfold plain_arithmetic_value in Hx. now rewrite (eval_text_mono _ Hx).
Defined.

(** C9, as the code has it: for every formula and record the result of
    [evaluateFormula] is the number that the runtime's [Function] call
    returns for the substituted expression, and 0 when that call throws
    or returns something that is not a number; so on a runtime that
    evaluates plain arithmetic as arithmetic, as the reference runtime
    does, a substituted expression that is plain arithmetic gives its
    arithmetic value.  Nothing restricts the expression to arithmetic. *)
Theorem evaluateFormula_result (rt : JSRuntime) (formula : string) (data : obj) :
  evaluateFormula rt formula data
  = match FunctionCall rt (function_body (substitute rt formula data)) with
    | ENumber x => x
    | EOther => 0%float
    | EThrow => 0%float
    end
  /\ ((forall e x, plain_arithmetic_value e = Some x ->
                   FunctionCall rt (function_body e) = ENumber x) ->
      forall x, plain_arithmetic_value (substitute rt formula data) = Some x ->
                evaluateFormula rt formula data = x)
  /\ (forall e x, plain_arithmetic_value e = Some x ->
                  FunctionCall NodeRef.runtime (function_body e) = ENumber x).
Proof.
  split; [reflexivity|split].
  - intros Hrt x Hx. unfold evaluateFormula. now rewrite (Hrt _ _ Hx).
  - intros e x Hx. simpl FunctionCall. rewrite function_call_body.
    unfold plain_arithmetic_value in Hx.
    now rewrite (eval_text_mono _ Hx).
Qed.

(** C9 fails as stated: the formula [=Math.sqrt(16)] is not plain
    arithmetic, yet it is evaluated, and the result is 4, not 0. *)
Lemma evaluateFormula_beyond_arithmetic :
  evaluateFormula NodeRef.runtime "=Math.sqrt(16)" [] = 4%float
  /\ evaluateFormula NodeRef.runtime "=Math.sqrt(16)" [] <> 0%float
  /\ substitute NodeRef.runtime "=Math.sqrt(16)" [] = "Math.sqrt(16)"
  /\ plain_arithmetic_value "Math.sqrt(16)" = None.
Proof.
  repeat split; try (vm_compute; reflexivity).
  intros H. apply (f_equal (PrimFloat.eqb 4)) in H.
  vm_compute in H. discriminate.
Qed.

(** ** The aggregate recalculator *)

Lemma fold_left_map_same {A B : Type} (f : B -> A -> B) (g : A -> A)
  (l : list A) (b : B) :
  (forall b x, f b (g x) = f b x) ->
  fold_left f (map g l) b = fold_left f l b.
Proof.
  intros H. revert b. induction l as [|x l IH]; simpl; intros b; auto.
  now rewrite H, IH.
Qed.

Section RecalculationFacts.

Variable rt : JSRuntime.

(** The update of a student stores the calculator's result. *)
Lemma update_student_stores (s : Student.t) :
  update_student rt s
  = Student.set_financial_data s
      (calculateStudentFinancials rt (financial_data_or_empty s)).
Proof. unfold update_student. now rewrite spread_calculated. Qed.

Lemma update_student_twice (s : Student.t) :
  update_student rt (update_student rt s) = update_student rt s.
Proof.
  rewrite !update_student_stores. unfold Student.set_financial_data. simpl.
  unfold financial_data_or_empty at 1. simpl.
  now rewrite calculate_fixed.
Qed.

Lemma add_student_cost_updated (cost : jsval) (s : Student.t) :
  add_student_cost rt cost (update_student rt s) = add_student_cost rt cost s.
Proof.
  unfold add_student_cost. rewrite update_student_stores.
  unfold financial_data_or_empty at 1. simpl.
  now rewrite calculate_fixed.
Qed.

Lemma count_package_updated (types : list (string * Z)) (s : Student.t) :
  count_package rt types (update_student rt s) = count_package rt types s.
Proof. reflexivity. Qed.

Lemma recalculate_program_fixed (p : Program.t) :
  recalculate_program rt (fst (recalculate_program rt p))
  = recalculate_program rt p.
Proof.
  unfold recalculate_program at 2 3.
  destruct (Program.students p) as [students|] eqn:E.
  - unfold recalculate_program. simpl.
    rewrite length_map, map_map.
    rewrite (fold_left_map_same (add_student_cost rt) (update_student rt))
      by apply add_student_cost_updated.
    rewrite (fold_left_map_same (count_package rt) (update_student rt))
      by apply count_package_updated.
    rewrite (map_ext _ _ update_student_twice). reflexivity.
  - simpl. unfold recalculate_program. now rewrite E.
Qed.

Lemma recalculate_registry_fixed (r : Registry.t) :
  recalculate_registry rt (fst (recalculate_registry rt r))
  = recalculate_registry rt r.
Proof.
  unfold recalculate_registry at 2 3.
  destruct (Registry.students r) as [students|] eqn:E.
  - reflexivity.
  - simpl. unfold recalculate_registry. now rewrite E.
Qed.

Lemma map_entries_fixed {A : Type} (f : A -> A) (l : list (string * A)) :
  (forall a, f (f a) = f a) ->
  map_entries f (map_entries f l) = map_entries f l.
Proof.
  intros H. unfold map_entries. rewrite map_map. apply map_ext.
  intros [k a]. simpl. now rewrite H.
Qed.

Lemma fold_entries_fixed {A B : Type} (f : A -> A) (g : B -> A -> B)
  (l : list (string * A)) (b : B) :
  (forall b a, g b (f a) = g b a) ->
  fold_left (fun acc e => g acc (snd e)) (map_entries f l) b
  = fold_left (fun acc e => g acc (snd e)) l b.
Proof.
  intros H. unfold map_entries.
  apply (fold_left_map_same (fun acc e => g acc (snd e))
           (fun e : string * A => (fst e, f (snd e)))).
  intros b' [k a]. simpl. apply H.
Qed.


End RecalculationFacts.

(** *** A sample dataset *)


Section RecalculationClaims.

Variable rt : JSRuntime.

Lemma in_map_entries {A : Type} (f : A -> A) (l : list (string * A))
  (k : string) (a' : A) :
  In (k, a') (map_entries f l) -> exists a, In (k, a) l /\ a' = f a.
Proof.
  unfold map_entries. intros H. apply in_map_iff in H.
  destruct H as ([k0 a] & Heq & Hin). simpl in Heq. injection Heq as -> <-.
  now exists a.
Qed.

Lemma funding_of_filter (sponsors : list Sponsor.t) (sum : float) :
  fold_left
    (fun sum student =>
       (sum + num_or0 (parseFloat rt (Sponsor.amount student)))%float)
    (filter is_active sponsors) sum
  = funding_of rt sum sponsors.
Proof.
  revert sum. induction sponsors as [|s l IH]; simpl; intros sum; auto.
  destruct (is_active s); simpl; apply IH.
Qed.

Lemma is_active_status (s : Sponsor.t) :
  is_active s = counts_for_funding s.
Proof.
  unfold is_active, counts_for_funding, status_active_or_unset, truthy, num_falsy.
  destruct (Sponsor.sponsorship_status s) as [| |x|t]; simpl; auto.
  - now rewrite negb_involutive.
  - now rewrite negb_involutive.
Qed.

Lemma is_inactive_status (s : Sponsor.t) :
  is_inactive s = status_inactive (Sponsor.sponsorship_status s).
Proof.
  unfold is_inactive. now destruct (Sponsor.sponsorship_status s).
Qed.

Lemma num_or0_amount (s : Sponsor.t) :
  num_or0 (parseFloat rt (Sponsor.amount s)) = amount_or0 rt s.
Proof.
  unfold num_or0, num_falsy, amount_or0. now rewrite orb_comm.
Qed.

Lemma program_funding_sum (sponsors : list Sponsor.t) :
  program_funding rt sponsors = funding_sum rt sponsors.
Proof.
  unfold program_funding, funding_sum.
  rewrite (filter_ext is_active counts_for_funding is_active_status).
  generalize (filter counts_for_funding sponsors) 0%float.
  induction l as [|s l IH]; simpl; intros sum; auto.
  now rewrite num_or0_amount.
Qed.

Lemma funding_sum_skip (before after : list Sponsor.t) (s : Sponsor.t) :
  counts_for_funding s = false ->
  funding_sum rt (before ++ s :: after) = funding_sum rt (before ++ after).
Proof.
  intros Hs. unfold funding_sum. rewrite !filter_app. simpl. now rewrite Hs.
Qed.


Section RunFacts.

Variable engine : JSEngine.

Lemma evaluateFormula_run_returns (formula : string) (data : obj) (x : float) :
  evaluateFormula_run engine formula data = Some x ->
  x = evaluateFormula (builtins engine) formula data.
Proof.
  unfold evaluateFormula_run, evaluateFormula.
  destruct (FunctionReturns engine _); [|discriminate].
  now intros [= <-].
Qed.

Lemma normalize_step_run_returns (result result' : obj) (key : string) :
  normalize_step_run engine result key = Some result' ->
  result' = normalize_step (builtins engine) result key.
Proof.
  unfold normalize_step_run, normalize_step.
  destruct (get result key) as [| |x|s] eqn:E; try (now intros [= <-]).
  unfold normalize_value.
  destruct (starts_with_equals s); [|now intros [= <-]].
  destruct (evaluateFormula_run engine s result) as [x|] eqn:Ex; [|discriminate].
  intros [= <-]. now rewrite (evaluateFormula_run_returns _ _ Ex).
Qed.

Lemma normalize_run_returns (ks : list string) (result result' : obj) :
  normalize_run engine ks result = Some result' ->
  result' = fold_left (normalize_step (builtins engine)) ks result.
Proof.
  revert result. induction ks as [|k ks IH]; simpl; intros result.
  - now intros [= <-].
  - destruct (normalize_step_run engine result k) as [r|] eqn:E; [|discriminate].
    rewrite <- (normalize_step_run_returns _ _ E). apply IH.
Qed.

Lemma calculateStudentFinancials_run_returns (fd result : obj) :
  calculateStudentFinancials_run engine fd = Some result ->
  result = calculateStudentFinancials (builtins engine) fd.
Proof.
  unfold calculateStudentFinancials_run, calculateStudentFinancials, normalize.
  destruct (normalize_run engine _ _) as [r|] eqn:E; [|discriminate].
  intros [= <-]. now rewrite (normalize_run_returns _ _ E).
Qed.

(** The run of the loops is the loop over the runtime when every
    calculation returns, and does not return otherwise. *)
Lemma students_run_spec (students : list Student.t) (cost : jsval) :
  students_run engine students cost
  = if forallb (calculation_returns engine) students
    then Some (map (update_student (builtins engine)) students,
               fold_left (add_student_cost (builtins engine)) students cost)
    else None.
Proof.
  revert cost. induction students as [|s l IH]; simpl; intros cost; auto.
  unfold calculation_returns at 1.
  destruct (calculateStudentFinancials_run engine (financial_data_or_empty s))
    as [financials|] eqn:E; simpl; auto.
  apply calculateStudentFinancials_run_returns in E. subst financials.
  rewrite IH. destruct (forallb _ l); reflexivity.
Qed.

Lemma recalculate_program_run_spec (p : Program.t) :
  recalculate_program_run engine p
  = if match Program.students p with
       | Some students => forallb (calculation_returns engine) students
       | None => true
       end
    then Some (recalculate_program (builtins engine) p)
    else None.
Proof.
  unfold recalculate_program_run, recalculate_program.
  destruct (Program.students p) as [l|]; auto.
  rewrite students_run_spec. destruct (forallb _ l); reflexivity.
Qed.

Lemma programs_run_spec (programs : list (string * Program.t)) (total : Z) :
  programs_run engine programs total
  = if calculations_return engine programs
    then Some (map_entries (fun p => fst (recalculate_program (builtins engine) p))
                           programs,
               fold_left
                 (fun total e =>
                    (total + snd (recalculate_program (builtins engine) (snd e)))%Z)
                 programs total)
    else None.
Proof.
  revert total. induction programs as [|[name p] l IH]; simpl; intros total; auto.
  rewrite recalculate_program_run_spec.
  destruct (match Program.students p with
            | Some students => forallb (calculation_returns engine) students
            | None => true
            end); simpl; auto.
  destruct (recalculate_program (builtins engine) p) as [p' n] eqn:E.
  rewrite IH. simpl.
  destruct (calculations_return engine l); reflexivity.
Qed.

Lemma recalculateAllMetadata_run_spec (db : Database.t) :
  recalculateAllMetadata_run engine db
  = match Database.sponsorship_programs db with
    | None => Some (Throws db)
    | Some programs =>
        if calculations_return engine programs
        then Some (recalculateAllMetadata (builtins engine) db)
        else None
    end.
Proof.
  unfold recalculateAllMetadata_run, recalculateAllMetadata.
  destruct (Database.sponsorship_programs db) as [programs|]; auto.
  rewrite programs_run_spec.
  destruct (calculations_return engine programs); auto.
  cbv zeta. simpl Database.sponsorship_registry.
  destruct (Database.sponsorship_registry db) as [registries|]; auto.
  simpl Database.metadata.
  destruct (Database.metadata db) as [metadata|]; auto.
Qed.

Lemma normalize_run_plain (ks : list string) (result : obj) :
  (forall k, is_formula (get result k) = false) ->
  normalize_run engine ks result <> None.
Proof.
  revert result. induction ks as [|k ks IH]; simpl; intros result H; [discriminate|].
  assert (Hs : normalize_step_run engine result k
               = Some (normalize_step (builtins engine) result k)).
  { unfold normalize_step_run. specialize (H k).
    destruct (get result k) as [| |x|s]; auto. simpl in H. now rewrite H. }
  rewrite Hs. apply IH. intros k'. unfold normalize_step.
  destruct (string_dec k k') as [->|Hne].
  - rewrite get_set_same.
    destruct (normalize_value_number (builtins engine) result (get result k'))
      as [x ->].
    reflexivity.
  - rewrite get_set_other by assumption. apply H.
Qed.

Lemma normalize_run_all (ks : list string) (result : obj) :
  (forall body, FunctionReturns engine body = true) ->
  normalize_run engine ks result <> None.
Proof.
  intros Hall. revert result. induction ks as [|k ks IH]; simpl; intros result;
    [discriminate|].
  assert (Hs : normalize_step_run engine result k <> None).
  { unfold normalize_step_run, evaluateFormula_run.
    destruct (get result k) as [| |x|s]; try discriminate.
    destruct (starts_with_equals s); [|discriminate].
    rewrite Hall. discriminate. }
  destruct (normalize_step_run engine result k); [apply IH|contradiction].
Qed.

End RunFacts.



End RecalculationClaims.

Section FrameClaims.

Variable rt : JSRuntime.

Lemma plain_number_is_number (v : jsval) : is_number (plain_number rt v).
Proof. destruct v; simpl; eexists; reflexivity. Qed.

Lemma normalize_value_plain (result : obj) (v : jsval) :
  is_formula v = false -> normalize_value rt result v = plain_number rt v.
Proof. destruct v as [| |x|s]; simpl; auto. now intros ->. Qed.

(** A raw value other than a formula is replaced by its plain number. *)
Lemma normalize_steps_plain (ks : list string) (o : obj) (k : string) :
  In k ks -> is_formula (get o k) = false ->
  get (fold_left (normalize_step rt) ks o) k = plain_number rt (get o k).
Proof.
  revert o. induction ks as [|k1 ks IH]; simpl; intros o Hin Hf; [contradiction|].
  destruct (string_dec k1 k) as [->|Hne].
  - destruct (plain_number_is_number (get o k)) as [x Hx].
    rewrite Hx. apply normalize_steps_keep_number.
    unfold normalize_step. rewrite get_set_same.
    now rewrite normalize_value_plain.
  - destruct Hin as [Heq|Hin]; [contradiction|].
    rewrite IH; auto; unfold normalize_step; now rewrite get_set_other.
Qed.

Lemma update_student_frame (s : Student.t) :
  student_frame rt s (update_student rt s).
Proof.
  rewrite update_student_stores.
  assert (Hfd : financial_data_or_empty
                  (Student.set_financial_data s
                     (calculateStudentFinancials rt (financial_data_or_empty s)))
                = calculateStudentFinancials rt (financial_data_or_empty s))
    by reflexivity.
  unfold student_frame. rewrite Hfd.
  set (fd := financial_data_or_empty s).
  assert (Hkeys : forall k, ~ In k derived_fields ->
            (In k (keys (calculateStudentFinancials rt fd)) <-> In k (keys fd))).
  { intros k Hn. unfold calculateStudentFinancials.
    rewrite keys_derive, in_kadd_all, keys_normalize, in_keys_copy. tauto. }
  split; [reflexivity|]. split; [reflexivity|].
  split; [reflexivity|]. split; [reflexivity|].
  split; [exact Hkeys|]. split; [|split].
  - intros k x Hn Hg. rewrite calculate_reads_raw by assumption.
    apply normalize_keeps_number. now rewrite get_copy.
  - intros k Hn Hin Hf. rewrite calculate_reads_raw by assumption.
    unfold normalize. rewrite normalize_steps_plain.
    + now rewrite get_copy.
    + now apply in_keys_copy.
    + now rewrite get_copy.
  - apply calculate_all_numbers.
Qed.

Lemma Forall2_map_right {A : Type} (R : A -> A -> Prop) (f : A -> A)
  (l : list A) :
  (forall a, R a (f a)) -> Forall2 R l (map f l).
Proof. intros H. induction l; simpl; constructor; auto. Qed.

Lemma recalculate_program_frame (p : Program.t) :
  program_frame rt p (fst (recalculate_program rt p)).
Proof.
  unfold program_frame, recalculate_program.
  destruct (Program.students p) as [l|] eqn:E; simpl.
  - split; auto. apply Forall2_map_right, update_student_frame.
  - rewrite E. auto.
Qed.

Lemma recalculate_registry_frame (r : Registry.t) :
  registry_frame r (fst (recalculate_registry rt r)).
Proof.
  unfold registry_frame, recalculate_registry.
  destruct (Registry.students r) as [l|] eqn:E; simpl; auto.
Qed.

Lemma map_entries_frame {A : Type} (R : A -> A -> Prop) (f : A -> A)
  (l : list (string * A)) :
  (forall a, R a (f a)) -> entries_frame R l (map_entries f l).
Proof.
  intros H. unfold entries_frame, map_entries.
  apply (Forall2_map_right
           (fun e e' : string * A => fst e' = fst e /\ R (snd e) (snd e'))).
  intros [k a]. simpl. auto.
Qed.


End FrameClaims.






(** ** Routes *)

Section ListEdits.

Context {A : Type}.
Variable ident : A -> Z.

Lemma findIndex_dense (l : list A) (i k : Z) :
  map ident l = count_from i (List.length l) ->
  (i < k <= i + Z.of_nat (List.length l))%Z ->
  exists before x after,
    l = (before ++ x :: after)%list /\ ident x = k
    /\ findIndex (fun y => (ident y =? k)%Z) l = Some (List.length before).
Proof.
  revert i. induction l as [|x l IH]; intros i Hm Hk.
  - simpl in Hk. lia.
  - simpl in Hm. injection Hm as Hx Hm.
    destruct (Z.eq_dec k (i + 1)) as [->|Hne].
    + exists [], x, l. simpl. rewrite Hx, Z.eqb_refl. auto.
    + destruct (IH (i + 1)%Z Hm) as (before & y & after & -> & Hy & Hf).
      { simpl List.length in Hk. lia. }
      exists (x :: before), y, after. simpl. rewrite Hf.
      assert (E : (ident x =? k)%Z = false) by (apply Z.eqb_neq; lia).
      now rewrite E.
Qed.

Lemma findIndex_found (p : A -> bool) (l : list A) (i : nat) :
  findIndex p l = Some i ->
  exists before x after,
    l = (before ++ x :: after)%list /\ p x = true /\ List.length before = i.
Proof.
  revert i. induction l as [|x l IH]; simpl; intros i H; [discriminate|].
  destruct (p x) eqn:E.
  - injection H as <-. now exists [], x, l.
  - destruct (findIndex p l) as [j|]; [|discriminate].
    injection H as <-.
    destruct (IH j eq_refl) as (before & y & after & -> & Hy & <-).
    now exists (x :: before), y, after.
Qed.

Lemma splice1_middle (before after : list A) (x : A) :
  splice1 (List.length before) (before ++ x :: after) = (before ++ after)%list.
Proof. induction before as [|b l IH]; simpl; auto. now rewrite IH. Qed.

End ListEdits.

Lemma reassign_serial_numbers_serials (l : list Student.t) (i : Z) :
  map Student.serial_number (reassign_serial_numbers i l)
  = count_from i (List.length l).
Proof. revert i. induction l; simpl; intros i; auto. now rewrite IHl. Qed.

Lemma reassign_serial_numbers_rest (l : list Student.t) (i : Z) :
  map (fun s => Student.set_serial_number s 0) (reassign_serial_numbers i l)
  = map (fun s => Student.set_serial_number s 0) l.
Proof. revert i. induction l; simpl; intros i; auto. now rewrite IHl. Qed.

Lemma reassign_cids_cids (l : list Sponsor.t) (i : Z) :
  map Sponsor.cid (reassign_cids i l) = count_from i (List.length l).
Proof. revert i. induction l; simpl; intros i; auto. now rewrite IHl. Qed.

Lemma reassign_cids_rest (l : list Sponsor.t) (i : Z) :
  map (fun s => Sponsor.set_cid s 0) (reassign_cids i l)
  = map (fun s => Sponsor.set_cid s 0) l.
Proof. revert i. induction l; simpl; intros i; auto. now rewrite IHl. Qed.

Lemma remove_student_dense (students : list Student.t) (k : Z) :
  map Student.serial_number students = count_from 0 (List.length students) ->
  (1 <= k <= Z.of_nat (List.length students))%Z ->
  exists before s after students',
    students = (before ++ s :: after)%list
    /\ Student.serial_number s = k
    /\ remove_student k students = Some students'
    /\ map Student.serial_number students'
       = count_from 0 (List.length students - 1)
    /\ map (fun x => Student.set_serial_number x 0) students'
       = map (fun x => Student.set_serial_number x 0) (before ++ after).
Proof.
  intros Hm Hk.
  destruct (findIndex_dense Student.serial_number students (i := 0) (k := k) Hm)
    as (before & s & after & -> & Hs & Hf); [lia|].
  exists before, s, after.
  exists (reassign_serial_numbers 0 (before ++ after)).
  unfold remove_student. rewrite Hf, splice1_middle.
  repeat split; auto.
  - rewrite reassign_serial_numbers_serials. f_equal.
    rewrite !length_app. simpl. lia.
  - apply reassign_serial_numbers_rest.
Qed.

Lemma remove_sponsor_dense (sponsors : list Sponsor.t) (k : Z) :
  map Sponsor.cid sponsors = count_from 0 (List.length sponsors) ->
  (1 <= k <= Z.of_nat (List.length sponsors))%Z ->
  exists before s after sponsors',
    sponsors = (before ++ s :: after)%list
    /\ Sponsor.cid s = k
    /\ remove_sponsor k sponsors = Some sponsors'
    /\ map Sponsor.cid sponsors' = count_from 0 (List.length sponsors - 1)
    /\ map (fun x => Sponsor.set_cid x 0) sponsors'
       = map (fun x => Sponsor.set_cid x 0) (before ++ after).
Proof.
  intros Hm Hk.
  destruct (findIndex_dense Sponsor.cid sponsors (i := 0) (k := k) Hm)
    as (before & s & after & -> & Hs & Hf); [lia|].
  exists before, s, after.
  exists (reassign_cids 0 (before ++ after)).
  unfold remove_sponsor. rewrite Hf, splice1_middle.
  repeat split; auto.
  - rewrite reassign_cids_cids. f_equal.
    rewrite !length_app. simpl. lia.
  - apply reassign_cids_rest.
Qed.

Lemma lookup_assign {A : Type} (o : list (string * A)) (k : string) (a : A) :
  lookup (assign o k a) k = Some a.
Proof.
  induction o as [|[k' a'] o IH]; simpl.
  - now rewrite String.eqb_refl.
  - destruct (String.eqb k' k) eqn:E; simpl; rewrite E; auto.
Qed.

Lemma lookup_map_entries {A : Type} (f : A -> A) (o : list (string * A))
  (k : string) :
  lookup (map_entries f o) k = option_map f (lookup o k).
Proof.
  induction o as [|[k' a'] o IH]; simpl; auto.
  destruct (String.eqb k' k); auto.
Qed.

Lemma update_student_serials (rt : JSRuntime) (l : list Student.t) :
  map Student.serial_number (map (update_student rt) l)
  = map Student.serial_number l.
Proof. rewrite map_map. now apply map_ext. Qed.

(** What the delete-student route writes when its save succeeds. *)
Lemma delete_program_student_writes (rt : JSRuntime) (now : jsval)
  (program : string) (k : Z) (file : Database.t)
  (programs : list (string * Program.t)) (p : Program.t)
  (students students' : list Student.t)
  (registries : list (string * Registry.t)) (metadata : Database.metadata_t) :
  Database.sponsorship_programs file = Some programs ->
  lookup programs program = Some p ->
  Program.students p = Some students ->
  Database.sponsorship_registry file = Some registries ->
  Database.metadata file = Some metadata ->
  remove_student k students = Some students' ->
  fst (delete_program_student rt now true program k file) = ok
  /\ program_students (snd (delete_program_student rt now true program k file))
       program
     = map (update_student rt) students'.
Proof.
  intros Hp Hl Hs Hr Hm Hrm.
  unfold delete_program_student. rewrite Hp, Hl, Hs, Hrm.
  unfold save_and_reply, saveDatabase, recalculateAllMetadata. simpl.
  rewrite Hr. simpl. rewrite Hm. simpl. split; [reflexivity|].
  unfold program_students. simpl.
  rewrite lookup_map_entries, lookup_assign. reflexivity.
Qed.

(** What the delete-sponsor route writes when its save succeeds. *)
Lemma delete_registry_student_writes (rt : JSRuntime) (now : jsval)
  (program : string) (k : Z) (file : Database.t)
  (programs : list (string * Program.t))
  (registries : list (string * Registry.t)) (r : Registry.t)
  (sponsors sponsors' : list Sponsor.t) (metadata : Database.metadata_t) :
  Database.sponsorship_programs file = Some programs ->
  Database.sponsorship_registry file = Some registries ->
  lookup registries program = Some r ->
  Registry.students r = Some sponsors ->
  Database.metadata file = Some metadata ->
  remove_sponsor k sponsors = Some sponsors' ->
  fst (delete_registry_student rt now true program k file) = ok
  /\ registry_sponsors (snd (delete_registry_student rt now true program k file))
       program
     = sponsors'.
Proof.
  intros Hp Hr Hl Hs Hm Hrm.
  unfold delete_registry_student. rewrite Hr, Hl, Hs, Hrm.
  unfold save_and_reply, saveDatabase, recalculateAllMetadata. simpl.
  rewrite Hp. simpl. rewrite Hm. simpl. split; [reflexivity|].
  unfold registry_sponsors. simpl.
  rewrite lookup_map_entries, lookup_assign. reflexivity.
Qed.

(** C5: when the serial numbers (CIDs) of a list of N students
    (sponsors) are 1..N in order and the delete route is asked to remove
    identifier k with 1 <= k <= N, the route's edit finds the entry,
    removes it, and leaves the other N-1 entries in their original order
    and otherwise unchanged, carrying the identifiers 1..N-1; and when
    the route's save succeeds the file holds these N-1 entries, the
    students with their financial data recalculated. *)
Theorem delete_renumbers :
  (forall (students : list Student.t) (k : Z),
      map Student.serial_number students
      = count_from 0 (List.length students) ->
      (1 <= k <= Z.of_nat (List.length students))%Z ->
      exists before s after students',
        students = (before ++ s :: after)%list
        /\ Student.serial_number s = k
        /\ remove_student k students = Some students'
        /\ map Student.serial_number students'
           = count_from 0 (List.length students - 1)
        /\ map (fun x => Student.set_serial_number x 0) students'
           = map (fun x => Student.set_serial_number x 0) (before ++ after))
  /\ (forall (sponsors : list Sponsor.t) (k : Z),
        map Sponsor.cid sponsors = count_from 0 (List.length sponsors) ->
        (1 <= k <= Z.of_nat (List.length sponsors))%Z ->
        exists before s after sponsors',
          sponsors = (before ++ s :: after)%list
          /\ Sponsor.cid s = k
          /\ remove_sponsor k sponsors = Some sponsors'
          /\ map Sponsor.cid sponsors' = count_from 0 (List.length sponsors - 1)
          /\ map (fun x => Sponsor.set_cid x 0) sponsors'
             = map (fun x => Sponsor.set_cid x 0) (before ++ after))
  /\ (forall rt now program k file programs p students students'
             registries metadata,
        Database.sponsorship_programs file = Some programs ->
        lookup programs program = Some p ->
        Program.students p = Some students ->
        Database.sponsorship_registry file = Some registries ->
        Database.metadata file = Some metadata ->
        remove_student k students = Some students' ->
        fst (delete_program_student rt now true program k file) = ok
        /\ program_students
             (snd (delete_program_student rt now true program k file)) program
           = map (update_student rt) students'
        /\ map Student.serial_number
             (program_students
                (snd (delete_program_student rt now true program k file))
                program)
           = map Student.serial_number students')
  /\ (forall rt now program k file programs registries r sponsors sponsors'
             metadata,
        Database.sponsorship_programs file = Some programs ->
        Database.sponsorship_registry file = Some registries ->
        lookup registries program = Some r ->
        Registry.students r = Some sponsors ->
        Database.metadata file = Some metadata ->
        remove_sponsor k sponsors = Some sponsors' ->
        fst (delete_registry_student rt now true program k file) = ok
        /\ registry_sponsors
             (snd (delete_registry_student rt now true program k file)) program
           = sponsors').
Proof.
  split; [apply remove_student_dense|].
  split; [apply remove_sponsor_dense|].
  split.
  - intros rt now program k file programs p students students' registries
      metadata Hp Hl Hs Hr Hm Hrm.
    destruct (delete_program_student_writes rt now program k file
                Hp Hl Hs Hr Hm Hrm) as [Hok Hw].
    split; [exact Hok|]. split; [exact Hw|].
    rewrite Hw. apply update_student_serials.
  - intros rt now program k file programs registries r sponsors sponsors'
      metadata Hp Hr Hl Hs Hm Hrm.
    now apply (delete_registry_student_writes rt now program k file
                 Hp Hr Hl Hs Hm Hrm).
Qed.

Lemma delete_renumbers_sample :
  (exists before s after students',
      three_students = (before ++ s :: after)%list
      /\ Student.serial_number s = 2%Z
      /\ remove_student 2 three_students = Some students'
      /\ map Student.serial_number students' = [1%Z; 2%Z]
      /\ map (fun x => Student.set_serial_number x 0) students'
         = map (fun x => Student.set_serial_number x 0) (before ++ after))
  /\ (exists before s after sponsors',
        three_sponsors = (before ++ s :: after)%list
        /\ Sponsor.cid s = 2%Z
        /\ remove_sponsor 2 three_sponsors = Some sponsors'
        /\ map Sponsor.cid sponsors' = [1%Z; 2%Z]
        /\ map (fun x => Sponsor.set_cid x 0) sponsors'
           = map (fun x => Sponsor.set_cid x 0) (before ++ after))
  /\ map Sponsor.cid
       (registry_sponsors
          (snd (delete_registry_student NodeRef.runtime (VStr "2025-02-01") true
                  "CH" 2 sample_db)) "CH")
     = [1%Z; 2%Z].
Proof.
  split; [|split].
  - apply (proj1 delete_renumbers three_students 2%Z); [reflexivity|simpl; lia].
  - apply (proj1 (proj2 delete_renumbers) three_sponsors 2%Z);
      [reflexivity|simpl; lia].
  - vm_compute. reflexivity.
Defined.

Section SponsorRoute.

Variable rt : JSRuntime.
Variable now : jsval.
Variable write_ok : bool.

Lemma studentExists_program_students (db : Database.t)
  (programs : list (string * Program.t)) (program : string) (name : jsval) :
  Database.sponsorship_programs db = Some programs ->
  studentExists programs program name
  = existsb (fun student => strict_eq (Student.full_name student) name)
            (program_students db program).
Proof. intros H. unfold studentExists, program_students. now rewrite H. Qed.

(** C6: a request to add a sponsor whose [full_name] is strictly equal
    to the [full_name] of no student of the program (none at all when
    the program or its student list is missing) is answered with a
    failure, and the dataset in the file stays as it was. *)
Theorem post_registry_student_rejects (program : string)
  (sponsorData : SponsorRequest.t) (file : Database.t) :
  Forall (fun student =>
            strict_eq (Student.full_name student)
                      (SponsorRequest.full_name sponsorData) = false)
         (program_students file program) ->
  success (fst (post_registry_student rt now write_ok program sponsorData file))
  = false
  /\ snd (post_registry_student rt now write_ok program sponsorData file) = file.
Proof.
  intros Hnone. unfold post_registry_student.
  destruct (Database.sponsorship_registry file) as [registries0|]; [|now split].
  destruct (lookup
              match lookup registries0 program with
              | Some _ => registries0
              | None => assign registries0 program empty_registry
              end program) as [registry|]; [|now split].
  destruct (match SponsorRequest.cid sponsorData with
            | Some c =>
                if (c =? 0)%Z
                then match Registry.students registry with
                     | Some l => Normal (Z.of_nat (List.length l) + 1)%Z
                     | None => TypeError
                     end
                else Normal c
            | None =>
                match Registry.students registry with
                | Some l => Normal (Z.of_nat (List.length l) + 1)%Z
                | None => TypeError
                end
            end) as [cid|]; [|now split].
  destruct (Database.sponsorship_programs file) as [programs|] eqn:Ep;
    [|now split].
  rewrite (studentExists_program_students file program _ Ep).
  assert (Hex : existsb
                  (fun student =>
                     strict_eq (Student.full_name student)
                               (SponsorRequest.full_name sponsorData))
                  (program_students file program) = false).
  { induction Hnone as [|s l Hs Hl IH]; simpl; auto. now rewrite Hs, IH. }
  rewrite Hex. simpl. now split.
Qed.

End SponsorRoute.

Lemma post_registry_student_rejects_sample :
  success (fst (post_registry_student NodeRef.runtime (VStr "2025-02-01") true
                  "CH" (sponsor_request (VStr "Nobody")) sample_db)) = false
  /\ snd (post_registry_student NodeRef.runtime (VStr "2025-02-01") true
            "CH" (sponsor_request (VStr "Nobody")) sample_db) = sample_db.
Proof.
  apply (post_registry_student_rejects NodeRef.runtime (VStr "2025-02-01") true
           "CH" (sponsor_request (VStr "Nobody")) sample_db).
  repeat constructor.
Defined.

Lemma post_registry_student_accepts_sample :
  fst (post_registry_student NodeRef.runtime (VStr "2025-02-01") true
                  "CH" (sponsor_request (VStr "A")) sample_db) = ok.
Proof. vm_compute. reflexivity. Qed.

(** *** Expense identifiers *)

Lemma Math_max_lower (l : list Z) (x : Z) : (x <= Math_max x l)%Z.
Proof.
  revert x. induction l as [|y l IH]; simpl; intros x; [lia|].
  specialize (IH (Z.max x y)). lia.
Qed.

Lemma Math_max_upper (l : list Z) (x y : Z) :
  In y l -> (y <= Math_max x l)%Z.
Proof.
  revert x. induction l as [|z l IH]; simpl; intros x Hin; [contradiction|].
  destruct Hin as [->|Hin].
  - pose proof (Math_max_lower l (Z.max x y)). lia.
  - now apply IH.
Qed.

Lemma Math_max_in (l : list Z) (x : Z) :
  Math_max x l = x \/ In (Math_max x l) l.
Proof.
  revert x. induction l as [|y l IH]; simpl; intros x; [now left|].
  destruct (IH (Z.max x y)) as [H|H]; [|now right; right].
  rewrite H. destruct (Z.max_spec x y) as [[_ ->]|[_ ->]]; auto.
Qed.

Lemma nearest_double_exact (n : Z) :
  (Z.abs n <= 2 ^ 53)%Z -> nearest_double n = n.
Proof.
  intros H. unfold nearest_double. apply Z.leb_le in H. now rewrite H.
Qed.

(** Below 2^53 the generated identifier is the greatest one plus one. *)
Lemma generated_expense_id_exact (bound : Z) (l : list Expense.t) :
  ids_below bound l ->
  generated_expense_id l
  = match map Expense.id l with
    | [] => 1%Z
    | x :: ids => (Math_max x ids + 1)%Z
    end
  /\ (- 2 ^ 53 < generated_expense_id l < bound + 1)%Z.
Proof.
  intros [Hb Hl]. unfold generated_expense_id, id_add.
  change (2 ^ 53)%Z with 9007199254740992%Z in *.
  assert (Hids : Forall (fun n => (- 9007199254740992 < n < bound)%Z)
                        (map Expense.id l)).
  { apply Forall_forall. intros n Hn. apply in_map_iff in Hn.
    destruct Hn as (e & <- & He).
    exact (proj1 (Forall_forall _ _) Hl e He). }
  destruct (map Expense.id l) as [|x ids]; [split; [reflexivity|lia]|].
  assert (Hm : (- 9007199254740992 < Math_max x ids < bound)%Z).
  { destruct (Math_max_in ids x) as [->|Hin].
    - now inversion Hids.
    - inversion Hids as [|? ? _ Hrest]; subst.
      exact (proj1 (Forall_forall _ _) Hrest _ Hin). }
  rewrite nearest_double_exact
    by (change (2 ^ 53)%Z with 9007199254740992%Z; lia).
  split; [reflexivity|lia].
Qed.

Lemma generated_expense_id_fresh (l : list Expense.t) (e : Expense.t) :
  ids_below (2 ^ 53) l ->
  In e l -> (Expense.id e < generated_expense_id l)%Z.
Proof.
  intros Hl Hin.
  destruct (@generated_expense_id_exact _ l Hl) as [-> _].
  apply (in_map Expense.id) in Hin.
  destruct (map Expense.id l) as [|x ids]; [contradiction|].
  destruct Hin as [<-|Hin].
  - pose proof (Math_max_lower ids x). lia.
  - pose proof (Math_max_upper ids x _ Hin). lia.
Qed.

Lemma push_expense_ids (body : ExpenseRequest.t) (l : list Expense.t) :
  map Expense.id (push_expense body l)
  = (map Expense.id l
     ++ [match ExpenseRequest.id body with
         | Some n => if (n =? 0)%Z then generated_expense_id l else n
         | None => generated_expense_id l
         end])%list.
Proof. unfold push_expense. now rewrite map_app. Qed.

Lemma push_expense_generated (body : ExpenseRequest.t) (l : list Expense.t) :
  sends_no_id (AddExpense body) = true ->
  map Expense.id (push_expense body l)
  = (map Expense.id l ++ [generated_expense_id l])%list.
Proof.
  simpl. intros H. rewrite push_expense_ids.
  destruct (ExpenseRequest.id body) as [n|]; auto. now rewrite H.
Qed.

Lemma remove_expense_found (k : Z) (l l' : list Expense.t) :
  remove_expense k l = Some l' ->
  exists before e after,
    l = (before ++ e :: after)%list /\ Expense.id e = k
    /\ l' = (before ++ after)%list.
Proof.
  unfold remove_expense.
  destruct (findIndex (fun e => (Expense.id e =? k)%Z) l) as [i|] eqn:E;
    [|discriminate].
  intros H. injection H as <-.
  destruct (findIndex_found _ _ E) as (before & e & after & -> & He & <-).
  exists before, e, after. rewrite splice1_middle.
  apply Z.eqb_eq in He. auto.
Qed.

Lemma NoDup_push_generated (body : ExpenseRequest.t) (l : list Expense.t) :
  sends_no_id (AddExpense body) = true ->
  ids_below (2 ^ 53) l ->
  NoDup (map Expense.id l) -> NoDup (map Expense.id (push_expense body l)).
Proof.
  intros Hs Hl Hnd. rewrite push_expense_generated by assumption.
  apply NoDup_app; auto.
  - constructor; [intros []|constructor].
  - intros x Hx [<-|[]]. apply in_map_iff in Hx.
    destruct Hx as (e & He & Hin).
    pose proof (@generated_expense_id_fresh l e Hl Hin). lia.
Qed.

Lemma NoDup_remove_expense (k : Z) (l l' : list Expense.t) :
  remove_expense k l = Some l' ->
  NoDup (map Expense.id l) -> NoDup (map Expense.id l').
Proof.
  intros H Hnd.
  destruct (remove_expense_found _ _ H) as (before & e & after & -> & _ & ->).
  rewrite map_app in *. simpl in Hnd. now apply NoDup_remove_1 in Hnd.
Qed.

Lemma ids_below_le (bound bound' : Z) (l : list Expense.t) :
  (bound <= bound' <= 2 ^ 53)%Z -> ids_below bound l -> ids_below bound' l.
Proof.
  intros Hb [Hp Hl]. split; [lia|].
  eapply Forall_impl; [|exact Hl]. simpl. intros e He. lia.
Qed.

(** An add that sends no identifier uses up one of the identifiers
    below the bound; a delete uses none. *)
Lemma ids_below_apply_expense_op (op : expense_op) (l : list Expense.t)
  (bound : Z) :
  sends_no_id op = true -> (bound + 1 <= 2 ^ 53)%Z ->
  ids_below bound l -> ids_below (bound + 1) (apply_expense_op l op).
Proof.
  intros Hs Hb Hl.
  destruct op as [body|k]; simpl apply_expense_op.
  - destruct (@generated_expense_id_exact _ l Hl) as [_ Hg].
    destruct Hl as [Hp Hl]. split; [lia|].
    apply Forall_forall. intros e He.
    assert (Hids : In (Expense.id e) (map Expense.id (push_expense body l)))
      by now apply in_map.
    rewrite push_expense_generated in Hids by assumption.
    apply in_app_or in Hids. destruct Hids as [Hin|[<-|[]]]; [|exact Hg].
    apply in_map_iff in Hin. destruct Hin as (e0 & <- & Hin0).
    pose proof (proj1 (Forall_forall _ _) Hl e0 Hin0). simpl in *. lia.
  - assert (Hl' : ids_below (bound + 1) l)
      by (apply (ids_below_le (bound := bound)); [destruct Hl; lia|exact Hl]).
    destruct (remove_expense k l) as [l'|] eqn:E; auto.
    destruct (remove_expense_found _ _ E) as (before & e & after & -> & _ & ->).
    destruct Hl' as [Hp Hl']. split; [exact Hp|].
    apply Forall_app in Hl'. destruct Hl' as [H1 H2].
    apply Forall_app. split; [exact H1|]. now inversion H2.
Qed.

Lemma NoDup_apply_expense_op (op : expense_op) (l : list Expense.t) :
  sends_no_id op = true ->
  ids_below (2 ^ 53) l ->
  NoDup (map Expense.id l) -> NoDup (map Expense.id (apply_expense_op l op)).
Proof.
  destruct op as [body|k]; simpl apply_expense_op; intros Hs Hl Hnd.
  - now apply NoDup_push_generated.
  - destruct (remove_expense k l) as [l'|] eqn:E; auto.
    now apply (NoDup_remove_expense _ _ E).
Qed.

(** Pairwise distinct identifiers stay so along the requests, as long as
    the identifiers leave room below 2^53 for the adds. *)
Lemma NoDup_expense_ops (ops : list expense_op) (l : list Expense.t) :
  forallb sends_no_id ops = true ->
  ids_below (2 ^ 53 - Z.of_nat (List.length ops)) l ->
  NoDup (map Expense.id l) ->
  NoDup (map Expense.id (fold_left apply_expense_op ops l)).
Proof.
  revert l. induction ops as [|op ops IH]; simpl fold_left; intros l Hs Hl Hnd;
    [exact Hnd|].
  simpl in Hs. apply andb_true_iff in Hs. destruct Hs as [Hop Hs].
  assert (Hlen : (2 ^ 53 - Z.of_nat (List.length (op :: ops)) + 1
                  = 2 ^ 53 - Z.of_nat (List.length ops))%Z)
    by (simpl List.length; lia).
  apply IH; auto.
  - rewrite <- Hlen. apply ids_below_apply_expense_op; auto.
    simpl List.length. lia.
  - apply NoDup_apply_expense_op; auto.
    apply (ids_below_le (bound := (2 ^ 53 - Z.of_nat (List.length (op :: ops)))%Z));
      [|exact Hl].
    destruct Hl as [Hp _]. lia.
Qed.

(** What the expense routes write when their save succeeds. *)
Lemma post_expense_writes (rt : JSRuntime) (now : jsval)
  (body : ExpenseRequest.t) (file : Database.t)
  (programs : list (string * Program.t))
  (registries : list (string * Registry.t)) (metadata : Database.metadata_t) :
  Database.sponsorship_programs file = Some programs ->
  Database.sponsorship_registry file = Some registries ->
  Database.metadata file = Some metadata ->
  fst (post_expense rt now true body file) = ok
  /\ Database.daily_expenses (snd (post_expense rt now true body file))
     = Some (push_expense body
               match Database.daily_expenses file with
               | Some l => l
               | None => []
               end).
Proof.
  intros Hp Hr Hm. unfold post_expense.
  unfold save_and_reply, saveDatabase, recalculateAllMetadata. simpl.
  rewrite Hp. simpl. rewrite Hr. simpl. rewrite Hm. simpl. now split.
Qed.

Lemma delete_expense_writes (rt : JSRuntime) (now : jsval) (k : Z)
  (file : Database.t) (l l' : list Expense.t)
  (programs : list (string * Program.t))
  (registries : list (string * Registry.t)) (metadata : Database.metadata_t) :
  Database.sponsorship_programs file = Some programs ->
  Database.sponsorship_registry file = Some registries ->
  Database.metadata file = Some metadata ->
  Database.daily_expenses file = Some l ->
  remove_expense k l = Some l' ->
  fst (delete_expense rt now true k file) = ok
  /\ Database.daily_expenses (snd (delete_expense rt now true k file)) = Some l'.
Proof.
  intros Hp Hr Hm Hl Hrm. unfold delete_expense. rewrite Hl, Hrm.
  unfold save_and_reply, saveDatabase, recalculateAllMetadata. simpl.
  rewrite Hp. simpl. rewrite Hr. simpl. rewrite Hm. simpl. now split.
Qed.

(** C10, as the code has it: when the client sends no id, the add route
    gives the new expense the id 1 on an empty list and otherwise the
    greatest existing id plus one, computed on doubles: it is exact, and
    above every existing id, when the ids are integers of magnitude below
    2^53; an id the client does send is stored as sent; the delete route
    removes the matching expense and leaves the other expenses, ids
    included, as they are; these edits are what the routes write when
    their save succeeds.  So from a list of pairwise distinct ids that
    leave room below 2^53 for the adds, every sequence of deletes and of
    adds that send no id leads to pairwise distinct ids, and the ids are
    not kept dense.  At 2^53 the sum is rounded back to 2^53, and the
    generated id repeats the greatest one. *)
Theorem expense_ids_distinct :
  (forall body l,
      sends_no_id (AddExpense body) = true ->
      map Expense.id (push_expense body l)
      = (map Expense.id l ++ [generated_expense_id l])%list
      /\ generated_expense_id l
         = match map Expense.id l with
           | [] => 1%Z
           | x :: ids => nearest_double (Math_max x ids + 1)
           end
      /\ (ids_below (2 ^ 53) l ->
          generated_expense_id l
          = match map Expense.id l with
            | [] => 1%Z
            | x :: ids => (Math_max x ids + 1)%Z
            end
          /\ forall e, In e l -> (Expense.id e < generated_expense_id l)%Z))
  /\ (forall body l n,
        ExpenseRequest.id body = Some n -> n <> 0%Z ->
        map Expense.id (push_expense body l) = (map Expense.id l ++ [n])%list)
  /\ (forall k l l',
        remove_expense k l = Some l' ->
        exists before e after,
          l = (before ++ e :: after)%list /\ Expense.id e = k
          /\ l' = (before ++ after)%list)
  /\ (forall ops l,
        forallb sends_no_id ops = true ->
        NoDup (map Expense.id l) ->
        ids_below (2 ^ 53 - Z.of_nat (List.length ops)) l ->
        NoDup (map Expense.id (fold_left apply_expense_op ops l)))
  /\ map Expense.id
       (fold_left apply_expense_op
          [ AddExpense (expense_request None);
            AddExpense (expense_request None);
            AddExpense (expense_request None);
            DeleteExpense 2 ] [])
     = [1%Z; 3%Z]
  /\ map Expense.id
       (push_expense (expense_request None) [expense_of_id (2 ^ 53)])
     = [(2 ^ 53)%Z; (2 ^ 53)%Z]
  /\ (forall rt now body file programs registries metadata,
        Database.sponsorship_programs file = Some programs ->
        Database.sponsorship_registry file = Some registries ->
        Database.metadata file = Some metadata ->
        fst (post_expense rt now true body file) = ok
        /\ Database.daily_expenses (snd (post_expense rt now true body file))
           = Some (push_expense body
                     match Database.daily_expenses file with
                     | Some l => l
                     | None => []
                     end))
  /\ (forall rt now k file l l' programs registries metadata,
        Database.sponsorship_programs file = Some programs ->
        Database.sponsorship_registry file = Some registries ->
        Database.metadata file = Some metadata ->
        Database.daily_expenses file = Some l ->
        remove_expense k l = Some l' ->
        fst (delete_expense rt now true k file) = ok
        /\ Database.daily_expenses (snd (delete_expense rt now true k file))
           = Some l').
Proof.
  split; [|split; [|split; [|split; [|split; [|split; [|split]]]]]].
  - intros body l Hs. split; [now apply push_expense_generated|].
    split; [reflexivity|]. intros Hl.
    split; [exact (proj1 (@generated_expense_id_exact _ l Hl))|].
    intros e He. now apply generated_expense_id_fresh.
  - intros body l n Hn Hz. rewrite push_expense_ids, Hn.
    apply Z.eqb_neq in Hz. now rewrite Hz.
  - apply remove_expense_found.
  - intros ops l Hs Hnd Hl. now apply NoDup_expense_ops.
  - reflexivity.
  - vm_compute. reflexivity.
  - intros. now apply post_expense_writes with (programs := programs)
      (registries := registries) (metadata := metadata).
  - intros. now apply delete_expense_writes with (l := l) (programs := programs)
      (registries := registries) (metadata := metadata).
Qed.

(** C10 fails as stated: two adds that send the same id leave two
    expenses with that id. *)
Lemma expense_ids_repeat :
  map Expense.id
    (fold_left apply_expense_op
       [ AddExpense (expense_request (Some 5%Z));
         AddExpense (expense_request (Some 5%Z)) ] [])
  = [5%Z; 5%Z]
  /\ ~ NoDup [5%Z; 5%Z].
Proof.
  split; [reflexivity|].
  intros H. inversion H as [|x l Hn _]; subst. apply Hn. now left.
Qed.

(** ** Further properties of the calculator *)

Section CalculatorResults.

Variable rt : JSRuntime.

Lemma normalize_reads_numbers (o : obj) : reads_numbers (normalize rt o).
Proof. intros k. apply normalize_reads. Qed.

Lemma derived_field_in_keys (fd : obj) (k : string) :
  In k derived_fields -> In k (keys (calculateStudentFinancials rt fd)).
Proof.
  intros Hk. unfold calculateStudentFinancials.
  rewrite keys_derive, in_kadd_all. now right.
Qed.

Lemma calculate_monthly_output_number (fd : obj) :
  is_number (get (calculateStudentFinancials rt fd) "monthly_output_ugx").
Proof.
  apply calculate_all_numbers, derived_field_in_keys.
  unfold derived_fields. simpl. auto.
Qed.




End CalculatorResults.
Section FormulaOrder.

Variable rt : JSRuntime.

Lemma normalize_steps_other (ks : list string) (o : obj) (k : string) :
  ~ In k ks -> get (fold_left (normalize_step rt) ks o) k = get o k.
Proof.
  revert o. induction ks as [|k1 ks IH]; simpl; intros o Hn; auto.
  rewrite IH by tauto. unfold normalize_step. apply get_set_other. tauto.
Qed.


End FormulaOrder.

(** ** Further properties of the recalculation *)

(** *** Histograms *)

Lemma count_of_set_count (h : list (string * Z)) (k k' : string) (n : Z) :
  count_of (set_count h k n) k' = if String.eqb k k' then n else count_of h k'.
Proof.
  induction h as [|[k0 n0] h IH]; simpl; auto.
  destruct (String.eqb_spec k0 k) as [->|Hne]; simpl.
  - destruct (String.eqb k k'); reflexivity.
  - rewrite IH. destruct (String.eqb_spec k0 k') as [->|Hne'];
      destruct (String.eqb_spec k k') as [->|Hne'']; congruence.
Qed.

Lemma total_count_set_count (h : list (string * Z)) (k : string) (n : Z) :
  total_count (set_count h k n) = (total_count h - count_of h k + n)%Z.
Proof.
  induction h as [|[k0 n0] h IH]; simpl; [lia|].
  destruct (String.eqb k0 k); simpl; [lia|]. rewrite IH. lia.
Qed.

Lemma in_keys_set_count (h : list (string * Z)) (k k' : string) (n : Z) :
  In k' (map fst (set_count h k n)) <-> In k' (map fst h) \/ k' = k.
Proof.
  induction h as [|[k0 n0] h IH]; simpl.
  - intuition.
  - destruct (String.eqb_spec k0 k) as [->|Hne]; simpl.
    + intuition.
    + rewrite IH. tauto.
Qed.

Lemma NoDup_set_count (h : list (string * Z)) (k : string) (n : Z) :
  NoDup (map fst h) -> NoDup (map fst (set_count h k n)).
Proof.
  induction h as [|[k0 n0] h IH]; simpl; intros Hnd.
  - constructor; [intros []|constructor].
  - inversion Hnd as [|? ? Hn Hnd']; subst.
    destruct (String.eqb_spec k0 k) as [->|Hne]; simpl.
    + now constructor.
    + constructor; auto. rewrite in_keys_set_count. intros [H|H]; congruence.
Qed.

Section Histograms.

Context {A : Type}.
Variable label : A -> string.

Lemma count_of_histogram (l : list A) (h : list (string * Z)) (k : string) :
  count_of (fold_left (count_label label) l h) k
  = (count_of h k
     + Z.of_nat (List.length (filter (fun x => String.eqb (label x) k) l)))%Z.
Proof.
  revert h. induction l as [|x l IH]; simpl; intros h; [lia|].
  rewrite IH. unfold count_label. rewrite count_of_set_count.
  destruct (String.eqb_spec (label x) k) as [->|Hne]; simpl List.length; lia.
Qed.

Lemma total_count_histogram (l : list A) (h : list (string * Z)) :
  total_count (fold_left (count_label label) l h)
  = (total_count h + Z.of_nat (List.length l))%Z.
Proof.
  revert h. induction l as [|x l IH]; simpl; intros h; [lia|].
  rewrite IH. unfold count_label. rewrite total_count_set_count. lia.
Qed.

Lemma NoDup_histogram (l : list A) (h : list (string * Z)) :
  NoDup (map fst h) -> NoDup (map fst (fold_left (count_label label) l h)).
Proof.
  revert h. induction l as [|x l IH]; simpl; intros h Hnd; auto.
  apply IH. now apply NoDup_set_count.
Qed.

Lemma in_keys_histogram (l : list A) (h : list (string * Z)) (k : string) :
  In k (map fst (fold_left (count_label label) l h))
  <-> In k (map fst h) \/ exists x, In x l /\ label x = k.
Proof.
  revert h. induction l as [|x l IH]; simpl; intros h.
  - split; [auto|]. intros [H|(x & [] & _)]. exact H.
  - rewrite IH. unfold count_label. rewrite in_keys_set_count. split.
    + intros [[H| ->]|(y & Hy & Hl)]; eauto.
    + intros [H|(y & [<-|Hy] & Hl)]; eauto.
Qed.

End Histograms.

Section RecalculationResults.

Variable rt : JSRuntime.

(** The dataset that a recalculation returns. *)
Lemma recalculateAllMetadata_returns (db db' : Database.t) :
  recalculateAllMetadata rt db = Returns db' ->
  exists programs registries metadata,
    Database.sponsorship_programs db = Some programs
    /\ Database.sponsorship_registry db = Some registries
    /\ Database.metadata db = Some metadata
    /\ db' =
       Database.make
         (Some (map_entries (fun p => fst (recalculate_program rt p)) programs))
         (Some (map_entries (fun r => fst (recalculate_registry rt r)) registries))
         (Database.daily_expenses db)
         (Some (Database.make_metadata
                  (Database.extraction_date metadata)
                  (Some (Database.make_summary
                           (fold_left
                              (fun total e =>
                                 (total + snd (recalculate_program rt (snd e)))%Z)
                              programs 0%Z)
                           (fold_left
                              (fun total e =>
                                 (total
                                  + fst (snd (recalculate_registry rt (snd e))))%Z)
                              registries 0%Z)
                           (fold_left
                              (fun total e =>
                                 (total
                                  + snd (snd (recalculate_registry rt (snd e))))%float)
                              registries 0%float)
                           (fold_left
                              (fun total e =>
                                 (total
                                  + snd (snd (recalculate_registry rt (snd e))))%float)
                              registries 0%float * EXCHANGE_RATE)%float))))
         (Database.last_updated db).
Proof.
  unfold recalculateAllMetadata.
  destruct (Database.sponsorship_programs db) as [programs|]; [|discriminate].
  simpl Database.sponsorship_registry.
  destruct (Database.sponsorship_registry db) as [registries|]; [|discriminate].
  simpl Database.metadata.
  destruct (Database.metadata db) as [metadata|]; [|discriminate].
  intros H. injection H as <-.
  exists programs, registries, metadata. repeat split.
Qed.

(** A dataset that a recalculation returned is returned unchanged by the
    next one. *)
Lemma recalculateAllMetadata_fixed (db db' : Database.t) :
  recalculateAllMetadata rt db = Returns db' ->
  recalculateAllMetadata rt db' = Returns db'.
Proof.
  intros H.
  destruct (recalculateAllMetadata_returns _ H)
    as (programs & registries & metadata & Hp & Hr & Hm & ->).
  unfold recalculateAllMetadata. simpl.
  rewrite !map_entries_fixed
    by (intros a; first [now rewrite recalculate_program_fixed
                        |now rewrite recalculate_registry_fixed]).
  rewrite (fold_entries_fixed (fun p => fst (recalculate_program rt p))
             (fun total p => (total + snd (recalculate_program rt p))%Z))
    by (intros b p; now rewrite recalculate_program_fixed).
  rewrite (fold_entries_fixed (fun r => fst (recalculate_registry rt r))
             (fun total r => (total + fst (snd (recalculate_registry rt r)))%Z))
    by (intros b r; now rewrite recalculate_registry_fixed).
  rewrite (fold_entries_fixed (fun r => fst (recalculate_registry rt r))
             (fun total r =>
                (total + snd (snd (recalculate_registry rt r)))%float))
    by (intros b r; now rewrite recalculate_registry_fixed).
  reflexivity.
Qed.

Lemma package_label_updated (s : Student.t) :
  package_label rt (update_student rt s) = package_label rt s.
Proof. reflexivity. Qed.

Lemma stored_monthly_output_updated (s : Student.t) :
  get (financial_data_or_empty (update_student rt s)) "monthly_output_ugx"
  = get (calculateStudentFinancials rt (financial_data_or_empty s))
        "monthly_output_ugx".
Proof. now rewrite update_student_stores. Qed.

Lemma program_cost_number (l : list Student.t) (c : float) :
  fold_left (add_student_cost rt) l (VNum c)
  = VNum (fold_left
            (fun sum s => (sum + stored_monthly_output rt (update_student rt s))%float)
            l c).
Proof.
  revert c. induction l as [|s l IH]; simpl; intros c; auto.
  unfold add_student_cost, stored_monthly_output.
  rewrite stored_monthly_output_updated.
  destruct (calculate_monthly_output_number rt (financial_data_or_empty s))
    as [m ->].
  simpl. apply IH.
Qed.



Lemma filter_partition_length {A : Type} (p q : A -> bool) (l : list A) :
  (forall x, q x = true -> p x = false) ->
  List.length l
  = (List.length (filter p l) + List.length (filter q l)
     + List.length (filter (fun x => (negb (p x) && negb (q x))%bool) l))%nat.
Proof.
  intros H. induction l as [|x l IH]; simpl; auto.
  destruct (q x) eqn:Eq.
  - rewrite (H x Eq). simpl. lia.
  - destruct (p x); simpl; lia.
Qed.


Lemma total_students_length (programs : list (string * Program.t)) (n : Z) :
  fold_left (fun total e => (total + snd (recalculate_program rt (snd e)))%Z)
            programs n
  = (n + Z.of_nat (List.length (all_students programs)))%Z.
Proof.
  revert n. induction programs as [|[k p] l IH]; simpl; intros n; [lia|].
  rewrite IH. unfold all_students. simpl. rewrite length_app.
  unfold recalculate_program. destruct (Program.students p); simpl; lia.
Qed.

Lemma all_students_recalculated (programs : list (string * Program.t)) :
  all_students (map_entries (fun p => fst (recalculate_program rt p)) programs)
  = map (update_student rt) (all_students programs).
Proof.
  unfold all_students.
  induction programs as [|[k p] l IH]; simpl; auto.
  rewrite map_app, <- IH. f_equal.
  unfold recalculate_program. destruct (Program.students p) as [s|] eqn:E; simpl.
  - reflexivity.
  - now rewrite E.
Qed.

Lemma all_sponsors_recalculated (registries : list (string * Registry.t)) :
  all_sponsors (map_entries (fun r => fst (recalculate_registry rt r)) registries)
  = all_sponsors registries.
Proof.
  unfold all_sponsors.
  induction registries as [|[k r] l IH]; simpl; auto.
  rewrite IH. f_equal.
  unfold recalculate_registry. destruct (Registry.students r) as [s|] eqn:E; simpl.
  - reflexivity.
  - now rewrite E.
Qed.

Lemma total_active_length (registries : list (string * Registry.t)) (n : Z) :
  fold_left
    (fun total e => (total + fst (snd (recalculate_registry rt (snd e))))%Z)
    registries n
  = (n + Z.of_nat (List.length (filter is_active (all_sponsors registries))))%Z.
Proof.
  revert n. induction registries as [|[k r] l IH]; simpl; intros n; [lia|].
  rewrite IH. unfold all_sponsors. simpl. rewrite filter_app, length_app.
  unfold recalculate_registry. destruct (Registry.students r); simpl; lia.
Qed.

Lemma registry_funding_of (r : Registry.t) :
  snd (snd (recalculate_registry rt r))
  = funding_of rt 0 (list_of (Registry.students r)).
Proof.
  unfold recalculate_registry. destruct (Registry.students r) as [l|]; simpl; auto.
  unfold program_funding. apply funding_of_filter.
Qed.


End RecalculationResults.
(** ** Further properties of the routes *)

Lemma findIndex_none {A : Type} (p : A -> bool) (l : list A) :
  Forall (fun x => p x = false) l -> findIndex p l = None.
Proof.
  induction 1 as [|x l Hx Hl IH]; simpl; auto. now rewrite Hx, IH.
Qed.

Lemma findIndex_first {A : Type} (p : A -> bool) (before after : list A) (x : A) :
  Forall (fun y => p y = false) before -> p x = true ->
  findIndex p (before ++ x :: after) = Some (List.length before).
Proof.
  induction 1 as [|y l Hy Hl IH]; simpl; intros Hx.
  - now rewrite Hx.
  - now rewrite Hy, IH.
Qed.

Lemma count_from_app (i : Z) (n m : nat) :
  count_from i (n + m) = (count_from i n ++ count_from (i + Z.of_nat n) m)%list.
Proof.
  revert i. induction n as [|n IH]; intros i.
  - simpl. now rewrite Z.add_0_r.
  - replace (i + Z.of_nat (S n))%Z with (i + 1 + Z.of_nat n)%Z by lia.
    simpl Nat.add. cbn [count_from app]. now rewrite IH.
Qed.

Lemma count_from_bounds (i : Z) (n : nat) (k : Z) :
  In k (count_from i n) <-> (i < k <= i + Z.of_nat n)%Z.
Proof.
  revert i. induction n as [|n IH]; intros i.
  - simpl. lia.
  - cbn [count_from In]. rewrite IH. lia.
Qed.

Lemma update_at_length {A : Type} (f : A -> A) (l : list A) (i : nat) :
  List.length (update_at i f l) = List.length l.
Proof.
  revert i. induction l as [|x l IH]; intros [|i]; simpl; auto.
Qed.

Lemma update_at_middle {A : Type} (f : A -> A) (before after : list A) (x : A) :
  update_at (List.length before) f (before ++ x :: after)
  = (before ++ f x :: after)%list.
Proof. induction before as [|b l IH]; simpl; auto. now rewrite IH. Qed.

(** *** Runs of the routes

    A route's run returns, with the result given over the runtime, when
    the recalculation of the dataset in the file returns and so does the
    calculation of the record that the request carries. *)

Section RouteRunFacts.

Variable engine : JSEngine.
Variable now : jsval.
Variable write_ok : bool.

Lemma save_and_reply_run_returns (data file : Database.t) :
  recalculation_returns engine data = true ->
  save_and_reply_run engine now write_ok data file
  = Some (save_and_reply (builtins engine) now write_ok data file).
Proof.
  unfold recalculation_returns, save_and_reply_run, saveDatabase_run,
    save_and_reply, saveDatabase.
  rewrite recalculateAllMetadata_run_spec. simpl Database.sponsorship_programs.
  destruct (Database.sponsorship_programs data) as [programs|] eqn:E.
  - intros ->.
    destruct (recalculateAllMetadata (builtins engine) (set_last_updated data now));
      [destruct write_ok|]; reflexivity.
  - intros _. unfold recalculateAllMetadata. simpl Database.sponsorship_programs.
    rewrite E. reflexivity.
Qed.

Lemma save_and_reply_run_none (data file : Database.t) :
  recalculation_returns engine data = false ->
  save_and_reply_run engine now write_ok data file = None.
Proof.
  unfold recalculation_returns, save_and_reply_run, saveDatabase_run.
  rewrite recalculateAllMetadata_run_spec. simpl Database.sponsorship_programs.
  destruct (Database.sponsorship_programs data); [|discriminate].
  now intros ->.
Qed.

(** The calculation of a calculated record returns: it holds numbers. *)
Lemma calculation_returns_calculated (serial : Z) (name package notes : jsval)
  (fd : obj) :
  calculation_returns engine
    (Student.make serial name package
       (Some (calculateStudentFinancials (builtins engine) fd)) notes) = true.
Proof.
  unfold calculation_returns, calculateStudentFinancials_run,
    financial_data_or_empty. simpl Student.financial_data.
  match goal with
  | |- context [normalize_run engine ?ks ?r] =>
      pose proof (@normalize_run_plain engine ks r) as H;
      destruct (normalize_run engine ks r); [reflexivity|]
  end.
  exfalso. apply H; [|reflexivity].
  intros k. rewrite get_copy.
  destruct (in_dec string_dec k
              (keys (calculateStudentFinancials (builtins engine) fd)))
    as [Hin|Hn].
  - destruct (@calculate_all_numbers (builtins engine) fd k Hin) as [x ->].
    reflexivity.
  - now rewrite get_absent.
Qed.

Lemma calculations_return_lookup (programs : list (string * Program.t))
  (k : string) (p : Program.t) (l : list Student.t) :
  calculations_return engine programs = true ->
  lookup programs k = Some p ->
  Program.students p = Some l ->
  forallb (calculation_returns engine) l = true.
Proof.
  unfold calculations_return.
  induction programs as [|[k' p'] programs IH]; simpl; [discriminate|].
  intros H Hl Hs. apply andb_true_iff in H. destruct H as [Hp Hrest].
  destruct (String.eqb k' k).
  - injection Hl as ->. now rewrite Hs in Hp.
  - now apply IH.
Qed.

Lemma calculations_return_assign (programs : list (string * Program.t))
  (k : string) (p : Program.t) :
  calculations_return engine programs = true ->
  match Program.students p with
  | Some l => forallb (calculation_returns engine) l
  | None => true
  end = true ->
  calculations_return engine (assign programs k p) = true.
Proof.
  unfold calculations_return.
  induction programs as [|[k' p'] programs IH]; simpl; intros H Hp.
  - now rewrite Hp.
  - apply andb_true_iff in H. destruct H as [Hp' Hrest].
    destruct (String.eqb k' k); simpl.
    + now rewrite Hp, Hrest.
    + now rewrite Hp', IH.
Qed.

Lemma forallb_splice1 {A : Type} (f : A -> bool) (l : list A) (i : nat) :
  forallb f l = true -> forallb f (splice1 i l) = true.
Proof.
  revert i. induction l as [|x l IH]; intros [|i]; simpl; auto;
    intros H; apply andb_true_iff in H; destruct H as [Hx Hl]; auto.
  now rewrite Hx, IH.
Qed.

Lemma forallb_reassign_serial_numbers (l : list Student.t) (i : Z) :
  forallb (calculation_returns engine) (reassign_serial_numbers i l)
  = forallb (calculation_returns engine) l.
Proof.
  revert i. induction l as [|s l IH]; simpl; intros i; auto.
  now rewrite IH.
Qed.

Lemma forallb_update_at {A : Type} (f : A -> bool) (g : A -> A) (l : list A)
  (i : nat) :
  forallb f l = true -> (forall x, f x = true -> f (g x) = true) ->
  forallb f (update_at i g l) = true.
Proof.
  intros H Hg. revert i H. induction l as [|x l IH]; intros [|i]; simpl; auto;
    intros H; apply andb_true_iff in H; destruct H as [Hx Hl].
  - now rewrite Hg, Hl.
  - now rewrite Hx, IH.
Qed.

Ltac run_cases :=
  repeat match goal with
         | |- save_and_reply_run _ _ _ _ _ = Some (save_and_reply _ _ _ _ _) =>
             apply save_and_reply_run_returns
         | |- Some _ = Some _ => reflexivity
         | |- match ?x with _ => _ end = Some (match ?x with _ => _ end) =>
             destruct x eqn:?
         | |- (if ?x then _ else _) = Some (if ?x then _ else _) => destruct x eqn:?
         end.

Lemma delete_program_student_run_returns (program : string) (id : Z)
  (file : Database.t) :
  recalculation_returns engine file = true ->
  delete_program_student_run engine now write_ok program id file
  = Some (delete_program_student (builtins engine) now write_ok program id file).
Proof.
  intros Hf. unfold delete_program_student_run, delete_program_student.
  cbv zeta. run_cases.
  unfold recalculation_returns in *. simpl Database.sponsorship_programs.
  match goal with H : Database.sponsorship_programs file = Some _ |- _ =>
    rewrite H in Hf end.
  apply calculations_return_assign; [assumption|]. simpl Program.students.
  match goal with H : remove_student _ _ = Some _ |- _ =>
    unfold remove_student in H;
    destruct (findIndex _ _); [injection H as <-|discriminate] end.
  rewrite forallb_reassign_serial_numbers. apply forallb_splice1.
  eapply calculations_return_lookup; eassumption.
Qed.

Lemma registry_edit_returns (file : Database.t)
  (registries : list (string * Registry.t)) :
  recalculation_returns engine file = true ->
  recalculation_returns engine (set_registries file registries) = true.
Proof. intros H. exact H. Qed.

Lemma expenses_edit_returns (file : Database.t) (expenses : list Expense.t) :
  recalculation_returns engine file = true ->
  recalculation_returns engine (set_daily_expenses file expenses) = true.
Proof. intros H. exact H. Qed.

Lemma post_registry_student_run_returns (program : string)
  (body : SponsorRequest.t) (file : Database.t) :
  recalculation_returns engine file = true ->
  post_registry_student_run engine now write_ok program body file
  = Some (post_registry_student (builtins engine) now write_ok program body file).
Proof.
  intros Hf. unfold post_registry_student_run, post_registry_student.
  cbv zeta. run_cases; now apply registry_edit_returns.
Qed.

Lemma put_registry_student_run_returns (program : string) (id : Z)
  (body : SponsorUpdate.t) (file : Database.t) :
  recalculation_returns engine file = true ->
  put_registry_student_run engine now write_ok program id body file
  = Some (put_registry_student (builtins engine) now write_ok program id body file).
Proof.
  intros Hf. unfold put_registry_student_run, put_registry_student.
  cbv zeta. run_cases; now apply registry_edit_returns.
Qed.

Lemma delete_registry_student_run_returns (program : string) (id : Z)
  (file : Database.t) :
  recalculation_returns engine file = true ->
  delete_registry_student_run engine now write_ok program id file
  = Some (delete_registry_student (builtins engine) now write_ok program id file).
Proof.
  intros Hf. unfold delete_registry_student_run, delete_registry_student.
  cbv zeta. run_cases; now apply registry_edit_returns.
Qed.

Lemma post_expense_run_returns (body : ExpenseRequest.t) (file : Database.t) :
  recalculation_returns engine file = true ->
  post_expense_run engine now write_ok body file
  = Some (post_expense (builtins engine) now write_ok body file).
Proof.
  intros Hf. unfold post_expense_run, post_expense.
  cbv zeta. run_cases; now apply expenses_edit_returns.
Qed.

Lemma put_expense_run_returns (id : Z) (body : ExpenseUpdate.t)
  (file : Database.t) :
  recalculation_returns engine file = true ->
  put_expense_run engine now write_ok id body file
  = Some (put_expense (builtins engine) now write_ok id body file).
Proof.
  intros Hf. unfold put_expense_run, put_expense.
  cbv zeta. run_cases; now apply expenses_edit_returns.
Qed.

Lemma delete_expense_run_returns (id : Z) (file : Database.t) :
  recalculation_returns engine file = true ->
  delete_expense_run engine now write_ok id file
  = Some (delete_expense (builtins engine) now write_ok id file).
Proof.
  intros Hf. unfold delete_expense_run, delete_expense.
  cbv zeta. run_cases; now apply expenses_edit_returns.
Qed.

Lemma calculations_return_assign_list (file : Database.t)
  (programs : list (string * Program.t)) (k : string) (name : jsval)
  (l : list Student.t) (metadata : option Program.metadata_t) :
  calculations_return engine programs = true ->
  forallb (calculation_returns engine) l = true ->
  recalculation_returns engine
    (set_programs file (assign programs k (Program.make name (Some l) metadata)))
  = true.
Proof.
  intros Hp Hl. unfold recalculation_returns. simpl Database.sponsorship_programs.
  now apply calculations_return_assign.
Qed.

Lemma post_program_student_run_returns (program : string)
  (body : StudentRequest.t) (file : Database.t) (financials : obj) :
  recalculation_returns engine file = true ->
  calculateStudentFinancials_run engine (list_of (StudentRequest.financial_data body))
  = Some financials ->
  post_program_student_run engine now write_ok program body file
  = Some (post_program_student (builtins engine) now write_ok program body file).
Proof.
  intros Hf Hrun. unfold post_program_student_run, post_program_student.
  cbv zeta. unfold list_of in Hrun.
  unfold recalculation_returns in Hf.
  destruct (Database.sponsorship_programs file) as [programs|]; [|reflexivity].
  destruct (lookup programs program) as [p|] eqn:El; [|reflexivity].
  match goal with
  | |- match ?c with _ => _ end = _ => destruct c as [serial|]; [|reflexivity]
  end.
  match goal with
  | |- match ?c with _ => _ end = _ =>
      replace c with (Some financials) by (symmetry; exact Hrun)
  end.
  apply calculateStudentFinancials_run_returns in Hrun. rewrite Hrun.
  destruct (Program.students p) as [l|] eqn:Es; [|reflexivity].
  apply save_and_reply_run_returns.
  apply calculations_return_assign_list; [assumption|].
  rewrite forallb_app. simpl forallb.
  rewrite (calculations_return_lookup _ _ Hf El Es).
  now rewrite calculation_returns_calculated.
Qed.

Lemma calculation_returns_assign_student (s : Student.t)
  (serial : option Z) (name package notes : option jsval) (fd : option obj) :
  calculation_returns engine s = true ->
  calculation_returns engine
    (assign_student s
       (StudentUpdate.make serial name package
          (option_map (calculateStudentFinancials (builtins engine)) fd) notes))
  = true.
Proof.
  intros Hs. destruct fd as [fd|].
  - apply calculation_returns_calculated.
  - exact Hs.
Qed.

Lemma put_program_student_run_returns (program : string) (id : Z)
  (body : StudentUpdate.t) (file : Database.t) :
  recalculation_returns engine file = true ->
  (forall fd, StudentUpdate.financial_data body = Some fd ->
              calculateStudentFinancials_run engine fd <> None) ->
  put_program_student_run engine now write_ok program id body file
  = Some (put_program_student (builtins engine) now write_ok program id body file).
Proof.
  intros Hf Hrun. unfold put_program_student_run, put_program_student.
  cbv zeta. unfold recalculation_returns in Hf.
  destruct (Database.sponsorship_programs file) as [programs|]; [|reflexivity].
  destruct (lookup programs program) as [p|] eqn:El; [|reflexivity].
  destruct (Program.students p) as [l|] eqn:Es; [|reflexivity].
  destruct (findIndex _ l) as [i|]; [|reflexivity].
  assert (Hc : match StudentUpdate.financial_data body with
               | Some fd =>
                   option_map Some (calculateStudentFinancials_run engine fd)
               | None => Some None
               end
               = Some (option_map (calculateStudentFinancials (builtins engine))
                         (StudentUpdate.financial_data body))).
  { destruct (StudentUpdate.financial_data body) as [fd|]; [|reflexivity].
    specialize (Hrun fd eq_refl).
    destruct (calculateStudentFinancials_run engine fd) as [r|] eqn:E;
      [|contradiction].
    simpl. now rewrite (calculateStudentFinancials_run_returns _ _ E). }
  rewrite Hc.
  apply save_and_reply_run_returns.
  apply calculations_return_assign_list; [assumption|].
  apply forallb_update_at.
  - eapply calculations_return_lookup; eassumption.
  - intros s Hs. now apply calculation_returns_assign_student.
Qed.

Lemma post_program_run_returns (program : string) (body : ProgramUpdate.t)
  (file : Database.t) :
  recalculation_returns engine file = true ->
  (forall students, ProgramUpdate.students body = Some students ->
                    forallb (calculation_returns engine) students = true) ->
  post_program_run engine now write_ok program body file
  = Some (post_program (builtins engine) now write_ok program body file).
Proof.
  intros Hf Hrun. unfold post_program_run, post_program.
  cbv zeta. unfold recalculation_returns in Hf.
  destruct (Database.sponsorship_programs file) as [programs|]; [|reflexivity].
  set (created := Program.make _ (Some []) _).
  set (programs' := match lookup programs program with
                    | Some _ => programs
                    | None => assign programs program created
                    end).
  assert (Hc : calculations_return engine programs' = true).
  { subst programs'. destruct (lookup programs program); [assumption|].
    now apply calculations_return_assign. }
  clearbody programs'.
  destruct (lookup programs' program) as [p|] eqn:El; [|reflexivity].
  apply save_and_reply_run_returns.
  unfold recalculation_returns. simpl Database.sponsorship_programs.
  apply calculations_return_assign; [assumption|].
  unfold assign_program. simpl Program.students.
  destruct (ProgramUpdate.students body) as [students|] eqn:Eb; simpl.
  - now apply Hrun.
  - destruct (Program.students p) as [l|] eqn:Es; [|reflexivity].
    eapply calculations_return_lookup; eassumption.
Qed.

End RouteRunFacts.

Section RouteResults.

Variable rt : JSRuntime.
Variable now : jsval.
Variable write_ok : bool.

Lemma save_and_reply_persisted (data file : Database.t) :
  persisted rt now file (save_and_reply rt now write_ok data file).
Proof.
  unfold persisted, save_and_reply, saveDatabase.
  destruct (recalculateAllMetadata rt (set_last_updated data now))
    as [data'|data'] eqn:E; [|right; now split].
  destruct write_ok; [left|right; now split].
  simpl. split; [reflexivity|]. split.
  - eapply recalculateAllMetadata_fixed. exact E.
  - apply recalculateAllMetadata_returns in E.
    destruct E as (programs & registries & metadata & _ & _ & _ & ->).
    reflexivity.
Qed.

Lemma unchanged_persisted (r : reply) (file : Database.t) :
  success r = false -> persisted rt now file (r, file).
Proof. intros H. right. now split. Qed.

Ltac persisted_cases :=
  repeat match goal with
         | |- persisted _ _ _ (save_and_reply _ _ _ _ _) =>
             apply save_and_reply_persisted
         | |- persisted _ _ _ (_, _) => now apply unchanged_persisted
         | |- persisted _ _ _ (match ?x with _ => _ end) => destruct x
         | |- persisted _ _ _ (if ?x then _ else _) => destruct x
         end.

(** On the runtime, whatever the request and the dataset. *)
Lemma routes_written_persisted (file : Database.t) :
  (forall program id,
      persisted rt now file
        (delete_program_student rt now write_ok program id file))
  /\ (forall program body,
        persisted rt now file
          (post_registry_student rt now write_ok program body file))
  /\ (forall program id body,
        persisted rt now file
          (put_registry_student rt now write_ok program id body file))
  /\ (forall program id,
        persisted rt now file
          (delete_registry_student rt now write_ok program id file))
  /\ (forall body, persisted rt now file (post_expense rt now write_ok body file))
  /\ (forall id body,
        persisted rt now file (put_expense rt now write_ok id body file))
  /\ (forall id, persisted rt now file (delete_expense rt now write_ok id file)).
Proof.
  repeat split; intros.
  - unfold delete_program_student, remove_student. persisted_cases.
  - unfold post_registry_student. persisted_cases.
  - unfold put_registry_student. persisted_cases.
  - unfold delete_registry_student, remove_sponsor. persisted_cases.
  - unfold post_expense. persisted_cases.
  - unfold put_expense. persisted_cases.
  - unfold delete_expense, remove_expense. persisted_cases.
Qed.

End RouteResults.


Lemma reassign_serial_numbers_dense (l : list Student.t) (i : Z) :
  map Student.serial_number l = count_from i (List.length l) ->
  reassign_serial_numbers i l = l.
Proof.
  revert i. induction l as [|s l IH]; simpl; intros i H; auto.
  injection H as Hs Hl. rewrite (IH _ Hl). f_equal.
  destruct s. simpl in Hs. subst. reflexivity.
Qed.

Lemma reassign_cids_dense (l : list Sponsor.t) (i : Z) :
  map Sponsor.cid l = count_from i (List.length l) ->
  reassign_cids i l = l.
Proof.
  revert i. induction l as [|s l IH]; simpl; intros i H; auto.
  injection H as Hs Hl. rewrite (IH _ Hl). f_equal.
  destruct s. simpl in Hs. subst. reflexivity.
Qed.

Lemma findIndex_last {A : Type} (ident : A -> Z) (l : list A) (x : A) :
  (forall y, In y l -> ident y <> ident x) ->
  findIndex (fun y => (ident y =? ident x)%Z) (l ++ [x])
  = Some (List.length l).
Proof.
  intros H. apply findIndex_first.
  - apply Forall_forall. intros y Hy. apply Z.eqb_neq. now apply H.
  - apply Z.eqb_refl.
Qed.

(** X11: the edit of a delete route undoes the edit of the add route.
    When the serial numbers (CIDs) of a list are 1..N, removing the serial
    number (CID) N+1 from the list with a student (sponsor) of that number
    at its end gives back the list, renumbering included; and when the
    identifiers of an expense list are integers of magnitude below 2^53,
    removing the identifier that the add route generated for the expense
    it put at the end gives back the list.  From the identifier 2^53 on
    this fails: the generated identifier repeats the greatest one, and
    the delete removes the older expense. *)
Theorem delete_undoes_add :
  (forall (students : list Student.t) (stored : Student.t),
      map Student.serial_number students
      = count_from 0 (List.length students) ->
      Student.serial_number stored = (Z.of_nat (List.length students) + 1)%Z ->
      remove_student (Student.serial_number stored) (students ++ [stored])
      = Some students)
  /\ (forall (sponsors : list Sponsor.t) (stored : Sponsor.t),
        map Sponsor.cid sponsors = count_from 0 (List.length sponsors) ->
        Sponsor.cid stored = (Z.of_nat (List.length sponsors) + 1)%Z ->
        remove_sponsor (Sponsor.cid stored) (sponsors ++ [stored])
        = Some sponsors)
  /\ (forall (expenses : list Expense.t) (body : ExpenseRequest.t),
        sends_no_id (AddExpense body) = true ->
        ids_below (2 ^ 53) expenses ->
        remove_expense (generated_expense_id expenses)
                       (push_expense body expenses)
        = Some expenses)
  /\ (generated_expense_id [expense_of_id (2 ^ 53)] = (2 ^ 53)%Z
      /\ remove_expense (2 ^ 53)
           (push_expense (expense_request None) [expense_of_id (2 ^ 53)])
         = Some [Expense.make (2 ^ 53) VUndef VUndef VUndef VUndef VUndef
                   (VStr "UGX")]).
Proof.
  split; [|split; [|split]].
  - intros students stored Hd Hs. unfold remove_student.
    rewrite (findIndex_last Student.serial_number).
    + rewrite splice1_middle, app_nil_r.
      now rewrite reassign_serial_numbers_dense.
    + intros y Hy Heq. apply (in_map Student.serial_number) in Hy.
      rewrite Hd in Hy. apply count_from_bounds in Hy. lia.
  - intros sponsors stored Hd Hs. unfold remove_sponsor.
    rewrite (findIndex_last Sponsor.cid).
    + rewrite splice1_middle, app_nil_r.
      now rewrite reassign_cids_dense.
    + intros y Hy Heq. apply (in_map Sponsor.cid) in Hy.
      rewrite Hd in Hy. apply count_from_bounds in Hy. lia.
  - intros expenses body Hs Hl. unfold remove_expense, push_expense.
    assert (Hid : match ExpenseRequest.id body with
                  | Some n =>
                      if (n =? 0)%Z then generated_expense_id expenses else n
                  | None => generated_expense_id expenses
                  end = generated_expense_id expenses).
    { simpl in Hs. destruct (ExpenseRequest.id body) as [n|]; auto.
      now rewrite Hs. }
    rewrite Hid.
    set (stored := Expense.make (generated_expense_id expenses) _ _ _ _ _ _).
    change (generated_expense_id expenses) with (Expense.id stored) at 1.
    rewrite (findIndex_last Expense.id).
    + now rewrite splice1_middle, app_nil_r.
    + intros y Hy Heq.
      pose proof (@generated_expense_id_fresh expenses y Hl Hy).
      unfold stored in Heq. simpl in Heq. lia.
  - split; vm_compute; reflexivity.
Qed.

Lemma lookup_assign_other {A : Type} (o : list (string * A)) (k k' : string)
  (a : A) :
  k <> k' -> lookup (assign o k a) k' = lookup o k'.
Proof.
  intros Hne. induction o as [|[k0 a0] o IH]; simpl.
  - destruct (String.eqb_spec k k'); congruence.
  - destruct (String.eqb_spec k0 k) as [->|Hk]; simpl.
    + destruct (String.eqb_spec k k'); congruence.
    + now rewrite IH.
Qed.

Section RouteEdits.

Variable rt : JSRuntime.
Variable now : jsval.

Lemma recalculate_program_students (p : Program.t) :
  Program.students (fst (recalculate_program rt p))
  = option_map (map (update_student rt)) (Program.students p).
Proof.
  unfold recalculate_program.
  destruct (Program.students p) as [l|] eqn:E; simpl; auto.
Qed.

Lemma recalculate_registry_students (r : Registry.t) :
  Registry.students (fst (recalculate_registry rt r)) = Registry.students r.
Proof.
  unfold recalculate_registry.
  destruct (Registry.students r) as [l|] eqn:E; simpl; auto.
Qed.

(** What a save writes when the dataset has its three sections and the
    write succeeds. *)
Lemma save_and_reply_writes (data file : Database.t)
  (programs : list (string * Program.t))
  (registries : list (string * Registry.t)) (metadata : Database.metadata_t) :
  Database.sponsorship_programs data = Some programs ->
  Database.sponsorship_registry data = Some registries ->
  Database.metadata data = Some metadata ->
  exists db',
    save_and_reply rt now true data file = (ok, db')
    /\ Database.sponsorship_programs db'
       = Some (map_entries (fun p => fst (recalculate_program rt p)) programs)
    /\ Database.sponsorship_registry db'
       = Some (map_entries (fun r => fst (recalculate_registry rt r)) registries)
    /\ Database.daily_expenses db' = Database.daily_expenses data
    /\ (exists metadata', Database.metadata db' = Some metadata')
    /\ Database.last_updated db' = now.
Proof.
  intros Hp Hr Hm.
  unfold save_and_reply, saveDatabase, recalculateAllMetadata. simpl.
  rewrite Hp. simpl. rewrite Hr. simpl. rewrite Hm. simpl.
  eexists. split; [reflexivity|]. simpl. repeat split. eexists. reflexivity.
Qed.

Lemma program_students_written (db : Database.t)
  (programs : list (string * Program.t)) (program : string) (p : Program.t) :
  Database.sponsorship_programs db
  = Some (map_entries (fun p => fst (recalculate_program rt p))
            (assign programs program p)) ->
  program_students db program
  = map (update_student rt) (list_of (Program.students p)).
Proof.
  intros H. unfold program_students. rewrite H.
  rewrite lookup_map_entries, lookup_assign. simpl.
  rewrite recalculate_program_students.
  destruct (Program.students p); reflexivity.
Qed.

Lemma registry_sponsors_written (db : Database.t)
  (registries : list (string * Registry.t)) (program : string) (r : Registry.t) :
  Database.sponsorship_registry db
  = Some (map_entries (fun r => fst (recalculate_registry rt r))
            (assign registries program r)) ->
  registry_sponsors db program = list_of (Registry.students r).
Proof.
  intros H. unfold registry_sponsors. rewrite H.
  rewrite lookup_map_entries, lookup_assign. simpl.
  rewrite recalculate_registry_students.
  destruct (Registry.students r); reflexivity.
Qed.

Lemma update_student_calculated (serial : Z) (name package notes : jsval)
  (fd : obj) :
  update_student rt
    (Student.make serial name package
       (Some (calculateStudentFinancials rt fd)) notes)
  = Student.make serial name package
      (Some (calculateStudentFinancials rt fd)) notes.
Proof.
  rewrite update_student_stores. unfold Student.set_financial_data. simpl.
  unfold financial_data_or_empty. simpl. now rewrite calculate_fixed.
Qed.

(** X10: a request that addresses a record that is not there is answered
    with 404 and leaves the file as it was: updating or deleting a student
    (sponsor) when the program (registry) is missing or none of its
    students (sponsors) carries the identifier, updating or deleting an
    expense when the dataset has no expense list or no expense carries the
    identifier, and adding a student to a program that is missing.  A
    missing program is one that the dataset does not hold and whose name
    is not the name of a member of [Object.prototype] (for such a name
    the guard [!programs[program]] finds the inherited member, and the
    route goes on and throws). *)
Theorem routes_not_found (write_ok : bool) (file : Database.t) :
  (forall program k body programs,
      Database.sponsorship_programs file = Some programs ->
      ((lookup programs program = None /\ inherited program = false)
       \/ exists p l,
            lookup programs program = Some p
            /\ Program.students p = Some l
            /\ Forall (fun s => Student.serial_number s <> k) l) ->
      put_program_student rt now write_ok program k body file = (not_found, file)
      /\ delete_program_student rt now write_ok program k file
         = (not_found, file))
  /\ (forall program k body registries,
        Database.sponsorship_registry file = Some registries ->
        ((lookup registries program = None /\ inherited program = false)
         \/ exists r l,
              lookup registries program = Some r
              /\ Registry.students r = Some l
              /\ Forall (fun s => Sponsor.cid s <> k) l) ->
        put_registry_student rt now write_ok program k body file
        = (not_found, file)
        /\ delete_registry_student rt now write_ok program k file
           = (not_found, file))
  /\ (forall k body,
        (Database.daily_expenses file = None
         \/ exists l,
              Database.daily_expenses file = Some l
              /\ Forall (fun e => Expense.id e <> k) l) ->
        put_expense rt now write_ok k body file = (not_found, file)
        /\ delete_expense rt now write_ok k file = (not_found, file))
  /\ (forall program body programs,
        Database.sponsorship_programs file = Some programs ->
        lookup programs program = None ->
        inherited program = false ->
        post_program_student rt now write_ok program body file
        = (not_found, file)).
Proof.
  split; [|split; [|split]].
  - intros program k body programs Hp [[Hl _]|(p & l & Hl & Hs & Hall)];
      unfold put_program_student, delete_program_student, remove_student;
      rewrite Hp, Hl; [now split|]. rewrite Hs.
    rewrite (findIndex_none (fun s => (Student.serial_number s =? k)%Z) (l := l)).
    + now split.
    + eapply Forall_impl; [|exact Hall]. intros s Hs'. now apply Z.eqb_neq.
  - intros program k body registries Hr [[Hl _]|(r & l & Hl & Hs & Hall)];
      unfold put_registry_student, delete_registry_student, remove_sponsor;
      rewrite Hr, Hl; [now split|]. rewrite Hs.
    rewrite (findIndex_none (fun s => (Sponsor.cid s =? k)%Z) (l := l)).
    + now split.
    + eapply Forall_impl; [|exact Hall]. intros s Hs'. now apply Z.eqb_neq.
  - intros k body [He|(l & He & Hall)];
      unfold put_expense, delete_expense, remove_expense;
      rewrite He; [now split|].
    rewrite (findIndex_none (fun e => (Expense.id e =? k)%Z) (l := l)).
    + now split.
    + eapply Forall_impl; [|exact Hall]. intros s Hs'. now apply Z.eqb_neq.
  - intros program body programs Hp Hl _.
    unfold post_program_student. now rewrite Hp, Hl.
Qed.

(** X12: a request that adds a sponsor without a CID, naming a student
    of the program, is answered with 200 when the write succeeds and the
    dataset has its sections: the registry's list (empty when the registry
    did not exist) gains one sponsor at its end, with CID one more than
    the previous length, the properties as sent, status ['active'] and
    category ['Individual'] where the request leaves them unset; CIDs that
    were 1..N are 1..N+1 afterwards. *)
Theorem post_registry_student_accepts (program : string)
  (sponsorData : SponsorRequest.t) (file : Database.t)
  (programs : list (string * Program.t))
  (registries : list (string * Registry.t)) (metadata : Database.metadata_t) :
  Database.sponsorship_programs file = Some programs ->
  Database.sponsorship_registry file = Some registries ->
  Database.metadata file = Some metadata ->
  (forall r, lookup registries program = Some r -> Registry.students r <> None) ->
  SponsorRequest.cid sponsorData = None ->
  studentExists programs program (SponsorRequest.full_name sponsorData) = true ->
  let result := post_registry_student rt now true program sponsorData file in
  let sponsors := registry_sponsors file program in
  let stored :=
    Sponsor.make (Z.of_nat (List.length sponsors) + 1)
      (SponsorRequest.full_name sponsorData)
      (SponsorRequest.sponsor sponsorData)
      (SponsorRequest.amount sponsorData)
      (js_or (SponsorRequest.sponsorship_status sponsorData) (VStr "active"))
      (js_or (SponsorRequest.category sponsorData) (VStr "Individual"))
      (SponsorRequest.start_date sponsorData)
      (SponsorRequest.notes sponsorData) in
  fst result = ok
  /\ registry_sponsors (snd result) program = (sponsors ++ [stored])%list
  /\ (map Sponsor.cid sponsors = count_from 0 (List.length sponsors) ->
      map Sponsor.cid (registry_sponsors (snd result) program)
      = count_from 0 (List.length sponsors + 1)).
Proof.
  intros Hp Hr Hm Hlist Hcid Hex result sponsors stored.
  assert (H : fst result = ok
              /\ registry_sponsors (snd result) program
                 = (sponsors ++ [stored])%list).
  { subst result sponsors stored.
    unfold post_registry_student, registry_sponsors at 2 3. rewrite Hr.
    destruct (lookup registries program) as [r|] eqn:El.
    - rewrite El. destruct (Registry.students r) as [l|] eqn:Es;
        [|now destruct (Hlist r eq_refl)].
      rewrite Hcid, Hp, Hex. simpl negb. cbv iota.
      destruct (save_and_reply_writes
                  (set_registries file
                     (assign registries program
                        (Registry.make
                           (Some (l ++ [Sponsor.make
                                          (Z.of_nat (List.length l) + 1)
                                          (SponsorRequest.full_name sponsorData)
                                          (SponsorRequest.sponsor sponsorData)
                                          (SponsorRequest.amount sponsorData)
                                          (js_or (SponsorRequest.sponsorship_status sponsorData) (VStr "active"))
                                          (js_or (SponsorRequest.category sponsorData) (VStr "Individual"))
                                          (SponsorRequest.start_date sponsorData)
                                          (SponsorRequest.notes sponsorData)])%list)
                           (Registry.metadata r))))
                  file Hp eq_refl Hm)
        as (db' & Hsave & _ & Hregs & _).
      unfold js_or in Hsave. rewrite Hsave. simpl fst. simpl snd.
      split; [reflexivity|].
      now rewrite (registry_sponsors_written db' _ _ _ Hregs).
    - rewrite lookup_assign. simpl Registry.students.
      rewrite Hcid, Hp, Hex. simpl negb. cbv iota.
      destruct (save_and_reply_writes
                  (set_registries file
                     (assign (assign registries program (empty_registry))
                        program
                        (Registry.make
                           (Some ([] ++ [Sponsor.make
                                          (Z.of_nat (@List.length Sponsor.t []) + 1)
                                          (SponsorRequest.full_name sponsorData)
                                          (SponsorRequest.sponsor sponsorData)
                                          (SponsorRequest.amount sponsorData)
                                          (js_or (SponsorRequest.sponsorship_status sponsorData) (VStr "active"))
                                          (js_or (SponsorRequest.category sponsorData) (VStr "Individual"))
                                          (SponsorRequest.start_date sponsorData)
                                          (SponsorRequest.notes sponsorData)])%list)
                           (Registry.metadata empty_registry))))
                  file Hp eq_refl Hm)
        as (db' & Hsave & _ & Hregs & _).
      unfold js_or in Hsave. rewrite Hsave. simpl fst. simpl snd.
      split; [reflexivity|].
      now rewrite (registry_sponsors_written db' _ _ _ Hregs). }
  destruct H as [Hok Hw]. split; [exact Hok|]. split; [exact Hw|].
  intros Hd. rewrite Hw, map_app, Hd, count_from_app. reflexivity.
Qed.

End RouteEdits.
Section StudentRoutes.

Variable rt : JSRuntime.
Variable now : jsval.

(** The list that the add-student route writes, on a run in which the
    calculation of the record sent returns. *)
Lemma post_program_student_written (program : string)
  (studentData : StudentRequest.t) (file : Database.t)
  (programs : list (string * Program.t)) (p : Program.t)
  (students : list Student.t)
  (registries : list (string * Registry.t)) (metadata : Database.metadata_t) :
  Database.sponsorship_programs file = Some programs ->
  lookup programs program = Some p ->
  Program.students p = Some students ->
  Database.sponsorship_registry file = Some registries ->
  Database.metadata file = Some metadata ->
  StudentRequest.serial_number studentData = None ->
  let result := post_program_student rt now true program studentData file in
  let stored :=
    Student.make (Z.of_nat (List.length students) + 1)
      (StudentRequest.full_name studentData)
      (StudentRequest.sponsorship_package studentData)
      (Some (calculateStudentFinancials rt
               (list_of (StudentRequest.financial_data studentData))))
      (StudentRequest.notes studentData) in
  fst result = ok
  /\ program_students (snd result) program
     = (map (update_student rt) students ++ [stored])%list
  /\ (map Student.serial_number students
      = count_from 0 (List.length students) ->
      map Student.serial_number (program_students (snd result) program)
      = count_from 0 (List.length students + 1)).
Proof.
  intros Hp Hl Hs Hr Hm Hserial result stored.
  assert (H : fst result = ok
              /\ program_students (snd result) program
                 = (map (update_student rt) students ++ [stored])%list).
  { subst result stored. unfold post_program_student.
    rewrite Hp, Hl, Hs, Hserial.
    cbv beta iota zeta.
    match goal with
    | |- context [save_and_reply rt now true ?d file] =>
        destruct (save_and_reply_writes rt now d file eq_refl Hr Hm)
          as (db' & Hsave & Hprogs & _)
    end.
    rewrite Hsave. simpl fst. simpl snd.
    split; [reflexivity|].
    rewrite (program_students_written rt db' _ _ _ Hprogs). simpl list_of.
    rewrite map_app. simpl map. now rewrite update_student_calculated. }
  destruct H as [Hok Hw]. split; [exact Hok|]. split; [exact Hw|].
  intros Hd. rewrite Hw, map_app, update_student_serials, Hd, count_from_app.
  reflexivity.
Qed.

(** The list that the update-student route writes, on a run in which
    the calculation of the record sent returns. *)
Lemma put_program_student_written (program : string) (k : Z)
  (updates : StudentUpdate.t) (file : Database.t)
  (programs : list (string * Program.t)) (p : Program.t)
  (before after : list Student.t) (s : Student.t)
  (registries : list (string * Registry.t)) (metadata : Database.metadata_t) :
  Database.sponsorship_programs file = Some programs ->
  lookup programs program = Some p ->
  Program.students p = Some (before ++ s :: after)%list ->
  Forall (fun x => Student.serial_number x <> k) before ->
  Student.serial_number s = k ->
  Database.sponsorship_registry file = Some registries ->
  Database.metadata file = Some metadata ->
  let result := put_program_student rt now true program k updates file in
  let updated :=
    Student.make
      (assigned (StudentUpdate.serial_number updates) (Student.serial_number s))
      (assigned (StudentUpdate.full_name updates) (Student.full_name s))
      (assigned (StudentUpdate.sponsorship_package updates)
                (Student.sponsorship_package s))
      (Some (calculateStudentFinancials rt
               (assigned (StudentUpdate.financial_data updates)
                         (financial_data_or_empty s))))
      (assigned (StudentUpdate.notes updates) (Student.notes s)) in
  fst result = ok
  /\ program_students (snd result) program
     = (map (update_student rt) before ++ updated
        :: map (update_student rt) after)%list.
Proof.
  intros Hp Hl Hs Hb Hk Hr Hm result updated. subst result updated.
  unfold put_program_student. rewrite Hp, Hl, Hs.
  rewrite (findIndex_first (fun x => (Student.serial_number x =? k)%Z));
    [| eapply Forall_impl; [|exact Hb]; intros x Hx; now apply Z.eqb_neq
     | now apply Z.eqb_eq ].
  rewrite update_at_middle.
  set (s' := assign_student s _).
  destruct (save_and_reply_writes rt now
              (set_programs file
                 (assign programs program
                    (Program.make (Program.program_name p)
                       (Some (before ++ s' :: after)%list)
                       (Program.metadata p))))
              file eq_refl Hr Hm)
    as (db' & Hsave & Hprogs & _).
  rewrite Hsave. simpl fst. simpl snd. split; [reflexivity|].
  rewrite (program_students_written rt db' _ _ _ Hprogs). simpl list_of.
  rewrite map_app. simpl map. f_equal. f_equal.
  unfold s'. rewrite update_student_stores.
  unfold assign_student, Student.set_financial_data. simpl.
  f_equal. f_equal. unfold financial_data_or_empty. simpl.
  destruct (StudentUpdate.financial_data updates) as [fd|]; simpl.
  - apply calculate_fixed.
  - reflexivity.
Qed.

End StudentRoutes.

Lemma JSON_record_exact (o : obj) :
  JSON_exact_record o = true -> JSON_record o = o.
Proof.
  unfold JSON_exact_record, JSON_record.
  induction o as [|[k v] o IH]; simpl; intros H; [reflexivity|].
  apply andb_true_iff in H. destruct H as [Hv Ho].
  destruct v as [| |x|t]; try discriminate.
  simpl. rewrite (IH Ho). unfold JSON_exact in Hv.
  apply andb_true_iff in Hv. destruct Hv as [Hf Hz].
  rewrite Hf. apply negb_true_iff in Hz. now rewrite Hz.
Qed.


Section SponsorUpdates.

Variable rt : JSRuntime.
Variable now : jsval.

Lemma existsb_none {A : Type} (p : A -> bool) (l : list A) :
  Forall (fun x => p x = false) l -> existsb p l = false.
Proof. induction 1 as [|x l Hx Hl IH]; simpl; auto. now rewrite Hx, IH. Qed.

(** X15: a request that updates a sponsor with a [full_name] that is
    truthy and strictly equal to the name of no student of the program is
    answered with a failure and leaves the file as it was; the answer is
    400 when the sponsor addressed is there and the dataset holds
    programs. *)
Theorem put_registry_student_rejects (write_ok : bool) (program : string)
  (sponsorId : Z) (updates : SponsorUpdate.t) (file : Database.t)
  (name : jsval) :
  SponsorUpdate.full_name updates = Some name ->
  truthy name = true ->
  Forall (fun student => strict_eq (Student.full_name student) name = false)
         (program_students file program) ->
  let result :=
    put_registry_student rt now write_ok program sponsorId updates file in
  success (fst result) = false
  /\ snd result = file
  /\ (forall registries r sponsors index,
        Database.sponsorship_registry file = Some registries ->
        lookup registries program = Some r ->
        Registry.students r = Some sponsors ->
        findIndex (fun s => (Sponsor.cid s =? sponsorId)%Z) sponsors
        = Some index ->
        Database.sponsorship_programs file <> None ->
        fst result = bad_request).
Proof.
  intros Hname Ht Hnone result. subst result.
  unfold put_registry_student. rewrite Hname, Ht.
  destruct (Database.sponsorship_registry file) as [registries|] eqn:Er;
    [|repeat split; intros; congruence].
  destruct (lookup registries program) as [r|] eqn:El;
    [|repeat split; intros; congruence].
  destruct (Registry.students r) as [sponsors|] eqn:Es;
    [|repeat split; intros; congruence].
  destruct (findIndex (fun s => (Sponsor.cid s =? sponsorId)%Z) sponsors)
    as [index|] eqn:Ef; [|repeat split; intros; congruence].
  destruct (Database.sponsorship_programs file) as [programs|] eqn:Ep.
  - rewrite (studentExists_program_students file program name Ep).
    rewrite (existsb_none _ Hnone). simpl. repeat split.
  - repeat split. intros. congruence.
Qed.

(** X16: a request that updates a sponsor whose [full_name] is absent
    from the body or falsy ([null], the empty string) is not checked
    against the program's students, like one whose name is a student's:
    when the sponsor is there, the write succeeds and the dataset has its
    sections, the answer is 200 and the first sponsor carrying the CID
    takes every property of the body, the CID included; the other sponsors
    and the order of the list stay. *)
Theorem put_registry_student_updates (program : string) (k : Z)
  (updates : SponsorUpdate.t) (file : Database.t)
  (registries : list (string * Registry.t)) (r : Registry.t)
  (before after : list Sponsor.t) (s : Sponsor.t)
  (programs : list (string * Program.t)) (metadata : Database.metadata_t) :
  Database.sponsorship_registry file = Some registries ->
  lookup registries program = Some r ->
  Registry.students r = Some (before ++ s :: after)%list ->
  Forall (fun x => Sponsor.cid x <> k) before ->
  Sponsor.cid s = k ->
  Database.sponsorship_programs file = Some programs ->
  Database.metadata file = Some metadata ->
  truthy (assigned (SponsorUpdate.full_name updates) VUndef) = false
  \/ studentExists programs program
       (assigned (SponsorUpdate.full_name updates) VUndef) = true ->
  let result := put_registry_student rt now true program k updates file in
  fst result = ok
  /\ registry_sponsors (snd result) program
     = (before ++ assign_sponsor s updates :: after)%list.
Proof.
  intros Hr Hl Hs Hb Hk Hp Hm Hname result. subst result.
  unfold put_registry_student. rewrite Hr, Hl, Hs.
  rewrite (findIndex_first (fun x => (Sponsor.cid x =? k)%Z));
    [| eapply Forall_impl; [|exact Hb]; intros x Hx; now apply Z.eqb_neq
     | now apply Z.eqb_eq ].
  rewrite update_at_middle. cbv zeta. rewrite Hp.
  assert (Hsave :
            fst (save_and_reply rt now true
                   (set_registries file
                      (assign registries program
                         (Registry.make
                            (Some (before ++ assign_sponsor s updates :: after)%list)
                            (Registry.metadata r)))) file) = ok
            /\ registry_sponsors
                 (snd (save_and_reply rt now true
                         (set_registries file
                            (assign registries program
                               (Registry.make
                                  (Some (before ++ assign_sponsor s updates
                                         :: after)%list)
                                  (Registry.metadata r)))) file)) program
               = (before ++ assign_sponsor s updates :: after)%list).
  { destruct (save_and_reply_writes rt now
                (set_registries file
                   (assign registries program
                      (Registry.make
                         (Some (before ++ assign_sponsor s updates :: after)%list)
                         (Registry.metadata r))))
                file Hp eq_refl Hm)
      as (db' & Hsave & _ & Hregs & _).
    rewrite Hsave. simpl fst. simpl snd. split; [reflexivity|].
    now rewrite (registry_sponsors_written rt db' _ _ _ Hregs). }
  unfold assigned in Hname.
  destruct (truthy match SponsorUpdate.full_name updates with
                   | Some name => name
                   | None => VUndef
                   end) eqn:Et; [|exact Hsave].
  destruct Hname as [Hname|Hname]; [discriminate|].
  rewrite Hname. exact Hsave.
Qed.

(** The lists that the create-or-update-program route writes, on a run
    in which the calculations of the students sent return. *)
Lemma post_program_written (program : string) (body : ProgramUpdate.t)
  (file : Database.t) (programs : list (string * Program.t))
  (registries : list (string * Registry.t)) (metadata : Database.metadata_t) :
  Database.sponsorship_programs file = Some programs ->
  Database.sponsorship_registry file = Some registries ->
  Database.metadata file = Some metadata ->
  let result := post_program rt now true program body file in
  fst result = ok
  /\ (exists programs' p,
        Database.sponsorship_programs (snd result) = Some programs'
        /\ lookup programs' program = Some p)
  /\ program_students (snd result) program
     = map (update_student rt)
         (assigned (ProgramUpdate.students body) (program_students file program))
  /\ (forall other, other <> program ->
        program_students (snd result) other
        = map (update_student rt) (program_students file other)).
Proof.
  intros Hp Hr Hm result. subst result.
  unfold post_program. rewrite Hp. cbv zeta.
  set (created := Program.make _ (Some []) _).
  assert (Hex : exists p0,
             lookup match lookup programs program with
                    | Some _ => programs
                    | None => assign programs program created
                    end program = Some p0
             /\ list_of (Program.students p0) = program_students file program
             /\ forall other, other <> program ->
                  lookup match lookup programs program with
                         | Some _ => programs
                         | None => assign programs program created
                         end other = lookup programs other).
  { unfold program_students. rewrite Hp.
    destruct (lookup programs program) as [p0|] eqn:El.
    - exists p0. rewrite El. repeat split.
    - exists created. rewrite lookup_assign. repeat split.
      intros other Hne. apply lookup_assign_other. congruence. }
  destruct Hex as (p0 & Hl0 & Hst0 & Hother). rewrite Hl0.
  match goal with
  | |- context [save_and_reply rt now true ?d file] =>
      destruct (save_and_reply_writes rt now d file eq_refl Hr Hm)
        as (db' & Hsave & Hprogs & _)
  end.
  rewrite Hsave. simpl fst. simpl snd.
  split; [reflexivity|]. split; [|split].
  - eexists. eexists. split; [exact Hprogs|].
    now rewrite lookup_map_entries, lookup_assign.
  - rewrite (program_students_written rt db' _ _ _ Hprogs).
    unfold assign_program. simpl. rewrite <- Hst0.
    destruct (ProgramUpdate.students body); reflexivity.
  - intros other Hne. unfold program_students at 1. rewrite Hprogs.
    rewrite lookup_map_entries, lookup_assign_other, Hother by congruence.
    unfold program_students. rewrite Hp.
    destruct (lookup programs other) as [q|]; simpl; auto.
    rewrite recalculate_program_students.
    destruct (Program.students q); reflexivity.
Qed.

End SponsorUpdates.

(** ** Reports *)

Section ReportResults.

Variable rt : JSRuntime.

Lemma funding_gaps_returns (programs : list (string * Program.t))
  (registries : list (string * Registry.t)) (keys : list string)
  (gaps : list ProgramGap.t) :
  exists gaps', funding_gaps rt programs (Some registries) keys gaps = Normal gaps'.
Proof.
  revert gaps. induction keys as [|k keys IH]; simpl; intros gaps; eauto.
  destruct (lookup programs k); apply IH.
Qed.

(** X18: which sections each report needs.  The sponsor statistics
    throw exactly when the dataset lacks [sponsorship_registry]; the
    financial summary exactly when it lacks [metadata] or
    [sponsorship_programs]; the funding gap exactly when it lacks
    [sponsorship_programs], or lacks [sponsorship_registry] while holding
    at least one program; the analytics exactly when it lacks
    [sponsorship_programs] or [sponsorship_registry]; the financial
    report exactly when it lacks one of the three.  So every report is
    produced from a dataset that a recalculation returned. *)
Theorem reports_throw (now : jsval) (db : Database.t) :
  (calculateSponsorStatistics rt db = TypeError
   <-> Database.sponsorship_registry db = None)
  /\ (calculateFinancialSummary rt db = TypeError
      <-> Database.metadata db = None \/ Database.sponsorship_programs db = None)
  /\ (calculateFundingGap rt db = TypeError
      <-> Database.sponsorship_programs db = None
          \/ (Database.sponsorship_registry db = None
              /\ Database.sponsorship_programs db <> Some []))
  /\ (calculateAnalytics rt db = TypeError
      <-> Database.sponsorship_programs db = None
          \/ Database.sponsorship_registry db = None)
  /\ (generateFinancialReport rt now db = TypeError
      <-> Database.metadata db = None
          \/ Database.sponsorship_programs db = None
          \/ Database.sponsorship_registry db = None)
  /\ (forall db0,
        recalculateAllMetadata rt db0 = Returns db ->
        exists report analytics,
          generateFinancialReport rt now db = Normal report
          /\ calculateAnalytics rt db = Normal analytics).
Proof.
  assert (Hgap : calculateFundingGap rt db = TypeError
                 <-> Database.sponsorship_programs db = None
                     \/ (Database.sponsorship_registry db = None
                         /\ Database.sponsorship_programs db <> Some [])).
  { unfold calculateFundingGap.
    destruct (Database.sponsorship_programs db) as [programs|];
      [|split; auto].
    destruct (Database.sponsorship_registry db) as [registries|].
    - destruct (funding_gaps_returns programs registries (map fst programs) [])
        as [gaps ->].
      split; [discriminate|]. intros [H|[H _]]; discriminate.
    - destruct programs as [|[k p] programs]; simpl.
      + split; [discriminate|]. intros [H|[_ H]]; [discriminate|congruence].
      + split; auto. intros _. right. split; [reflexivity|discriminate]. }
  assert (Hsum : calculateFinancialSummary rt db = TypeError
                 <-> Database.metadata db = None
                     \/ Database.sponsorship_programs db = None).
  { unfold calculateFinancialSummary.
    destruct (Database.metadata db) as [metadata|]; [|split; auto].
    destruct (Database.sponsorship_programs db) as [programs|]; [|split; auto].
    split; [discriminate|]. intros [H|H]; discriminate. }
  assert (Hstat : calculateSponsorStatistics rt db = TypeError
                  <-> Database.sponsorship_registry db = None).
  { unfold calculateSponsorStatistics.
    destruct (Database.sponsorship_registry db); split; auto; discriminate. }
  assert (Hana : calculateAnalytics rt db = TypeError
                 <-> Database.sponsorship_programs db = None
                     \/ Database.sponsorship_registry db = None).
  { unfold calculateAnalytics.
    destruct (Database.sponsorship_programs db) as [programs|]; [|split; auto].
    destruct (Database.sponsorship_registry db) as [registries|]; [|split; auto].
    split; [discriminate|]. intros [H|H]; discriminate. }
  assert (Hrep : generateFinancialReport rt now db = TypeError
                 <-> Database.metadata db = None
                     \/ Database.sponsorship_programs db = None
                     \/ Database.sponsorship_registry db = None).
  { unfold generateFinancialReport.
    destruct (calculateFinancialSummary rt db) as [s|] eqn:Es.
    - destruct (calculateFundingGap rt db) as [g|] eqn:Eg.
      + destruct (calculateSponsorStatistics rt db) as [t|] eqn:Et.
        * split; [discriminate|]. intros H.
          assert (Hs : Normal s <> TypeError) by discriminate.
          assert (Hg : Normal g <> TypeError) by discriminate.
          assert (Ht : Normal t <> TypeError) by discriminate.
          rewrite Hsum in Hs. rewrite Hstat in Ht. tauto.
        * split; auto. intros _. right. right. now apply Hstat.
      + split; auto. intros _.
        destruct (proj1 Hgap eq_refl) as [H|[H _]]; auto.
    - split; auto. intros _. destruct (proj1 Hsum eq_refl); auto. }
  split; [exact Hstat|]. split; [exact Hsum|]. split; [exact Hgap|].
  split; [exact Hana|]. split; [exact Hrep|].
  intros db0 H0.
  destruct (recalculateAllMetadata_returns rt _ H0)
    as (programs & registries & metadata & _ & _ & _ & Hdb).
  assert (Hr : generateFinancialReport rt now db <> TypeError).
  { intros Er. apply Hrep in Er. subst db. simpl in Er.
    decompose [or] Er; discriminate. }
  assert (Ha : calculateAnalytics rt db <> TypeError).
  { intros Ea. apply Hana in Ea. subst db. simpl in Ea.
    destruct Ea; discriminate. }
  clear - Hr Ha.
  destruct (generateFinancialReport rt now db) as [report|]; [|congruence].
  destruct (calculateAnalytics rt db) as [analytics|]; [|congruence].
  eauto.
Qed.

End ReportResults.
Lemma lookup_not_in {A : Type} (o : list (string * A)) (k : string) :
  ~ In k (map fst o) -> lookup o k = None.
Proof.
  induction o as [|[k0 a] o IH]; simpl; intros Hn; auto.
  destruct (String.eqb_spec k0 k) as [->|Hne]; [tauto|]. apply IH. tauto.
Qed.

Lemma lookup_in {A : Type} (o : list (string * A)) (k : string) (a : A) :
  NoDup (map fst o) -> In (k, a) o -> lookup o k = Some a.
Proof.
  induction o as [|[k0 a0] o IH]; simpl; intros Hnd Hin; [contradiction|].
  inversion Hnd as [|? ? Hn Hnd']; subst.
  destruct Hin as [Heq|Hin].
  - injection Heq as -> ->. now rewrite String.eqb_refl.
  - destruct (String.eqb_spec k0 k) as [->|Hne]; auto.
    exfalso. apply Hn. now apply (in_map fst) in Hin.
Qed.

Lemma keys_map_entries {A B : Type} (f : A -> B) (l : list (string * A)) :
  map fst (map_entries f l) = map fst l.
Proof. unfold map_entries. rewrite map_map. now apply map_ext. Qed.

Lemma js_or_number (x : float) : js_or (VNum x) (VNum 0) = VNum (num_or0 x).
Proof. unfold js_or, num_or0. simpl. destruct (num_falsy x); reflexivity. Qed.

Section StatisticsResults.

Variable rt : JSRuntime.

Lemma program_funding_of (l : list Sponsor.t) :
  program_funding rt l = funding_of rt 0 l.
Proof. unfold program_funding. apply funding_of_filter. Qed.

Lemma sponsor_statistics_step_recalculated (stats : SponsorStatistics.t)
  (e : string * Registry.t) :
  sponsor_statistics_step rt stats (fst e, fst (recalculate_registry rt (snd e)))
  = sponsor_statistics_step rt stats e.
Proof.
  unfold sponsor_statistics_step. simpl.
  now rewrite recalculate_registry_students.
Qed.

Lemma sponsor_statistics_counts (registries : list (string * Registry.t))
  (stats : SponsorStatistics.t) :
  SponsorStatistics.total_sponsors
    (fold_left (sponsor_statistics_step rt) registries stats)
  = (SponsorStatistics.total_sponsors stats
     + Z.of_nat (List.length (all_sponsors registries)))%Z
  /\ SponsorStatistics.active_sponsors
       (fold_left (sponsor_statistics_step rt) registries stats)
     = (SponsorStatistics.active_sponsors stats
        + Z.of_nat (List.length (filter is_active (all_sponsors registries))))%Z.
Proof.
  revert stats. induction registries as [|[k r] l IH]; simpl; intros stats.
  - split; lia.
  - destruct (IH (sponsor_statistics_step rt stats (k, r))) as [-> ->].
    unfold all_sponsors. simpl. rewrite filter_app, !length_app.
    unfold sponsor_statistics_step. simpl.
    destruct (Registry.students r); simpl; split; lia.
Qed.

Lemma sponsor_statistics_funding (registries : list (string * Registry.t))
  (stats : SponsorStatistics.t) :
  Forall (fun e => Registry.students (snd e) <> None) registries ->
  SponsorStatistics.total_monthly_funding
    (fold_left (sponsor_statistics_step rt) registries stats)
  = fold_left
      (fun total e => (total + snd (snd (recalculate_registry rt (snd e))))%float)
      registries (SponsorStatistics.total_monthly_funding stats).
Proof.
  intros Hall. revert stats.
  induction Hall as [|[k r] l Hr Hl IH]; simpl; intros stats; auto.
  rewrite IH. f_equal.
  unfold sponsor_statistics_step, recalculate_registry. simpl in *.
  destruct (Registry.students r); [reflexivity|congruence].
Qed.

Lemma sponsor_statistics_other (registries : list (string * Registry.t))
  (stats : SponsorStatistics.t) (k : string) :
  ~ In k (map fst registries) ->
  lookup (SponsorStatistics.program_stats
            (fold_left (sponsor_statistics_step rt) registries stats)) k
  = lookup (SponsorStatistics.program_stats stats) k.
Proof.
  revert stats. induction registries as [|[k0 r] l IH]; simpl; intros stats Hn; auto.
  rewrite IH by tauto.
  unfold sponsor_statistics_step. simpl.
  destruct (Registry.students r); simpl; auto.
  apply lookup_assign_other. tauto.
Qed.

Lemma sponsor_statistics_program (registries : list (string * Registry.t))
  (stats : SponsorStatistics.t) (k : string) (r : Registry.t) :
  NoDup (map fst registries) -> In (k, r) registries ->
  lookup (SponsorStatistics.program_stats
            (fold_left (sponsor_statistics_step rt) registries stats)) k
  = match Registry.students r with
    | Some l => Some (stats_of rt l)
    | None => lookup (SponsorStatistics.program_stats stats) k
    end.
Proof.
  revert stats. induction registries as [|[k0 r0] l IH]; simpl;
    intros stats Hnd Hin; [contradiction|].
  inversion Hnd as [|? ? Hn Hnd']; subst.
  destruct Hin as [Heq|Hin].
  - injection Heq as -> ->. rewrite sponsor_statistics_other by assumption.
    unfold sponsor_statistics_step. simpl.
    destruct (Registry.students r) as [s|]; simpl; auto.
    rewrite lookup_assign. unfold stats_of. now rewrite program_funding_of.
  - rewrite IH by assumption.
    destruct (Registry.students r) as [s|]; auto.
    unfold sponsor_statistics_step. simpl.
    destruct (Registry.students r0); simpl; auto.
    apply lookup_assign_other. intros ->. apply Hn.
    now apply (in_map fst) in Hin.
Qed.

(** X19: the sponsor statistics of a dataset that a recalculation
    returned agree with what the dataset stores, and are those of the
    dataset before the recalculation: [total_sponsors] counts every
    sponsor, [active_sponsors] is the stored [total_active_sponsorships],
    the entry of every registry that holds a sponsor list repeats the
    [total_students], [active_students] and [total_monthly_funding] of
    the registry's metadata, and [total_monthly_funding] is the stored
    [total_monthly_funding_euros] when every registry holds a sponsor
    list. *)
Theorem calculateSponsorStatistics_agrees (db db' : Database.t) :
  recalculateAllMetadata rt db = Returns db' ->
  exists stats registries' metadata' summary,
    calculateSponsorStatistics rt db' = Normal stats
    /\ calculateSponsorStatistics rt db = Normal stats
    /\ Database.sponsorship_registry db' = Some registries'
    /\ Database.metadata db' = Some metadata'
    /\ Database.programs_summary metadata' = Some summary
    /\ SponsorStatistics.total_sponsors stats
       = Z.of_nat (List.length (all_sponsors registries'))
    /\ SponsorStatistics.active_sponsors stats
       = Database.total_active_sponsorships summary
    /\ (Forall (fun e => Registry.students (snd e) <> None) registries' ->
        SponsorStatistics.total_monthly_funding stats
        = Database.total_monthly_funding_euros summary)
    /\ (NoDup (map fst registries') ->
        forall program registry' sponsors,
          In (program, registry') registries' ->
          Registry.students registry' = Some sponsors ->
          exists entry m,
            lookup (SponsorStatistics.program_stats stats) program = Some entry
            /\ Registry.metadata registry' = Some m
            /\ Registry.total_students m
               = Some (ProgramStats.total_sponsors entry)
            /\ Registry.active_students m
               = Some (ProgramStats.active_sponsors entry)
            /\ Registry.total_monthly_funding m
               = VNum (ProgramStats.monthly_funding entry)).
Proof.
  intros H.
  destruct (recalculateAllMetadata_returns rt _ H)
    as (programs & registries & metadata & Hp & Hr & Hm & ->).
  unfold calculateSponsorStatistics. simpl. rewrite Hr.
  assert (Hsame : forall stats,
             fold_left (sponsor_statistics_step rt)
               (map_entries (fun r => fst (recalculate_registry rt r)) registries)
               stats
             = fold_left (sponsor_statistics_step rt) registries stats).
  { intros stats. unfold map_entries.
    apply (fold_left_map_same (sponsor_statistics_step rt)
             (fun e : string * Registry.t =>
                (fst e, fst (recalculate_registry rt (snd e))))).
    intros b e. apply sponsor_statistics_step_recalculated. }
  rewrite Hsame.
  eexists. eexists. eexists. eexists.
  repeat (split; [reflexivity|]).
  destruct (sponsor_statistics_counts registries (SponsorStatistics.make 0 0 0 []))
    as [Ht Ha].
  split; [|split; [|split]].
  - rewrite Ht, all_sponsors_recalculated. simpl. lia.
  - rewrite Ha. simpl. rewrite total_active_length. lia.
  - intros Hall. rewrite sponsor_statistics_funding; [reflexivity|].
    apply Forall_forall. intros e He.
    assert (He' : In (fst e, fst (recalculate_registry rt (snd e)))
                     (map_entries (fun r => fst (recalculate_registry rt r))
                                  registries)).
    { unfold map_entries.
      apply (in_map (fun e => (fst e, fst (recalculate_registry rt (snd e))))).
      exact He. }
    rewrite Forall_forall in Hall. specialize (Hall _ He'). simpl in Hall.
    now rewrite recalculate_registry_students in Hall.
  - intros Hnd program registry' sponsors Hin Hst.
    rewrite keys_map_entries in Hnd.
    apply in_map_entries in Hin. destruct Hin as (r & Hin & ->).
    rewrite recalculate_registry_students in Hst.
    rewrite (@sponsor_statistics_program registries _ program r Hnd Hin), Hst.
    unfold recalculate_registry. rewrite Hst. simpl.
    eexists. eexists. split; [reflexivity|]. split; [reflexivity|]. simpl.
    rewrite program_funding_of. repeat split.
Qed.

End StatisticsResults.
Lemma num_or0_zero : num_or0 0 = 0%float.
Proof. reflexivity. Qed.

Section GapResults.

Variable rt : JSRuntime.

(** The metadata that the recalculation gives a program with a student
    list. *)
Lemma recalculate_program_metadata (p : Program.t) (l : list Student.t) :
  Program.students p = Some l ->
  exists m,
    Program.metadata (fst (recalculate_program rt p)) = Some m
    /\ Program.total_students m = Some (Z.of_nat (List.length l))
    /\ Program.monthly_costs_ugx m
       = VNum (program_cost rt (fst (recalculate_program rt p))).
Proof.
  intros Hs. unfold recalculate_program, program_cost. rewrite Hs. simpl.
  eexists. split; [reflexivity|]. split; [reflexivity|]. simpl.
  rewrite program_cost_number. f_equal.
  generalize 0%float. clear. induction l as [|s l IH]; simpl; intros c; auto.
Qed.

Lemma recalculate_registry_metadata (r : Registry.t) (l : list Sponsor.t) :
  Registry.students r = Some l ->
  exists m,
    Registry.metadata (fst (recalculate_registry rt r)) = Some m
    /\ Registry.total_monthly_funding m = VNum (funding_of rt 0 l).
Proof.
  intros Hs. unfold recalculate_registry. rewrite Hs. simpl.
  eexists. split; [reflexivity|]. simpl. now rewrite program_funding_of.
Qed.

Lemma program_costs_or0_recalculated (p : Program.t) :
  Program.students p <> None ->
  program_costs_or0 (fst (recalculate_program rt p))
  = VNum (num_or0 (program_cost rt (fst (recalculate_program rt p)))).
Proof.
  intros Hs. destruct (Program.students p) as [l|] eqn:E; [|congruence].
  destruct (recalculate_program_metadata p E) as (m & Hm & _ & Hc).
  unfold program_costs_or0. rewrite Hm, Hc. apply js_or_number.
Qed.

Lemma registry_income_recalculated (registries : list (string * Registry.t))
  (program : string) :
  (forall r,
      lookup (map_entries (fun r => fst (recalculate_registry rt r)) registries)
             program = Some r ->
      Registry.students r <> None) ->
  match lookup (map_entries (fun r => fst (recalculate_registry rt r))
                            registries) program with
  | Some registry =>
      match Registry.metadata registry with
      | Some metadata => js_or (Registry.total_monthly_funding metadata) (VNum 0)
      | None => VNum 0
      end
  | None => VNum 0
  end
  = VNum (num_or0
            (funding_of rt 0
               match lookup (map_entries
                               (fun r => fst (recalculate_registry rt r))
                               registries) program with
               | Some r =>
                   match Registry.students r with
                   | Some l => l
                   | None => []
                   end
               | None => []
               end)).
Proof.
  intros Hlist. rewrite lookup_map_entries in *.
  destruct (lookup registries program) as [r|]; simpl in *; [|reflexivity].
  specialize (Hlist _ eq_refl).
  rewrite recalculate_registry_students in *.
  destruct (Registry.students r) as [s|] eqn:Es; [|congruence].
  destruct (recalculate_registry_metadata r Es) as (m' & -> & ->).
  apply js_or_number.
Qed.

Lemma funding_gaps_entries (programs l : list (string * Program.t))
  (registries : list (string * Registry.t)) (gaps : list ProgramGap.t) :
  NoDup (map fst programs) -> incl l programs ->
  funding_gaps rt programs (Some registries) (map fst l) gaps
  = Normal
      (gaps ++ map (fun e => program_gap rt (fst e) (snd e)
                               (lookup registries (fst e))) l)%list.
Proof.
  intros Hnd. revert gaps. induction l as [|[k p] l IH]; simpl; intros gaps Hi.
  - now rewrite app_nil_r.
  - rewrite (lookup_in programs k p Hnd) by (apply Hi; now left).
    rewrite IH by (intros x Hx; apply Hi; now right).
    now rewrite <- app_assoc.
Qed.


(** X21: on a dataset that a recalculation returned, all of whose
    programs hold a student list, the financial summary reports the stored
    count of students, as income the stored [total_monthly_funding_euros]
    (0 when it is [NaN]) and that number times 4100, as costs the sum over
    the programs, in order from 0, of the programs' costs (each 0 when it
    is [NaN]), and as deficit the income in UGX minus the costs; the
    amounts in euros are those in UGX divided by 4100. *)
Theorem calculateFinancialSummary_totals (db db' : Database.t)
  (programs' : list (string * Program.t)) :
  recalculateAllMetadata rt db = Returns db' ->
  Database.sponsorship_programs db' = Some programs' ->
  Forall (fun e => Program.students (snd e) <> None) programs' ->
  exists s metadata' summary,
    calculateFinancialSummary rt db' = Normal s
    /\ Database.metadata db' = Some metadata'
    /\ Database.programs_summary metadata' = Some summary
    /\ FinancialSummary.totalStudents s
       = Database.total_students_across_all_programs summary
    /\ FinancialSummary.totalIncomeEUR s
       = num_or0 (Database.total_monthly_funding_euros summary)
    /\ FinancialSummary.totalIncomeUGX s
       = (FinancialSummary.totalIncomeEUR s * EXCHANGE_RATE)%float
    /\ (exists costs,
          costs = fold_left
                    (fun total e =>
                       (total + num_or0 (program_cost rt (snd e)))%float)
                    programs' 0%float
          /\ FinancialSummary.totalCostsUGX s = VNum costs
          /\ FinancialSummary.totalCostsEUR s = (costs / EXCHANGE_RATE)%float
          /\ FinancialSummary.totalDeficitUGX s
             = (FinancialSummary.totalIncomeUGX s - costs)%float
          /\ FinancialSummary.totalDeficitEUR s
             = ((FinancialSummary.totalIncomeUGX s - costs)
                / EXCHANGE_RATE)%float).
Proof.
  intros H Hp' Hall.
  destruct (recalculateAllMetadata_returns rt _ H)
    as (programs & registries & metadata & Hp & Hr & Hm & ->).
  simpl in Hp'. injection Hp' as <-.
  unfold calculateFinancialSummary. simpl Database.metadata.
  cbv beta iota. simpl Database.sponsorship_programs. cbv beta iota zeta.
  assert (Hcosts : forall l c,
             Forall (fun e : string * Program.t =>
                       Program.students (snd e) <> None) l ->
             fold_left
               (fun total e => js_add rt total (program_costs_or0 (snd e)))
               (map_entries (fun p => fst (recalculate_program rt p)) l) (VNum c)
             = VNum (fold_left
                       (fun total e =>
                          (total + num_or0 (program_cost rt (snd e)))%float)
                       (map_entries (fun p => fst (recalculate_program rt p)) l)
                       c)).
  { intros l c Hl. revert c.
    induction Hl as [|[k p] l Hk Hl IH]; simpl; intros c; auto.
    rewrite program_costs_or0_recalculated by exact Hk. simpl. apply IH. }
  rewrite Hcosts.
  - eexists. eexists. eexists. split; [reflexivity|]. simpl.
    repeat (split; [reflexivity|]).
    eexists. split; [reflexivity|]. repeat split.
  - apply Forall_forall. intros e He.
    rewrite Forall_forall in Hall.
    specialize (Hall (fst e, fst (recalculate_program rt (snd e)))).
    simpl in Hall. rewrite recalculate_program_students in Hall.
    intros Hnone. apply Hall.
    + unfold map_entries.
      apply (in_map (fun e => (fst e, fst (recalculate_program rt (snd e))))).
      exact He.
    + now rewrite Hnone.
Qed.

End GapResults.
Lemma fold_left_flat_map {A B C : Type} (f : C -> B -> C) (g : A -> list B)
  (l : list A) (c : C) :
  fold_left (fun acc a => fold_left f (g a) acc) l c
  = fold_left f (flat_map g l) c.
Proof.
  revert c. induction l as [|a l IH]; simpl; intros c; auto.
  now rewrite fold_left_app, IH.
Qed.

Section AnalyticsResults.

Variable rt : JSRuntime.

Lemma expense_breakdown_number (l : list Expense.t) (categories : obj)
  (label : string) (total : float) :
  Forall (fun e => is_number (Expense.amount e)) l ->
  get categories label = VNum total ->
  get (fold_left (expense_breakdown_step rt) l categories) label
  = VNum (fold_left (add_amount rt)
            (filter (fun e => String.eqb (expense_category_label rt e) label) l)
            total).
Proof.
  intros Hall. revert categories total.
  induction Hall as [|e l [a Ha] Hl IH]; simpl; intros categories total Hg; auto.
  fold (expense_category_label rt e).
  destruct (String.eqb_spec (expense_category_label rt e) label) as [Heq|Hne].
  - simpl. apply IH. unfold expense_breakdown_step.
    fold (expense_category_label rt e). rewrite Heq, get_set_same, Hg, Ha.
    rewrite !js_or_number. unfold add_amount. rewrite Ha. reflexivity.
  - apply IH. unfold expense_breakdown_step.
    fold (expense_category_label rt e). now rewrite get_set_other.
Qed.

Lemma expense_breakdown_total (l : list Expense.t) (categories : obj)
  (label : string) :
  Forall (fun e => is_number (Expense.amount e)) l ->
  get categories label = VUndef ->
  get (fold_left (expense_breakdown_step rt) l categories) label
  = match filter (fun e => String.eqb (expense_category_label rt e) label) l with
    | [] => VUndef
    | es => VNum (fold_left (add_amount rt) es 0%float)
    end.
Proof.
  intros Hall. revert categories.
  induction Hall as [|e l [a Ha] Hl IH]; simpl; intros categories Hg; auto.
  destruct (String.eqb_spec (expense_category_label rt e) label) as [Heq|Hne].
  - simpl. apply expense_breakdown_number; auto.
    unfold expense_breakdown_step.
    fold (expense_category_label rt e). rewrite Heq, get_set_same, Hg, Ha.
    rewrite js_or_number. unfold add_amount. rewrite Ha. reflexivity.
  - apply IH. unfold expense_breakdown_step.
    fold (expense_category_label rt e). now rewrite get_set_other.
Qed.

Lemma sponsor_categories_flat (registries : list (string * Registry.t))
  (categories : list (string * Z)) :
  fold_left
    (fun categories (e : string * Registry.t) =>
       match Registry.students (snd e) with
       | Some students => fold_left (sponsor_category_step rt) students categories
       | None => categories
       end) registries categories
  = fold_left (sponsor_category_step rt) (all_sponsors registries) categories.
Proof.
  unfold all_sponsors. revert categories.
  induction registries as [|[k r] l IH]; simpl; intros h; auto.
  rewrite fold_left_app, IH. destruct (Registry.students r); reflexivity.
Qed.

(** X22: on a dataset that holds programs and registries, the
    categories of whose sponsors and expenses are not names of members of
    [Object.prototype], the analytics count, in [sponsor_categories],
    every sponsor of every registry once, under its category
    (['Individual'] when the category is unset): the count of a category
    is the number of sponsors of that category and the counts add up to
    the number of sponsors.  In [expense_breakdown], when every expense
    holds a number as amount, a category without expense is absent and a
    category with expenses holds the sum of their amounts, taken in list
    order from 0 with [NaN] counted as 0 at each step; an expense without
    category counts under ['other']. *)
Theorem calculateAnalytics_categories (db : Database.t)
  (programs : list (string * Program.t))
  (registries : list (string * Registry.t)) :
  Database.sponsorship_programs db = Some programs ->
  Database.sponsorship_registry db = Some registries ->
  Forall (fun s => inherited (sponsor_category_label rt s) = false)
         (all_sponsors registries) ->
  exists analytics,
    calculateAnalytics rt db = Normal analytics
    /\ NoDup (map fst (Analytics.sponsor_categories analytics))
    /\ (forall label,
          count_of (Analytics.sponsor_categories analytics) label
          = Z.of_nat
              (List.length
                 (filter (fun s => String.eqb (sponsor_category_label rt s) label)
                         (all_sponsors registries))))
    /\ total_count (Analytics.sponsor_categories analytics)
       = Z.of_nat (List.length (all_sponsors registries))
    /\ (Database.daily_expenses db = None ->
        Analytics.expense_breakdown analytics = [])
    /\ (forall expenses label,
          Database.daily_expenses db = Some expenses ->
          Forall (fun e => is_number (Expense.amount e)) expenses ->
          Forall (fun e => inherited (expense_category_label rt e) = false)
                 expenses ->
          get (Analytics.expense_breakdown analytics) label
          = match filter (fun e => String.eqb (expense_category_label rt e) label)
                         expenses with
            | [] => VUndef
            | es =>
                VNum (fold_left (add_amount rt) es 0%float)
            end).
Proof.
  intros Hp Hr Hlabels. unfold calculateAnalytics. rewrite Hp, Hr.
  eexists. split; [reflexivity|]. simpl.
  rewrite sponsor_categories_flat.
  split; [|split; [|split; [|split]]].
  - apply (NoDup_histogram (sponsor_category_label rt)). constructor.
  - intros label.
    rewrite (count_of_histogram (sponsor_category_label rt)). simpl. lia.
  - rewrite (total_count_histogram (sponsor_category_label rt)). simpl. lia.
  - intros ->. reflexivity.
  - intros expenses label -> Hall Hcategories.
    now apply expense_breakdown_total.
Qed.

(** X23: [updateRegistryMetadata] of the earlier server gives the
    registry of one program the metadata that the recalculation gives it,
    and leaves everything else as it is: it throws exactly when the
    dataset lacks [sponsorship_registry]; otherwise the program's registry
    is the one the recalculation would store (unchanged when it is missing
    or holds no sponsor list), and the other registries, their order, the
    programs, the expenses, the metadata and the time stamp are
    untouched. *)
Theorem updateRegistryMetadata_recalculates (program : string)
  (db : Database.t) :
  (updateRegistryMetadata rt program db = TypeError
   <-> Database.sponsorship_registry db = None)
  /\ (forall registries,
        Database.sponsorship_registry db = Some registries ->
        exists db' registries',
          updateRegistryMetadata rt program db = Normal db'
          /\ Database.sponsorship_registry db' = Some registries'
          /\ lookup registries' program
             = option_map (fun r => fst (recalculate_registry rt r))
                          (lookup registries program)
          /\ (forall other, other <> program ->
                lookup registries' other = lookup registries other)
          /\ map fst registries' = map fst registries
          /\ Database.sponsorship_programs db' = Database.sponsorship_programs db
          /\ Database.daily_expenses db' = Database.daily_expenses db
          /\ Database.metadata db' = Database.metadata db
          /\ Database.last_updated db' = Database.last_updated db).
Proof.
  unfold updateRegistryMetadata. split.
  - destruct (Database.sponsorship_registry db) as [registries|];
      [|split; auto].
    split; [|discriminate].
    destruct (lookup registries program) as [r|];
      [destruct (Registry.students r)|]; discriminate.
  - intros registries Hr. rewrite Hr.
    destruct (lookup registries program) as [r|] eqn:El.
    + destruct (Registry.students r) as [l|] eqn:Es.
      * eexists. eexists. split; [reflexivity|]. simpl.
        split; [reflexivity|]. split; [|split; [|split]].
        -- rewrite lookup_assign. unfold recalculate_registry. now rewrite Es.
        -- intros other Hne. apply lookup_assign_other. congruence.
        -- clear - El. induction registries as [|[k0 a0] o IH]; simpl in *;
             [discriminate|].
           destruct (String.eqb k0 program); simpl; auto.
           now rewrite IH.
        -- repeat split.
      * exists db, registries. rewrite Hr.
        split; [reflexivity|]. split; [reflexivity|]. split; [|repeat split].
        rewrite El. simpl. unfold recalculate_registry. now rewrite Es.
    + exists db, registries. rewrite Hr.
      split; [reflexivity|]. split; [reflexivity|]. split; [|repeat split].
      now rewrite El.
Qed.

End AnalyticsResults.
(** ** Import *)

Lemma update_at_idents {A : Type} (ident : A -> Z) (f : A -> A) (l : list A)
  (i : nat) :
  (forall x, ident (f x) = ident x) ->
  map ident (update_at i f l) = map ident l.
Proof.
  intros H. revert i. induction l as [|x l IH]; intros [|i]; simpl; auto.
  - now rewrite H.
  - now rewrite IH.
Qed.

(** *** Serial numbers and CIDs under merge and append *)

Lemma merge_student_step_serials (l : list Student.t) (s : Student.t) :
  (map Student.serial_number (merge_student_step l s)
   = map Student.serial_number l
   /\ List.length (merge_student_step l s) = List.length l)
  \/ (map Student.serial_number (merge_student_step l s)
      = (map Student.serial_number l ++ [(Z.of_nat (List.length l) + 1)%Z])%list
      /\ List.length (merge_student_step l s) = S (List.length l)).
Proof.
  unfold merge_student_step.
  destruct (findIndex _ l) as [i|].
  - left. split; [|apply update_at_length].
    now apply update_at_idents.
  - right. rewrite map_app, length_app. simpl. split; [reflexivity|lia].
Qed.

Lemma merge_sponsor_step_cids (l : list Sponsor.t) (s : Sponsor.t) :
  (map Sponsor.cid (merge_sponsor_step l s) = map Sponsor.cid l
   /\ List.length (merge_sponsor_step l s) = List.length l)
  \/ (map Sponsor.cid (merge_sponsor_step l s)
      = (map Sponsor.cid l ++ [(Z.of_nat (List.length l) + 1)%Z])%list
      /\ List.length (merge_sponsor_step l s) = S (List.length l)).
Proof.
  unfold merge_sponsor_step.
  destruct (findIndex _ l) as [i|].
  - left. split; [|apply update_at_length].
    now apply update_at_idents.
  - right. rewrite map_app, length_app. simpl. split; [reflexivity|lia].
Qed.

Section Numbering.

Context {A : Type}.
Variable ident : A -> Z.
Variable step : list A -> A -> list A.

Hypothesis step_idents :
  forall l x,
    (map ident (step l x) = map ident l
     /\ List.length (step l x) = List.length l)
    \/ (map ident (step l x)
        = (map ident l ++ [(Z.of_nat (List.length l) + 1)%Z])%list
        /\ List.length (step l x) = S (List.length l)).

(** Records that are there keep their place and identifier; the records
    added carry the next positions as identifiers. *)
Lemma numbering_kept (imported existing : list A) :
  exists k,
    (List.length (fold_left step imported existing)
     = List.length existing + k)%nat
    /\ (k <= List.length imported)%nat
    /\ map ident (fold_left step imported existing)
       = (map ident existing
          ++ count_from (Z.of_nat (List.length existing)) k)%list.
Proof.
  revert existing. induction imported as [|x imported IH]; simpl; intros existing.
  - exists O. simpl. rewrite app_nil_r. repeat split; lia.
  - destruct (IH (step existing x)) as (k & Hlen & Hk & Hids).
    destruct (step_idents existing x) as [[Hi Hl]|[Hi Hl]].
    + exists k. rewrite Hlen, Hids, Hi, Hl. repeat split; lia.
    + exists (S k). rewrite Hlen, Hids, Hi, Hl. split; [lia|]. split; [lia|].
      rewrite <- app_assoc. f_equal. cbn [count_from app].
      replace (Z.of_nat (S (List.length existing)))
        with (Z.of_nat (List.length existing) + 1)%Z by lia.
      reflexivity.
Qed.

Lemma numbering_dense (imported existing : list A) :
  map ident existing = count_from 0 (List.length existing) ->
  map ident (fold_left step imported existing)
  = count_from 0 (List.length (fold_left step imported existing)).
Proof.
  intros Hd. destruct (numbering_kept imported existing) as (k & Hlen & _ & Hids).
  rewrite Hids, Hlen, Hd, count_from_app. reflexivity.
Qed.

End Numbering.

Lemma append_student_step_serials (l : list Student.t) (s : Student.t) :
  (map Student.serial_number (append_student_step l s)
   = map Student.serial_number l
   /\ List.length (append_student_step l s) = List.length l)
  \/ (map Student.serial_number (append_student_step l s)
      = (map Student.serial_number l ++ [(Z.of_nat (List.length l) + 1)%Z])%list
      /\ List.length (append_student_step l s) = S (List.length l)).
Proof.
  right. unfold append_student_step. rewrite map_app, length_app. simpl.
  split; [reflexivity|lia].
Qed.

Lemma append_sponsor_step_cids (l : list Sponsor.t) (s : Sponsor.t) :
  (map Sponsor.cid (append_sponsor_step l s) = map Sponsor.cid l
   /\ List.length (append_sponsor_step l s) = List.length l)
  \/ (map Sponsor.cid (append_sponsor_step l s)
      = (map Sponsor.cid l ++ [(Z.of_nat (List.length l) + 1)%Z])%list
      /\ List.length (append_sponsor_step l s) = S (List.length l)).
Proof.
  right. unfold append_sponsor_step. rewrite map_app, length_app. simpl.
  split; [reflexivity|lia].
Qed.

Lemma appended_length {A : Type} (step : list A -> A -> list A)
  (imported existing : list A) :
  (forall l x, List.length (step l x) = S (List.length l)) ->
  List.length (fold_left step imported existing)
  = (List.length existing + List.length imported)%nat.
Proof.
  intros H. revert existing.
  induction imported as [|x imported IH]; simpl; intros existing; [lia|].
  rewrite IH, H. lia.
Qed.

(** X24: merging or appending imported students (sponsors) keeps the
    numbering of a list: the records that were there keep their places and
    their serial numbers (CIDs), at most one record is added per imported
    record (exactly one under the append strategy), and the records added
    carry the next positions as identifiers; so identifiers that were
    1..N are 1..M afterwards, M being the new length. *)
Theorem import_keeps_numbering :
  (forall existing imported : list Student.t,
      (exists k,
          (List.length (merged_students existing imported)
           = List.length existing + k)%nat
          /\ (k <= List.length imported)%nat
          /\ map Student.serial_number (merged_students existing imported)
             = (map Student.serial_number existing
                ++ count_from (Z.of_nat (List.length existing)) k)%list)
      /\ map Student.serial_number (appended_students existing imported)
         = (map Student.serial_number existing
            ++ count_from (Z.of_nat (List.length existing))
                 (List.length imported))%list
      /\ (map Student.serial_number existing
          = count_from 0 (List.length existing) ->
          map Student.serial_number (merged_students existing imported)
          = count_from 0 (List.length (merged_students existing imported))
          /\ map Student.serial_number (appended_students existing imported)
             = count_from 0 (List.length existing + List.length imported)))
  /\ (forall existing imported : list Sponsor.t,
        (exists k,
            (List.length (merged_sponsors existing imported)
             = List.length existing + k)%nat
            /\ (k <= List.length imported)%nat
            /\ map Sponsor.cid (merged_sponsors existing imported)
               = (map Sponsor.cid existing
                  ++ count_from (Z.of_nat (List.length existing)) k)%list)
        /\ map Sponsor.cid (appended_sponsors existing imported)
           = (map Sponsor.cid existing
              ++ count_from (Z.of_nat (List.length existing))
                   (List.length imported))%list
        /\ (map Sponsor.cid existing = count_from 0 (List.length existing) ->
            map Sponsor.cid (merged_sponsors existing imported)
            = count_from 0 (List.length (merged_sponsors existing imported))
            /\ map Sponsor.cid (appended_sponsors existing imported)
               = count_from 0 (List.length existing + List.length imported))).
Proof.
  split.
  - intros existing imported.
    assert (Hlen : List.length (appended_students existing imported)
                   = (List.length existing + List.length imported)%nat).
    { apply appended_length. intros l x. unfold append_student_step.
      rewrite length_app. simpl. lia. }
    assert (Ha : map Student.serial_number (appended_students existing imported)
                 = (map Student.serial_number existing
                    ++ count_from (Z.of_nat (List.length existing))
                         (List.length imported))%list).
    { destruct (numbering_kept Student.serial_number append_student_step
                  append_student_step_serials imported existing)
        as (k & Hk & _ & Hids).
      unfold appended_students in *. rewrite Hids. f_equal. f_equal. lia. }
    split; [|split; [exact Ha|]].
    + apply (numbering_kept Student.serial_number merge_student_step
               merge_student_step_serials).
    + intros Hd. split.
      * now apply (numbering_dense Student.serial_number merge_student_step
                     merge_student_step_serials).
      * rewrite Ha, Hd, count_from_app. reflexivity.
  - intros existing imported.
    assert (Hlen : List.length (appended_sponsors existing imported)
                   = (List.length existing + List.length imported)%nat).
    { apply appended_length. intros l x. unfold append_sponsor_step.
      rewrite length_app. simpl. lia. }
    assert (Ha : map Sponsor.cid (appended_sponsors existing imported)
                 = (map Sponsor.cid existing
                    ++ count_from (Z.of_nat (List.length existing))
                         (List.length imported))%list).
    { destruct (numbering_kept Sponsor.cid append_sponsor_step
                  append_sponsor_step_cids imported existing)
        as (k & Hk & _ & Hids).
      unfold appended_sponsors in *. rewrite Hids. f_equal. f_equal. lia. }
    split; [|split; [exact Ha|]].
    + apply (numbering_kept Sponsor.cid merge_sponsor_step
               merge_sponsor_step_cids).
    + intros Hd. split.
      * now apply (numbering_dense Sponsor.cid merge_sponsor_step
                     merge_sponsor_step_cids).
      * rewrite Ha, Hd, count_from_app. reflexivity.
Qed.
Lemma program_students_assigned (db : Database.t)
  (programs : list (string * Program.t)) (program q : string) (p : Program.t) :
  Database.sponsorship_programs db = Some programs ->
  program_students (set_programs db (assign programs program p)) q
  = if String.eqb q program then list_of (Program.students p)
    else program_students db q.
Proof.
  intros Hp. unfold program_students. simpl. rewrite Hp.
  destruct (String.eqb_spec q program) as [->|Hne].
  - rewrite lookup_assign. destruct (Program.students p); reflexivity.
  - rewrite lookup_assign_other by congruence. reflexivity.
Qed.

Lemma registry_sponsors_assigned (db : Database.t)
  (registries : list (string * Registry.t)) (program q : string)
  (r : Registry.t) :
  Database.sponsorship_registry db = Some registries ->
  registry_sponsors (set_registries db (assign registries program r)) q
  = if String.eqb q program then list_of (Registry.students r)
    else registry_sponsors db q.
Proof.
  intros Hr. unfold registry_sponsors. simpl. rewrite Hr.
  destruct (String.eqb_spec q program) as [->|Hne].
  - rewrite lookup_assign. destruct (Registry.students r); reflexivity.
  - rewrite lookup_assign_other by congruence. reflexivity.
Qed.

Lemma integrate_program_students_returns
  (imported : list (string * list Student.t)) (mergeStrategy : string)
  (db db' : Database.t) (program : string) :
  integrate_program_students (Some imported) mergeStrategy db program
  = Returns db' ->
  same_but_programs db db'
  /\ forall q,
       program_students db' q
       = if String.eqb q program
         then integrated_students mergeStrategy
                (list_of_import (lookup imported program))
                (program_students db program)
         else program_students db q.
Proof.
  unfold integrate_program_students, integrated_students.
  set (importedStudents := list_of_import (lookup imported program)).
  assert (Hsame : forall q,
             program_students db q
             = if String.eqb q program then program_students db program
               else program_students db q).
  { intros q. destruct (String.eqb_spec q program) as [->|]; reflexivity. }
  assert (Hstore : forall programs p students,
             Database.sponsorship_programs db = Some programs ->
             lookup programs program = Some p ->
             Returns
               (set_programs db
                  (assign programs program
                     (Program.make (Program.program_name p) (Some students)
                        (Program.metadata p)))) = Returns db' ->
             same_but_programs db db'
             /\ forall q,
                  program_students db' q
                  = if String.eqb q program then students
                    else program_students db q).
  { intros programs p students Hp Hl H. injection H as <-.
    split; [repeat split|].
    intros q. now rewrite (program_students_assigned db _ q _ Hp). }
  destruct (String.eqb mergeStrategy "replace").
  { destruct (Database.sponsorship_programs db) as [programs|] eqn:Hp;
      [|discriminate].
    destruct (lookup programs program) as [p|] eqn:Hl; [|discriminate].
    intros H. now apply (Hstore _ _ _ eq_refl Hl H). }
  destruct (String.eqb mergeStrategy "merge").
  { destruct (Database.sponsorship_programs db) as [programs|] eqn:Hp;
      [|discriminate].
    destruct (lookup programs program) as [p|] eqn:Hl; [|discriminate].
    destruct (Program.students p) as [existing|] eqn:Hs.
    - intros H. destruct (Hstore _ _ _ eq_refl Hl H) as [H1 H2].
      split; [exact H1|]. intros q. rewrite H2.
      unfold program_students. now rewrite Hp, Hl, Hs.
    - destruct importedStudents; [|discriminate].
      intros H. injection H as <-. split; [repeat split|].
      intros q. apply Hsame. }
  destruct (String.eqb mergeStrategy "append").
  { destruct importedStudents as [|s0 rest] eqn:Ei.
    - intros H. injection H as <-. split; [repeat split|].
      intros q. apply Hsame.
    - destruct (Database.sponsorship_programs db) as [programs|] eqn:Hp;
        [|discriminate].
      destruct (lookup programs program) as [p|] eqn:Hl; [|discriminate].
      destruct (Program.students p) as [existing|] eqn:Hs; [|discriminate].
      intros H. destruct (Hstore _ _ _ eq_refl Hl H) as [H1 H2].
      split; [exact H1|]. intros q. rewrite H2.
      unfold program_students. now rewrite Hp, Hl, Hs. }
  intros H. injection H as <-. split; [repeat split|].
  intros q. apply Hsame.
Qed.

Lemma for_each_program_students
  (imported : list (string * list Student.t)) (mergeStrategy : string)
  (programs : list string) (db db' : Database.t) :
  NoDup programs ->
  for_each_program (integrate_program_students (Some imported) mergeStrategy)
                   programs db = Returns db' ->
  same_but_programs db db'
  /\ forall q,
       program_students db' q
       = if existsb (String.eqb q) programs
         then integrated_students mergeStrategy
                (list_of_import (lookup imported q)) (program_students db q)
         else program_students db q.
Proof.
  intros Hnd. revert db.
  induction Hnd as [|p programs Hn Hnd IH]; intros db H;
    cbn [for_each_program existsb] in *.
  - injection H as <-. split; [repeat split|reflexivity].
  - destruct (integrate_program_students (Some imported) mergeStrategy db p)
      as [db1|db1] eqn:E1; [|discriminate].
    destruct (integrate_program_students_returns _ _ _ _ E1) as [S1 H1].
    destruct (IH _ H) as [S2 H2].
    split.
    { destruct S1 as (a1 & b1 & c1 & d1). destruct S2 as (a2 & b2 & c2 & d2).
      repeat split; congruence. }
    intros q. rewrite H2, !H1.
    destruct (String.eqb_spec q p) as [->|Hne]; cbn [orb]; auto.
    assert (Hx : existsb (String.eqb p) programs = false).
    { destruct (existsb (String.eqb p) programs) eqn:Ex; auto.
      apply existsb_exists in Ex. destruct Ex as (x & Hx & Heq).
      apply String.eqb_eq in Heq. now subst. }
    now rewrite Hx.
Qed.

Lemma integrate_program_sponsors_returns
  (imported : list (string * list Sponsor.t)) (mergeStrategy : string)
  (db db' : Database.t) (program : string) :
  integrate_program_sponsors (Some imported) mergeStrategy db program
  = Returns db' ->
  same_but_registry db db'
  /\ forall q,
       registry_sponsors db' q
       = if String.eqb q program
         then integrated_sponsors mergeStrategy
                (list_of_import (lookup imported program))
                (registry_sponsors db program)
         else registry_sponsors db q.
Proof.
  unfold integrate_program_sponsors, integrated_sponsors.
  set (importedSponsors := list_of_import (lookup imported program)).
  assert (Hsame : forall q,
             registry_sponsors db q
             = if String.eqb q program then registry_sponsors db program
               else registry_sponsors db q).
  { intros q. destruct (String.eqb_spec q program) as [->|]; reflexivity. }
  assert (Hstore : forall registries r sponsors,
             Database.sponsorship_registry db = Some registries ->
             lookup registries program = Some r ->
             Returns
               (set_registries db
                  (assign registries program
                     (Registry.make (Some sponsors) (Registry.metadata r))))
             = Returns db' ->
             same_but_registry db db'
             /\ forall q,
                  registry_sponsors db' q
                  = if String.eqb q program then sponsors
                    else registry_sponsors db q).
  { intros registries r sponsors Hr Hl H. injection H as <-.
    split; [repeat split|].
    intros q. now rewrite (registry_sponsors_assigned db _ q _ Hr). }
  destruct (String.eqb mergeStrategy "replace").
  { destruct (Database.sponsorship_registry db) as [registries|] eqn:Hr;
      [|discriminate].
    destruct (lookup registries program) as [r|] eqn:Hl; [|discriminate].
    intros H. now apply (Hstore _ _ _ eq_refl Hl H). }
  destruct (String.eqb mergeStrategy "merge").
  { destruct (Database.sponsorship_registry db) as [registries|] eqn:Hr;
      [|discriminate].
    destruct (lookup registries program) as [r|] eqn:Hl; [|discriminate].
    destruct (Registry.students r) as [existing|] eqn:Hs.
    - intros H. destruct (Hstore _ _ _ eq_refl Hl H) as [H1 H2].
      split; [exact H1|]. intros q. rewrite H2.
      unfold registry_sponsors. now rewrite Hr, Hl, Hs.
    - destruct importedSponsors; [|discriminate].
      intros H. injection H as <-. split; [repeat split|].
      intros q. apply Hsame. }
  destruct (String.eqb mergeStrategy "append").
  { destruct importedSponsors as [|s0 rest] eqn:Ei.
    - intros H. injection H as <-. split; [repeat split|].
      intros q. apply Hsame.
    - destruct (Database.sponsorship_registry db) as [registries|] eqn:Hr;
        [|discriminate].
      destruct (lookup registries program) as [r|] eqn:Hl; [|discriminate].
      destruct (Registry.students r) as [existing|] eqn:Hs; [|discriminate].
      intros H. destruct (Hstore _ _ _ eq_refl Hl H) as [H1 H2].
      split; [exact H1|]. intros q. rewrite H2.
      unfold registry_sponsors. now rewrite Hr, Hl, Hs. }
  intros H. injection H as <-. split; [repeat split|].
  intros q. apply Hsame.
Qed.

Lemma for_each_program_sponsors
  (imported : list (string * list Sponsor.t)) (mergeStrategy : string)
  (programs : list string) (db db' : Database.t) :
  NoDup programs ->
  for_each_program (integrate_program_sponsors (Some imported) mergeStrategy)
                   programs db = Returns db' ->
  same_but_registry db db'
  /\ forall q,
       registry_sponsors db' q
       = if existsb (String.eqb q) programs
         then integrated_sponsors mergeStrategy
                (list_of_import (lookup imported q)) (registry_sponsors db q)
         else registry_sponsors db q.
Proof.
  intros Hnd. revert db.
  induction Hnd as [|p programs Hn Hnd IH]; intros db H;
    cbn [for_each_program existsb] in *.
  - injection H as <-. split; [repeat split|reflexivity].
  - destruct (integrate_program_sponsors (Some imported) mergeStrategy db p)
      as [db1|db1] eqn:E1; [|discriminate].
    destruct (integrate_program_sponsors_returns _ _ _ _ E1) as [S1 H1].
    destruct (IH _ H) as [S2 H2].
    split.
    { destruct S1 as (a1 & b1 & c1 & d1). destruct S2 as (a2 & b2 & c2 & d2).
      repeat split; congruence. }
    intros q. rewrite H2, !H1.
    destruct (String.eqb_spec q p) as [->|Hne]; cbn [orb]; auto.
    assert (Hx : existsb (String.eqb p) programs = false).
    { destruct (existsb (String.eqb p) programs) eqn:Ex; auto.
      apply existsb_exists in Ex. destruct Ex as (x & Hx & Heq).
      apply String.eqb_eq in Heq. now subst. }
    now rewrite Hx.
Qed.

Lemma NoDup_import_programs : NoDup import_programs.
Proof.
  unfold import_programs.
  repeat constructor; simpl; intros H; decompose [or] H; try discriminate; auto.
Qed.

Lemma for_each_program_throws (step : Database.t -> string -> outcome)
  (program : string) (rest : list string) (db : Database.t) :
  step db program = Throws db ->
  for_each_program step (program :: rest) db = Throws db.
Proof. intros H. simpl. now rewrite H. Qed.

(** X25: what [integrateStudentsData] and [integrateSponsorsData] do.
    When the imported object lacks the section, the function throws at
    the first program and the dataset is as it was, whatever the strategy.
    When it returns, each of the four programs CH, YSP, ICCSP, OTM_GA
    holds, under ['replace'], the imported list as it is (its identifiers
    are not renumbered), under ['merge'] and ['append'] the merged and the
    appended list, and under any other strategy the list it had; every
    other program and every other section of the dataset is as it was. *)
Theorem integrate_lists (database : Database.t)
  (importedData : ImportedData.t) (mergeStrategy : string) :
  (ImportedData.sponsorship_programs importedData = None ->
   integrateStudentsData database importedData mergeStrategy = Throws database)
  /\ (ImportedData.sponsorship_registry importedData = None ->
      integrateSponsorsData database importedData mergeStrategy
      = Throws database)
  /\ (forall database',
        integrateStudentsData database importedData mergeStrategy
        = Returns database' ->
        exists imported,
          ImportedData.sponsorship_programs importedData = Some imported
          /\ same_but_programs database database'
          /\ forall program,
               program_students database' program
               = if imported_program program
                 then integrated_students mergeStrategy
                        (list_of_import (lookup imported program))
                        (program_students database program)
                 else program_students database program)
  /\ (forall database',
        integrateSponsorsData database importedData mergeStrategy
        = Returns database' ->
        exists imported,
          ImportedData.sponsorship_registry importedData = Some imported
          /\ same_but_registry database database'
          /\ forall program,
               registry_sponsors database' program
               = if imported_program program
                 then integrated_sponsors mergeStrategy
                        (list_of_import (lookup imported program))
                        (registry_sponsors database program)
                 else registry_sponsors database program).
Proof.
  unfold integrateStudentsData, integrateSponsorsData.
  split; [|split; [|split]].
  - intros ->. reflexivity.
  - intros ->. reflexivity.
  - intros database' H.
    destruct (ImportedData.sponsorship_programs importedData) as [imported|];
      [|discriminate].
    exists imported. split; [reflexivity|].
    eapply for_each_program_students; [apply NoDup_import_programs|exact H].
  - intros database' H.
    destruct (ImportedData.sponsorship_registry importedData) as [imported|];
      [|discriminate].
    exists imported. split; [reflexivity|].
    eapply for_each_program_sponsors; [apply NoDup_import_programs|exact H].
Qed.
(** *** Expense identifiers under an import *)

Lemma merge_expense_step_ids (l : list Expense.t) (e : Expense.t) :
  map Expense.id (merge_expense_step l e) = map Expense.id l
  \/ map Expense.id (merge_expense_step l e)
     = (map Expense.id l ++ [generated_expense_id l])%list.
Proof.
  unfold merge_expense_step. destruct (findIndex _ l) as [i|].
  - left. now apply update_at_idents.
  - right. now rewrite map_app.
Qed.

Lemma generated_expense_id_above (l : list Expense.t) (n : Z) :
  ids_below (2 ^ 53) l ->
  In n (map Expense.id l) -> (n < generated_expense_id l)%Z.
Proof.
  intros Hl Hin. apply in_map_iff in Hin. destruct Hin as (e & <- & He).
  now apply generated_expense_id_fresh.
Qed.

Lemma ids_below_ids (bound : Z) (l l' : list Expense.t) :
  map Expense.id l' = map Expense.id l -> ids_below bound l ->
  ids_below bound l'.
Proof.
  intros Hids [Hp Hl]. split; [exact Hp|].
  apply Forall_forall. intros e He.
  apply (in_map Expense.id) in He. rewrite Hids in He.
  apply in_map_iff in He. destruct He as (e0 & <- & He0).
  exact (proj1 (Forall_forall _ _) Hl e0 He0).
Qed.

Lemma ids_below_merge_expense_step (bound : Z) (l : list Expense.t)
  (e : Expense.t) :
  (bound + 1 <= 2 ^ 53)%Z -> ids_below bound l ->
  ids_below (bound + 1) (merge_expense_step l e).
Proof.
  intros Hb Hl.
  assert (Hl' : ids_below (bound + 1) l)
    by (apply (ids_below_le (bound := bound)); [destruct Hl; lia|exact Hl]).
  destruct (merge_expense_step_ids l e) as [Hs|Hs].
  - eapply ids_below_ids; [exact Hs|exact Hl'].
  - destruct (@generated_expense_id_exact _ l Hl) as [_ Hg].
    destruct Hl' as [Hp Hl']. split; [exact Hp|].
    apply Forall_forall. intros x Hx.
    apply (in_map Expense.id) in Hx. rewrite Hs in Hx.
    apply in_app_or in Hx. destruct Hx as [Hin|[<-|[]]]; [|exact Hg].
    apply in_map_iff in Hin. destruct Hin as (e0 & <- & Hin0).
    exact (proj1 (Forall_forall _ _) Hl' e0 Hin0).
Qed.

Lemma merged_expenses_ids (imported existing : list Expense.t) :
  ids_below (2 ^ 53 - Z.of_nat (List.length imported)) existing ->
  exists added,
    map Expense.id (fold_left merge_expense_step imported existing)
    = (map Expense.id existing ++ added)%list
    /\ NoDup added
    /\ (List.length added <= List.length imported)%nat
    /\ forall n m, In n (map Expense.id existing) -> In m added -> (n < m)%Z.
Proof.
  revert existing.
  induction imported as [|e imported IH]; simpl fold_left; intros existing Hl.
  - exists []. rewrite app_nil_r. repeat split; [constructor|auto|].
    intros n m _ [].
  - assert (Hlen : (2 ^ 53 - Z.of_nat (List.length (e :: imported)) + 1
                    = 2 ^ 53 - Z.of_nat (List.length imported))%Z)
      by (simpl List.length; lia).
    assert (Hstep : ids_below (2 ^ 53 - Z.of_nat (List.length imported))
                              (merge_expense_step existing e)).
    { rewrite <- Hlen. apply ids_below_merge_expense_step; [|exact Hl].
      simpl List.length. lia. }
    assert (Hsafe : ids_below (2 ^ 53) existing).
    { apply (ids_below_le
               (bound := (2 ^ 53 - Z.of_nat (List.length (e :: imported)))%Z));
        [|exact Hl].
      destruct Hl as [Hp _]. lia. }
    destruct (IH (merge_expense_step existing e) Hstep)
      as (added & Hids & Hnd & Hn & Hlt).
    destruct (merge_expense_step_ids existing e) as [Hs|Hs]; rewrite Hs in *.
    + exists added. simpl List.length. repeat split; auto.
    + exists (generated_expense_id existing :: added).
      rewrite Hids, <- app_assoc. simpl. repeat split.
      * constructor; auto. intros Hin.
        assert (Hg : In (generated_expense_id existing)
                        (map Expense.id existing ++ [generated_expense_id existing]))
          by (apply in_app_iff; right; now left).
        specialize (Hlt _ _ Hg Hin). lia.
      * lia.
      * intros n m Hin [<-|Hm].
        -- now apply generated_expense_id_above.
        -- apply Hlt; auto. apply in_app_iff. now left.
Qed.

(** The sums [maxId + index + 1] are exact while they stay within 2^53. *)
Lemma number_expenses_ids (maxId index : Z) (l : list Expense.t) :
  (- 2 ^ 53 <= maxId + index)%Z ->
  (maxId + index + Z.of_nat (List.length l) <= 2 ^ 53)%Z ->
  map Expense.id (number_expenses maxId index l)
  = count_from (maxId + index) (List.length l).
Proof.
  revert index. induction l as [|e l IH]; intros index Hlo Hhi; [reflexivity|].
  cbn [number_expenses map count_from List.length] in *.
  unfold id_add. cbn [Expense.id set_expense_id].
  change (2 ^ 53)%Z with 9007199254740992%Z in *.
  rewrite (@nearest_double_exact (maxId + index))
    by (change (2 ^ 53)%Z with 9007199254740992%Z; lia).
  rewrite (@nearest_double_exact (maxId + index + 1))
    by (change (2 ^ 53)%Z with 9007199254740992%Z; lia).
  f_equal. rewrite IH by lia. f_equal. lia.
Qed.

Lemma NoDup_count_from (i : Z) (n : nat) : NoDup (count_from i n).
Proof.
  revert i. induction n as [|n IH]; simpl; intros i; constructor; auto.
  rewrite count_from_bounds. lia.
Qed.

Lemma NoDup_app_above (ids added : list Z) :
  NoDup ids -> NoDup added ->
  (forall n m, In n ids -> In m added -> (n < m)%Z) ->
  NoDup (ids ++ added).
Proof.
  intros H1 H2 Hlt. apply NoDup_app; auto.
  intros x Hx Hy. specialize (Hlt _ _ Hx Hy). lia.
Qed.

(** X26: merging or appending imported expenses into a dataset that
    holds an expense list returns and, when the identifiers that are
    there are integers that leave room below 2^53 for as many expenses as
    are imported, keeps the identifiers in order: the expenses that were
    there keep their places and identifiers, the identifiers added are
    distinct and greater than every identifier that was there, so
    identifiers that were distinct stay distinct; under ['append'] one
    expense is added per imported expense, with the identifiers following
    the greatest one (0 for an empty list).  Under ['replace'] the list is
    the imported one as it is.  The other sections of the dataset stay.
    (The identifiers are computed on doubles: from 2^53 on a sum is
    rounded and identifiers repeat.) *)
Theorem integrateExpensesData_ids (database : Database.t)
  (importedData : ImportedData.t) (existing : list Expense.t) :
  Database.daily_expenses database = Some existing ->
  let imported := list_of_import (ImportedData.daily_expenses importedData) in
  ids_below (2 ^ 53 - Z.of_nat (List.length imported)) existing ->
  (forall mergeStrategy,
      mergeStrategy = "merge" \/ mergeStrategy = "append" ->
      exists expenses added,
        integrateExpensesData database importedData mergeStrategy
        = Returns (set_daily_expenses database expenses)
        /\ map Expense.id expenses = (map Expense.id existing ++ added)%list
        /\ NoDup added
        /\ (forall n m, In n (map Expense.id existing) -> In m added -> (n < m)%Z)
        /\ (NoDup (map Expense.id existing) -> NoDup (map Expense.id expenses))
        /\ (List.length added <= List.length imported)%nat
        /\ (mergeStrategy = "append" ->
            added = count_from (generated_expense_id existing - 1)
                               (List.length imported)))
  /\ integrateExpensesData database importedData "replace"
     = Returns (set_daily_expenses database imported).
Proof.
  intros He imported Hl. split; [|reflexivity].
  assert (Hsafe : ids_below (2 ^ 53) existing).
  { apply (ids_below_le
             (bound := (2 ^ 53 - Z.of_nat (List.length imported))%Z));
      [|exact Hl].
    destruct Hl as [Hp _]. lia. }
  intros mergeStrategy [-> | ->]; unfold integrateExpensesData; simpl String.eqb;
    cbv iota; rewrite He; fold imported.
  - destruct (@merged_expenses_ids imported existing Hl)
      as (added & Hids & Hnd & Hlen & Hlt).
    exists (fold_left merge_expense_step imported existing), added.
    split; [reflexivity|]. split; [exact Hids|]. split; [exact Hnd|].
    split; [exact Hlt|]. split; [|split; [exact Hlen|discriminate]].
    intros Hd. rewrite Hids. now apply NoDup_app_above.
  - set (maxId := match map Expense.id existing with
                  | [] => 0%Z
                  | x :: l => Math_max x l
                  end).
    assert (Hmax : maxId = (generated_expense_id existing - 1)%Z).
    { rewrite (proj1 (@generated_expense_id_exact _ existing Hsafe)).
      unfold maxId. destruct (map Expense.id existing); lia. }
    assert (Hroom : (- 2 ^ 53 <= maxId + 0
                     /\ maxId + 0 + Z.of_nat (List.length imported) <= 2 ^ 53)%Z).
    { destruct (@generated_expense_id_exact _ existing Hl) as [_ Hg].
      destruct Hl as [Hp _]. rewrite Hmax. lia. }
    exists (existing ++ number_expenses maxId 0 imported)%list,
      (count_from maxId (List.length imported)).
    assert (Hlt : forall n m,
               In n (map Expense.id existing) ->
               In m (count_from maxId (List.length imported)) -> (n < m)%Z).
    { intros n m Hn Hm. apply count_from_bounds in Hm.
      apply (@generated_expense_id_above existing n Hsafe) in Hn. lia. }
    split; [reflexivity|]. split.
    { rewrite map_app, number_expenses_ids by tauto. f_equal. f_equal. lia. }
    split; [apply NoDup_count_from|]. split; [exact Hlt|].
    split; [|split].
    + intros Hd. rewrite map_app, number_expenses_ids by tauto.
      replace (maxId + 0)%Z with maxId by lia.
      apply NoDup_app_above; auto. apply NoDup_count_from.
    + clear. generalize maxId. induction (List.length imported); simpl; intros; auto.
      specialize (IHn (maxId0 + 1)%Z). lia.
    + intros _. now rewrite Hmax.
Qed.
(** *** The import routes *)

Section ImportRoutes.

Variable rt : JSRuntime.
Variable now : jsval.
Variable write_ok : bool.

(** The lists of a dataset that a recalculation returned. *)
Lemma recalculate_lists (db db' : Database.t) :
  recalculateAllMetadata rt db = Returns db' ->
  (forall q, program_students db' q
             = map (update_student rt) (program_students db q))
  /\ (forall q, registry_sponsors db' q = registry_sponsors db q)
  /\ Database.daily_expenses db' = Database.daily_expenses db.
Proof.
  intros H.
  destruct (recalculateAllMetadata_returns rt _ H)
    as (programs & registries & metadata & Hp & Hr & Hm & ->).
  split; [|split; [|reflexivity]].
  - intros q. unfold program_students. simpl. rewrite Hp, lookup_map_entries.
    destruct (lookup programs q) as [p|]; simpl; auto.
    rewrite recalculate_program_students.
    destruct (Program.students p); reflexivity.
  - intros q. unfold registry_sponsors. simpl. rewrite Hr, lookup_map_entries.
    destruct (lookup registries q) as [r|]; simpl; auto.
    now rewrite recalculate_registry_students.
Qed.

(** The lists after an import that the route answers with 200. *)
Lemma import_saved (integrated database : Database.t) (file : Database.t) :
  recalculateAllMetadata rt integrated = Returns database ->
  fst (save_and_reply rt now write_ok database file) = ok ->
  (forall q, program_students (snd (save_and_reply rt now write_ok database file)) q
             = map (update_student rt) (program_students integrated q))
  /\ (forall q, registry_sponsors
                  (snd (save_and_reply rt now write_ok database file)) q
                = registry_sponsors integrated q)
  /\ Database.daily_expenses (snd (save_and_reply rt now write_ok database file))
     = Database.daily_expenses integrated.
Proof.
  intros H1. unfold save_and_reply, saveDatabase.
  destruct (recalculateAllMetadata rt (set_last_updated database now))
    as [data'|data'] eqn:E2; [|discriminate].
  destruct write_ok; [|discriminate]. simpl. intros _.
  destruct (recalculate_lists _ H1) as (Hp1 & Hr1 & He1).
  destruct (recalculate_lists _ E2) as (Hp2 & Hr2 & He2).
  split; [|split].
  - intros q. rewrite Hp2.
    change (program_students (set_last_updated database now) q)
      with (program_students database q).
    rewrite Hp1, map_map. apply map_ext. intros s. apply update_student_twice.
  - intros q. rewrite Hr2.
    change (registry_sponsors (set_last_updated database now) q)
      with (registry_sponsors database q).
    apply Hr1.
  - rewrite He2. simpl. exact He1.
Qed.

(** X27: an Excel import never adds a record.  [processExcelImport]
    puts the sections it reads under [data], and the integration reads
    them from the object itself: for the types ['students'], ['sponsors']
    and ['all'] (the default), and for any unknown type, the route answers
    500 and the file is as it was; for the type ['expenses'] a successful
    import leaves the student lists as a plain save does and the sponsor
    lists as they were, and the expense list as it was, or empty under the
    strategy ['replace'] (the default). *)
Theorem post_import_excel_adds_nothing (type merge : option string)
  (file : Database.t) :
  let result := post_import_excel rt now write_ok type merge file in
  (type <> Some "expenses" -> result = (server_error, file))
  /\ (type = Some "expenses" ->
      fst result = ok ->
      Database.daily_expenses (snd result)
      = (if String.eqb (merge_strategy merge) "replace" then Some []
         else Database.daily_expenses file)
      /\ (forall q, program_students (snd result) q
                    = map (update_student rt) (program_students file q))
      /\ (forall q, registry_sponsors (snd result) q = registry_sponsors file q)).
Proof.
  intros result. subst result. unfold post_import_excel. split.
  - intros Hne.
    set (importType := match type with
                       | Some EmptyString => VStr "all"
                       | Some s => VStr s
                       | None => VStr "all"
                       end).
    assert (Hs : exists s, importType = VStr s /\ s <> "expenses").
    { unfold importType. destruct type as [[|c s]|].
      - exists "all". split; [reflexivity|discriminate].
      - exists (String c s). split; [reflexivity|congruence].
      - exists "all". split; [reflexivity|discriminate]. }
    destruct Hs as (s & -> & Hs).
    unfold integrateImportedData, processed_import. simpl strict_eq.
    destruct (String.eqb s "students"); [reflexivity|].
    destruct (String.eqb s "sponsors"); [reflexivity|].
    destruct (String.eqb_spec s "expenses") as [->|_]; [congruence|].
    destruct (String.eqb s "all"); reflexivity.
  - intros ->. unfold integrateImportedData, processed_import.
    simpl strict_eq. cbv iota.
    set (mergeStrategy := merge_strategy merge).
    unfold integrateExpensesData. simpl ImportedData.daily_expenses.
    simpl list_of_import. simpl ImportedData.metadata.
    assert (Hcase :
              forall integrated,
                (Database.daily_expenses integrated
                 = (if String.eqb mergeStrategy "replace" then Some []
                    else Database.daily_expenses file)
                 /\ (forall q, program_students integrated q
                               = program_students file q)
                 /\ (forall q, registry_sponsors integrated q
                               = registry_sponsors file q)) ->
                let result :=
                  match
                    match Database.metadata integrated with
                    | Some _ =>
                        match recalculateAllMetadata rt integrated with
                        | Returns result => Some result
                        | Throws _ => None
                        end
                    | None => None
                    end
                  with
                  | Some database => save_and_reply rt now write_ok database file
                  | None => (server_error, file)
                  end in
                fst result = ok ->
                Database.daily_expenses (snd result)
                = (if String.eqb mergeStrategy "replace" then Some []
                   else Database.daily_expenses file)
                /\ (forall q, program_students (snd result) q
                              = map (update_student rt) (program_students file q))
                /\ (forall q, registry_sponsors (snd result) q
                              = registry_sponsors file q)).
    { intros integrated (He & Hp & Hr) result. subst result.
      destruct (Database.metadata integrated); [|discriminate].
      destruct (recalculateAllMetadata rt integrated) as [database|database]
        eqn:E; [|discriminate].
      intros Hok. destruct (@import_saved integrated database file E Hok) as (Hp' & Hr' & He').
      split; [now rewrite He'|]. split.
      - intros q. now rewrite Hp', Hp.
      - intros q. now rewrite Hr', Hr. }
    destruct (String.eqb mergeStrategy "replace") eqn:Er.
    { apply Hcase. repeat split. }
    destruct (String.eqb mergeStrategy "merge") eqn:Em.
    { destruct (Database.daily_expenses file) as [existing|] eqn:Ee.
      - apply Hcase. simpl. repeat split.
      - apply Hcase. repeat split. now symmetry. }
    destruct (String.eqb mergeStrategy "append") eqn:Ea.
    { destruct (Database.daily_expenses file) as [existing|] eqn:Ee.
      - apply Hcase. simpl. rewrite app_nil_r. repeat split.
      - discriminate. }
    apply Hcase. repeat split.
Qed.


End ImportRoutes.
(** ** The further properties on the sample dataset *)





Lemma post_registry_student_accepts_dense :
  fst (post_registry_student NodeRef.runtime sample_now true "CH"
         (sponsor_request (VStr "A")) sample_db) = ok
  /\ map Sponsor.cid
       (registry_sponsors
          (snd (post_registry_student NodeRef.runtime sample_now true "CH"
                  (sponsor_request (VStr "A")) sample_db)) "CH")
     = [1; 2; 3; 4]%Z.
Proof.
  destruct (@post_registry_student_accepts NodeRef.runtime sample_now "CH"
              (sponsor_request (VStr "A")) sample_db
              sample_programs sample_registries sample_metadata
              eq_refl eq_refl eq_refl)
    as (Hok & Hw & Hd).
  - intros r H. injection H as <-. discriminate.
  - reflexivity.
  - reflexivity.
  - split; [exact Hok|]. apply Hd. reflexivity.
Defined.



Lemma put_registry_student_rejects_sample :
  success (fst (put_registry_student NodeRef.runtime sample_now true "CH" 2
                  (sponsor_update (Some (VStr "Nobody"))) sample_db)) = false
  /\ snd (put_registry_student NodeRef.runtime sample_now true "CH" 2
            (sponsor_update (Some (VStr "Nobody"))) sample_db) = sample_db
  /\ fst (put_registry_student NodeRef.runtime sample_now true "CH" 2
            (sponsor_update (Some (VStr "Nobody"))) sample_db) = bad_request.
Proof.
  destruct (@put_registry_student_rejects NodeRef.runtime sample_now true "CH" 2
              (sponsor_update (Some (VStr "Nobody"))) sample_db (VStr "Nobody")
              eq_refl eq_refl)
    as (Hf & Hs & Hb).
  - repeat constructor.
  - split; [exact Hf|]. split; [exact Hs|].
    apply (Hb sample_registries sample_registry three_sponsors 1%nat);
      try reflexivity.
    discriminate.
Defined.

Lemma put_registry_student_updates_sample :
  fst (put_registry_student NodeRef.runtime sample_now true "CH" 2
         (sponsor_update (Some (VStr EmptyString))) sample_db) = ok
  /\ registry_sponsors
       (snd (put_registry_student NodeRef.runtime sample_now true "CH" 2
               (sponsor_update (Some (VStr EmptyString))) sample_db)) "CH"
     = [ sponsor_1;
         assign_sponsor sponsor_2 (sponsor_update (Some (VStr EmptyString)));
         sponsor_3 ].
Proof.
  apply (@put_registry_student_updates NodeRef.runtime sample_now "CH" 2
           (sponsor_update (Some (VStr EmptyString))) sample_db
           sample_registries sample_registry [sponsor_1] [sponsor_3] sponsor_2
           sample_programs sample_metadata);
    try reflexivity.
  - constructor; [discriminate|constructor].
  - left. reflexivity.
Defined.


Lemma calculateSponsorStatistics_agrees_sample :
  exists stats,
    calculateSponsorStatistics NodeRef.runtime
      (recalculated NodeRef.runtime sample_db) = Normal stats
    /\ calculateSponsorStatistics NodeRef.runtime sample_db = Normal stats.
Proof.
  destruct (@calculateSponsorStatistics_agrees NodeRef.runtime sample_db
              (recalculated NodeRef.runtime sample_db))
    as (stats & registries' & metadata' & summary & H1 & H2 & _).
  - vm_compute. reflexivity.
  - exists stats. split; assumption.
Defined.


Lemma calculateFinancialSummary_totals_sample :
  exists s,
    calculateFinancialSummary NodeRef.runtime
      (recalculated NodeRef.runtime sample_db) = Normal s
    /\ FinancialSummary.totalIncomeUGX s
       = (FinancialSummary.totalIncomeEUR s * EXCHANGE_RATE)%float.
Proof.
  destruct (@calculateFinancialSummary_totals NodeRef.runtime sample_db
              (recalculated NodeRef.runtime sample_db)
              [("CH", sample_program_after)])
    as (s & metadata' & summary & H1 & _ & _ & _ & _ & H2 & _).
  - vm_compute. reflexivity.
  - vm_compute. reflexivity.
  - constructor; [discriminate|constructor].
  - exists s. split; assumption.
Defined.

Lemma calculateAnalytics_categories_sample :
  exists analytics,
    calculateAnalytics NodeRef.runtime sample_db_with_expenses = Normal analytics
    /\ total_count (Analytics.sponsor_categories analytics) = 3%Z.
Proof.
  destruct (@calculateAnalytics_categories NodeRef.runtime
              sample_db_with_expenses sample_programs sample_registries
              eq_refl eq_refl)
    as (analytics & H1 & _ & _ & H2 & _).
  - repeat constructor.
  - exists analytics. split; [exact H1|exact H2].
Defined.

Lemma integrateExpensesData_ids_sample :
  exists expenses,
    integrateExpensesData sample_db_with_expenses sample_import "merge"
    = Returns (set_daily_expenses sample_db_with_expenses expenses)
    /\ NoDup (map Expense.id expenses).
Proof.
  destruct (@integrateExpensesData_ids sample_db_with_expenses sample_import
              sample_expenses eq_refl)
    as [Hm _].
  { unfold ids_below. simpl List.length.
    change (2 ^ 53)%Z with 9007199254740992%Z.
    split; [lia|]. repeat constructor; simpl; lia. }
  destruct (Hm "merge" (or_introl eq_refl))
    as (expenses & added & H1 & _ & _ & _ & H2 & _).
  exists expenses. split; [exact H1|]. apply H2.
  repeat constructor; simpl; intros H; decompose [or] H; try discriminate; auto.
Defined.
Section ExpenseUpdates.

Variable rt : JSRuntime.
Variable now : jsval.

(** X29: a request that updates an expense is answered with 200 when an
    expense carries the identifier, the write succeeds and the dataset has
    its sections: the first expense with that identifier takes every
    property of the body; the other expenses, the length and the order of
    the list stay.  A body without [id] leaves the identifiers as they
    are; a body whose [id] is the identifier of another expense leaves two
    expenses with the same identifier. *)
Theorem put_expense_updates (k : Z) (updates : ExpenseUpdate.t)
  (file : Database.t) (before after : list Expense.t) (e : Expense.t)
  (programs : list (string * Program.t))
  (registries : list (string * Registry.t)) (metadata : Database.metadata_t) :
  Database.daily_expenses file = Some (before ++ e :: after)%list ->
  Forall (fun x => Expense.id x <> k) before ->
  Expense.id e = k ->
  Database.sponsorship_programs file = Some programs ->
  Database.sponsorship_registry file = Some registries ->
  Database.metadata file = Some metadata ->
  let result := put_expense rt now true k updates file in
  let expenses := (before ++ assign_expense e updates :: after)%list in
  fst result = ok
  /\ Database.daily_expenses (snd result) = Some expenses
  /\ (ExpenseUpdate.id updates = None ->
      map Expense.id expenses = map Expense.id (before ++ e :: after))
  /\ (forall n,
        ExpenseUpdate.id updates = Some n ->
        In n (map Expense.id (before ++ after)) ->
        ~ NoDup (map Expense.id expenses)).
Proof.
  intros He Hb Hk Hp Hr Hm result expenses. subst result expenses.
  unfold put_expense. rewrite He.
  rewrite (findIndex_first (fun x => (Expense.id x =? k)%Z));
    [| eapply Forall_impl; [|exact Hb]; intros x Hx; now apply Z.eqb_neq
     | now apply Z.eqb_eq ].
  rewrite update_at_middle.
  destruct (save_and_reply_writes rt now
              (set_daily_expenses file
                 (before ++ assign_expense e updates :: after)%list)
              file Hp Hr Hm)
    as (db' & Hsave & _ & _ & Hexp & _).
  rewrite Hsave. simpl fst. simpl snd.
  split; [reflexivity|]. split; [exact Hexp|]. split.
  - intros Hid. rewrite !map_app. simpl. unfold assigned. now rewrite Hid.
  - intros n Hid Hin Hnd. rewrite map_app in *. simpl in Hnd.
    unfold assigned in Hnd. rewrite Hid in Hnd.
    apply NoDup_remove_2 in Hnd. contradiction.
Qed.

End ExpenseUpdates.

(** *** The further properties on sample requests *)

Lemma put_expense_updates_sample :
  fst (put_expense NodeRef.runtime sample_now true 4 (expense_update (Some 1%Z))
         sample_db_with_expenses) = ok
  /\ option_map (map Expense.id)
       (Database.daily_expenses
          (snd (put_expense NodeRef.runtime sample_now true 4
                  (expense_update (Some 1%Z)) sample_db_with_expenses)))
     = Some [1; 1]%Z.
Proof.
  destruct (@put_expense_updates NodeRef.runtime sample_now 4
              (expense_update (Some 1%Z)) sample_db_with_expenses
              [Expense.make 1 (VStr "2025-01-05") (VStr "A") (VStr "food")
                 (VNum 1000) (VStr "lunch") (VStr "UGX")]
              []
              (Expense.make 4 (VStr "2025-01-06") (VStr "B") VUndef (VNum 500)
                 (VStr "bus") (VStr "UGX"))
              sample_programs sample_registries sample_metadata
              eq_refl)
    as (Hok & Hexp & _); try reflexivity.
  - constructor; [discriminate|constructor].
  - split; [exact Hok|]. rewrite Hexp. reflexivity.
Defined.

Lemma routes_not_found_sample :
  delete_program_student NodeRef.runtime sample_now true "CH" 9 sample_db
  = (not_found, sample_db)
  /\ put_expense NodeRef.runtime sample_now true 9 (expense_update None)
       sample_db = (not_found, sample_db)
  /\ post_program_student NodeRef.runtime sample_now true "YSP" student_request
       sample_db = (not_found, sample_db).
Proof.
  destruct (routes_not_found NodeRef.runtime sample_now true sample_db)
    as (Hs & _ & He & Hp).
  split; [|split].
  - apply (Hs "CH" 9%Z student_update sample_programs eq_refl).
    right. exists sample_program, [student_A; student_B].
    repeat split. repeat constructor; discriminate.
  - apply (He 9%Z (expense_update None)). left. reflexivity.
  - apply (Hp "YSP" student_request sample_programs); reflexivity.
Defined.

Lemma delete_undoes_add_sample :
  remove_student 4 (three_students ++ [student_C]) = Some three_students.
Proof.
  apply (proj1 delete_undoes_add three_students student_C); reflexivity.
Defined.

Lemma reports_throw_sample :
  exists report analytics,
    generateFinancialReport NodeRef.runtime sample_now
      (recalculated NodeRef.runtime sample_db) = Normal report
    /\ calculateAnalytics NodeRef.runtime (recalculated NodeRef.runtime sample_db)
       = Normal analytics.
Proof.
  destruct (reports_throw NodeRef.runtime sample_now
              (recalculated NodeRef.runtime sample_db))
    as (_ & _ & _ & _ & _ & H).
  apply (H sample_db). vm_compute. reflexivity.
Defined.

Lemma updateRegistryMetadata_recalculates_sample :
  exists db' registries',
    updateRegistryMetadata NodeRef.runtime "CH" sample_db = Normal db'
    /\ Database.sponsorship_registry db' = Some registries'
    /\ lookup registries' "CH" = Some sample_registry_after.
Proof.
  destruct (updateRegistryMetadata_recalculates NodeRef.runtime "CH" sample_db)
    as [_ H].
  destruct (H sample_registries eq_refl) as (db' & registries' & H1 & H2 & H3 & _).
  exists db', registries'. split; [exact H1|]. split; [exact H2|exact H3].
Defined.

Lemma import_keeps_numbering_sample :
  map Student.serial_number
    (merged_students three_students
       [ Student.make 7 (VStr "B") VUndef None (VStr "new");
         Student.make 8 (VStr "E") (VStr "Day") None VUndef ])
  = count_from 0
      (List.length
         (merged_students three_students
            [ Student.make 7 (VStr "B") VUndef None (VStr "new");
              Student.make 8 (VStr "E") (VStr "Day") None VUndef ])).
Proof.
  destruct (proj1 import_keeps_numbering three_students
              [ Student.make 7 (VStr "B") VUndef None (VStr "new");
                Student.make 8 (VStr "E") (VStr "Day") None VUndef ])
    as (_ & _ & H).
  apply H. reflexivity.
Defined.

Lemma integrate_lists_sample :
  exists database',
    integrateStudentsData sample_db students_import "append" = Returns database'
    /\ map Student.serial_number (program_students database' "CH")
       = [1; 2; 3; 4]%Z.
Proof.
  destruct (integrateStudentsData sample_db students_import "append")
    as [database'|database'] eqn:E; [|vm_compute in E; discriminate].
  exists database'. split; [reflexivity|].
  destruct (integrate_lists sample_db students_import "append")
    as (_ & _ & H & _).
  destruct (H database' E) as (imported & Hi & _ & Hp).
  injection Hi as <-. rewrite (Hp "CH"). reflexivity.
Defined.

Lemma post_import_excel_adds_nothing_sample :
  post_import_excel NodeRef.runtime sample_now true None None sample_db
  = (server_error, sample_db)
  /\ post_import_excel NodeRef.runtime sample_now true (Some "students")
       (Some "merge") sample_db
     = (server_error, sample_db).
Proof.
  split.
  - apply (proj1 (post_import_excel_adds_nothing NodeRef.runtime sample_now true
                    None None sample_db)).
    discriminate.
  - apply (proj1 (post_import_excel_adds_nothing NodeRef.runtime sample_now true
                    (Some "students") (Some "merge") sample_db)).
    discriminate.
Defined.

